(** * The server-side monitored item of node-opcua

    A shallow embedding of [lib/server/monitored_item.js]: the parameter
    normaliser, the sampler bindings, the filter evaluator, the bounded
    notification queue and the monitoring-mode state machine, followed by
    the properties of the specification that were checked against them.

    Conventions of the embedding.
    - JavaScript numbers are exact here: integer quantities (handles, queue
      size, sampling interval in milliseconds, the two 32-bit words of a
      64-bit integer) are [Z], the payload of a numeric variant and the
      deadband value are [Q].  [NaN], which the subtraction of two arrays
      produces, is a value of its own.
    - A method of [MonitoredItem] is a computation in a state-and-exception
      monad: a JavaScript exception leaves the fields as they were mutated up
      to the [throw].  Methods that only touch the fields run on a
      [MonitoredItem]; those that also set timers or listeners run on a
      [State], the item together with the [World] around it.
    - Readings are values, and every reading handed to the item is an object
      of its own.  The alias the item itself creates, between the reading
      handed to [_enqueue_value] and [oldDataValue], is written out:
      [_enqueue_value] returns the reading as it left it, [recordValue]
      stores that one, and [old_is_back] remembers that the two are one
      object for the one later write through the queue.
    - Callbacks that run later (the answer of [readValueAsync], the answer of
      the sampling function, an interval that elapses, an event of the node)
      are steps of their own, see [Op].
    - The functions imported from [lib/datamodel] ([sameDataValue],
      [apply_timestamps], [extractRange], [NumericRange.overlap]) are not part
      of the sources at hand; they are the operations of the class
      [DataModel]. *)

From Stdlib Require Import ZArith QArith Qabs Lia.
From stdpp Require Import base list.

Local Open Scope Z_scope.

(** ** Exceptions and the monad of methods *)

Inductive Exn : Type :=
| AssertionError   (* a failed [assert(...)] of better-assert *)
| TypeError.       (* a property read on [null] or [undefined] *)

Inductive Outcome (A : Type) : Type :=
| Return (a : A)
| Throw (e : Exn).
Arguments Return {A} a.
Arguments Throw {A} e.

Definition Js (S A : Type) : Type := S -> Outcome A * S.

Definition ret {S A} (a : A) : Js S A := fun s => (Return a, s).
Definition throw {S A} (e : Exn) : Js S A := fun s => (Throw e, s).
Definition bind {S A B} (m : Js S A) (k : A -> Js S B) : Js S B :=
  fun s => match m s with
           | (Return a, s') => k a s'
           | (Throw e, s') => (Throw e, s')
           end.
Definition get {S} : Js S S := fun s => (Return s, s).
Definition modify_state {S} (f : S -> S) : Js S unit := fun s => (Return tt, f s).
Definition assert {S} (b : bool) : Js S unit :=
  if b then ret tt else throw AssertionError.
Definition liftO {S A} (o : Outcome A) : Js S A := fun s => (o, s).
Definition when {S} (b : bool) (m : Js S unit) : Js S unit :=
  if b then m else ret tt.

Declare Scope js_scope.
Delimit Scope js_scope with js.
Notation "x <- m ;; k" := (bind m (fun x => k))
  (at level 100, m at next level, right associativity) : js_scope.
Notation "m ;; k" := (bind m (fun _ => k))
  (at level 100, right associativity) : js_scope.
Local Open Scope js_scope.

Definition obind {A B} (o : Outcome A) (k : A -> Outcome B) : Outcome B :=
  match o with
  | Return a => k a
  | Throw e => Throw e
  end.

(** ** Data model *)

Inductive StatusCode : Type :=
| Good
| GoodWithOverflowBit
| BadOutOfRange
| BadDataUnavailable
| OtherStatus (code : Z).

Definition StatusCode_eqb (a b : StatusCode) : bool :=
  match a, b with
  | Good, Good => true
  | GoodWithOverflowBit, GoodWithOverflowBit => true
  | BadOutOfRange, BadOutOfRange => true
  | BadDataUnavailable, BadDataUnavailable => true
  | OtherStatus x, OtherStatus y => x =? y
  | _, _ => false
  end.

Inductive DataType : Type :=
| Double | Float | Int32 | UInt32 | Int64 | UInt64.

Definition DataType_eqb (a b : DataType) : bool :=
  match a, b with
  | Double, Double | Float, Float | Int32, Int32 | UInt32, UInt32
  | Int64, Int64 | UInt64, UInt64 => true
  | _, _ => false
  end.

(** The [value] of a variant: a number, or the array [[high, low]] of a
    64-bit integer. *)
Inductive Payload : Type :=
| Scalar (x : Q)
| Words (high low : Z).

Record Variant : Type := { dataType : DataType; value : Payload }.

(** [dv_value] is [None] for a reading built without a variant, as
    [new DataValue({statusCode: ...})] is. *)
Record DataValue : Type := {
  dv_value : option Variant;
  statusCode : StatusCode;
  sourceTimestamp : option Z;
  sourcePicoseconds : option Z;
  serverTimestamp : option Z;
  serverPicoseconds : option Z }.

Definition set_statusCode (c : StatusCode) (d : DataValue) : DataValue :=
  {| dv_value := dv_value d; statusCode := c;
     sourceTimestamp := sourceTimestamp d;
     sourcePicoseconds := sourcePicoseconds d;
     serverTimestamp := serverTimestamp d;
     serverPicoseconds := serverPicoseconds d |}.

(** [new DataValue({statusCode: StatusCodes.BadDataUnavailable})] *)
Definition unset_DataValue : DataValue :=
  {| dv_value := None; statusCode := BadDataUnavailable;
     sourceTimestamp := None; sourcePicoseconds := None;
     serverTimestamp := None; serverPicoseconds := None |}.

Inductive MonitoringMode : Type :=
| Disabled | Sampling | Reporting | Invalid.

Definition MonitoringMode_eqb (a b : MonitoringMode) : bool :=
  match a, b with
  | Disabled, Disabled | Sampling, Sampling
  | Reporting, Reporting | Invalid, Invalid => true
  | _, _ => false
  end.

Inductive TimestampsToReturn : Type :=
| Source | Server | Both | Neither.

Inductive DataChangeTrigger : Type :=
| Status | StatusValue | StatusValueTimestamp.

Inductive DeadbandType : Type :=
| DeadbandNone | Absolute | Percent.

(** [self.filter]: a [DataChangeFilter], or an extension object of another
    class. *)
Inductive Filter : Type :=
| DataChangeFilter (trigger : DataChangeTrigger)
                   (deadbandType : DeadbandType) (deadbandValue : Q)
| OtherFilter.

Inductive NumericRange : Type :=
| EmptyRange
| SingleValue (i : Z)
| ArrayRange (low high : Z).

Definition AttributeId := Z.
Definition AttributeIds_Value : AttributeId := 13.

Record ReadValueId : Type := {
  attributeId : AttributeId;
  indexRange : option NumericRange }.

(** [defaultItemToMonitor] *)
Definition defaultItemToMonitor : ReadValueId :=
  {| attributeId := AttributeIds_Value; indexRange := None |}.

Record Range : Type := { range_low : Q; range_high : Q }.

(** The node of the address space the item observes: what the item can ask
    of it synchronously, and its engineering-unit range when it is an analog
    item. *)
Record Node : Type := {
  readAttribute : AttributeId -> DataValue;
  euRange : option Range }.

(** [self._samplingId]: [null] at construction, [0] once a timer was
    cleared, the handle of [setInterval] in between. *)
Inductive SamplingId : Type :=
| IdNull
| IdZero
| IdTimer (handle : nat).

Definition truthy (i : SamplingId) : bool :=
  match i with IdTimer _ => true | _ => false end.

Record MonitoredItemNotification : Type := {
  n_clientHandle : Z;
  n_value : DataValue }.

(** The functions of [lib/datamodel] the item calls. *)
Class DataModel : Type := {
  sameDataValue : DataValue -> DataValue -> bool;
  apply_timestamps : DataValue -> TimestampsToReturn -> AttributeId -> DataValue;
  extractRange : DataValue -> option NumericRange -> DataValue;
  NumericRange_overlap : option NumericRange -> option NumericRange -> bool }.

(** ** The monitored item and its surroundings *)

(** The fields of a [MonitoredItem].  A bound listener is the identity of
    the function object [bind] returned; [samplingFunc] tells whether the
    owning subscription has installed its sampling function.  [old_is_back]
    is not a field of the source: it records that [oldDataValue] and the
    back of the queue are one object, which they are from an enqueue until
    [oldDataValue] is replaced by a new object. *)
Record MonitoredItem : Type := {
  _samplingId : SamplingId;
  clientHandle : Z;
  samplingInterval : Z;
  discardOldest : bool;
  queueSize : Z;
  monitoredItemId : Z;
  queue : list DataValue;
  overflow : bool;
  oldDataValue : DataValue;
  monitoringMode : MonitoringMode;
  timestampsToReturn : TimestampsToReturn;
  itemToMonitor : ReadValueId;
  filter : option Filter;
  node : option Node;
  _value_changed_callback : option nat;
  _attribute_changed_callback : option nat;
  _is_sampling : bool;
  samplingFunc : bool;
  old_is_back : bool }.

Definition set__samplingId (v : SamplingId) (s : MonitoredItem) : MonitoredItem :=
  {| _samplingId := v; clientHandle := clientHandle s;
     samplingInterval := samplingInterval s;
     discardOldest := discardOldest s; queueSize := queueSize s;
     monitoredItemId := monitoredItemId s; queue := queue s;
     overflow := overflow s; oldDataValue := oldDataValue s;
     monitoringMode := monitoringMode s;
     timestampsToReturn := timestampsToReturn s;
     itemToMonitor := itemToMonitor s; filter := filter s; node := node s;
     _value_changed_callback := _value_changed_callback s;
     _attribute_changed_callback := _attribute_changed_callback s;
     _is_sampling := _is_sampling s; samplingFunc := samplingFunc s;
     old_is_back := old_is_back s |}.

Definition set_clientHandle (v : Z) (s : MonitoredItem) : MonitoredItem :=
  {| _samplingId := _samplingId s; clientHandle := v;
     samplingInterval := samplingInterval s;
     discardOldest := discardOldest s; queueSize := queueSize s;
     monitoredItemId := monitoredItemId s; queue := queue s;
     overflow := overflow s; oldDataValue := oldDataValue s;
     monitoringMode := monitoringMode s;
     timestampsToReturn := timestampsToReturn s;
     itemToMonitor := itemToMonitor s; filter := filter s; node := node s;
     _value_changed_callback := _value_changed_callback s;
     _attribute_changed_callback := _attribute_changed_callback s;
     _is_sampling := _is_sampling s; samplingFunc := samplingFunc s;
     old_is_back := old_is_back s |}.

Definition set_samplingInterval (v : Z) (s : MonitoredItem) : MonitoredItem :=
  {| _samplingId := _samplingId s; clientHandle := clientHandle s;
     samplingInterval := v; discardOldest := discardOldest s;
     queueSize := queueSize s; monitoredItemId := monitoredItemId s;
     queue := queue s; overflow := overflow s;
     oldDataValue := oldDataValue s; monitoringMode := monitoringMode s;
     timestampsToReturn := timestampsToReturn s;
     itemToMonitor := itemToMonitor s; filter := filter s; node := node s;
     _value_changed_callback := _value_changed_callback s;
     _attribute_changed_callback := _attribute_changed_callback s;
     _is_sampling := _is_sampling s; samplingFunc := samplingFunc s;
     old_is_back := old_is_back s |}.

Definition set_discardOldest (v : bool) (s : MonitoredItem) : MonitoredItem :=
  {| _samplingId := _samplingId s; clientHandle := clientHandle s;
     samplingInterval := samplingInterval s; discardOldest := v;
     queueSize := queueSize s; monitoredItemId := monitoredItemId s;
     queue := queue s; overflow := overflow s;
     oldDataValue := oldDataValue s; monitoringMode := monitoringMode s;
     timestampsToReturn := timestampsToReturn s;
     itemToMonitor := itemToMonitor s; filter := filter s; node := node s;
     _value_changed_callback := _value_changed_callback s;
     _attribute_changed_callback := _attribute_changed_callback s;
     _is_sampling := _is_sampling s; samplingFunc := samplingFunc s;
     old_is_back := old_is_back s |}.

Definition set_queueSize (v : Z) (s : MonitoredItem) : MonitoredItem :=
  {| _samplingId := _samplingId s; clientHandle := clientHandle s;
     samplingInterval := samplingInterval s;
     discardOldest := discardOldest s; queueSize := v;
     monitoredItemId := monitoredItemId s; queue := queue s;
     overflow := overflow s; oldDataValue := oldDataValue s;
     monitoringMode := monitoringMode s;
     timestampsToReturn := timestampsToReturn s;
     itemToMonitor := itemToMonitor s; filter := filter s; node := node s;
     _value_changed_callback := _value_changed_callback s;
     _attribute_changed_callback := _attribute_changed_callback s;
     _is_sampling := _is_sampling s; samplingFunc := samplingFunc s;
     old_is_back := old_is_back s |}.

Definition set_queue (v : list DataValue) (s : MonitoredItem) : MonitoredItem :=
  {| _samplingId := _samplingId s; clientHandle := clientHandle s;
     samplingInterval := samplingInterval s;
     discardOldest := discardOldest s; queueSize := queueSize s;
     monitoredItemId := monitoredItemId s; queue := v;
     overflow := overflow s; oldDataValue := oldDataValue s;
     monitoringMode := monitoringMode s;
     timestampsToReturn := timestampsToReturn s;
     itemToMonitor := itemToMonitor s; filter := filter s; node := node s;
     _value_changed_callback := _value_changed_callback s;
     _attribute_changed_callback := _attribute_changed_callback s;
     _is_sampling := _is_sampling s; samplingFunc := samplingFunc s;
     old_is_back := old_is_back s |}.

Definition set_overflow (v : bool) (s : MonitoredItem) : MonitoredItem :=
  {| _samplingId := _samplingId s; clientHandle := clientHandle s;
     samplingInterval := samplingInterval s;
     discardOldest := discardOldest s; queueSize := queueSize s;
     monitoredItemId := monitoredItemId s; queue := queue s;
     overflow := v; oldDataValue := oldDataValue s;
     monitoringMode := monitoringMode s;
     timestampsToReturn := timestampsToReturn s;
     itemToMonitor := itemToMonitor s; filter := filter s; node := node s;
     _value_changed_callback := _value_changed_callback s;
     _attribute_changed_callback := _attribute_changed_callback s;
     _is_sampling := _is_sampling s; samplingFunc := samplingFunc s;
     old_is_back := old_is_back s |}.

Definition set_oldDataValue (v : DataValue) (s : MonitoredItem) : MonitoredItem :=
  {| _samplingId := _samplingId s; clientHandle := clientHandle s;
     samplingInterval := samplingInterval s;
     discardOldest := discardOldest s; queueSize := queueSize s;
     monitoredItemId := monitoredItemId s; queue := queue s;
     overflow := overflow s; oldDataValue := v;
     monitoringMode := monitoringMode s;
     timestampsToReturn := timestampsToReturn s;
     itemToMonitor := itemToMonitor s; filter := filter s; node := node s;
     _value_changed_callback := _value_changed_callback s;
     _attribute_changed_callback := _attribute_changed_callback s;
     _is_sampling := _is_sampling s; samplingFunc := samplingFunc s;
     old_is_back := old_is_back s |}.

Definition set_monitoringMode (v : MonitoringMode) (s : MonitoredItem) : MonitoredItem :=
  {| _samplingId := _samplingId s; clientHandle := clientHandle s;
     samplingInterval := samplingInterval s;
     discardOldest := discardOldest s; queueSize := queueSize s;
     monitoredItemId := monitoredItemId s; queue := queue s;
     overflow := overflow s; oldDataValue := oldDataValue s;
     monitoringMode := v; timestampsToReturn := timestampsToReturn s;
     itemToMonitor := itemToMonitor s; filter := filter s; node := node s;
     _value_changed_callback := _value_changed_callback s;
     _attribute_changed_callback := _attribute_changed_callback s;
     _is_sampling := _is_sampling s; samplingFunc := samplingFunc s;
     old_is_back := old_is_back s |}.

Definition set_timestampsToReturn (v : TimestampsToReturn) (s : MonitoredItem) : MonitoredItem :=
  {| _samplingId := _samplingId s; clientHandle := clientHandle s;
     samplingInterval := samplingInterval s;
     discardOldest := discardOldest s; queueSize := queueSize s;
     monitoredItemId := monitoredItemId s; queue := queue s;
     overflow := overflow s; oldDataValue := oldDataValue s;
     monitoringMode := monitoringMode s; timestampsToReturn := v;
     itemToMonitor := itemToMonitor s; filter := filter s; node := node s;
     _value_changed_callback := _value_changed_callback s;
     _attribute_changed_callback := _attribute_changed_callback s;
     _is_sampling := _is_sampling s; samplingFunc := samplingFunc s;
     old_is_back := old_is_back s |}.

Definition set_node (v : option Node) (s : MonitoredItem) : MonitoredItem :=
  {| _samplingId := _samplingId s; clientHandle := clientHandle s;
     samplingInterval := samplingInterval s;
     discardOldest := discardOldest s; queueSize := queueSize s;
     monitoredItemId := monitoredItemId s; queue := queue s;
     overflow := overflow s; oldDataValue := oldDataValue s;
     monitoringMode := monitoringMode s;
     timestampsToReturn := timestampsToReturn s;
     itemToMonitor := itemToMonitor s; filter := filter s; node := v;
     _value_changed_callback := _value_changed_callback s;
     _attribute_changed_callback := _attribute_changed_callback s;
     _is_sampling := _is_sampling s; samplingFunc := samplingFunc s;
     old_is_back := old_is_back s |}.

Definition set__value_changed_callback (v : option nat) (s : MonitoredItem) : MonitoredItem :=
  {| _samplingId := _samplingId s; clientHandle := clientHandle s;
     samplingInterval := samplingInterval s;
     discardOldest := discardOldest s; queueSize := queueSize s;
     monitoredItemId := monitoredItemId s; queue := queue s;
     overflow := overflow s; oldDataValue := oldDataValue s;
     monitoringMode := monitoringMode s;
     timestampsToReturn := timestampsToReturn s;
     itemToMonitor := itemToMonitor s; filter := filter s; node := node s;
     _value_changed_callback := v;
     _attribute_changed_callback := _attribute_changed_callback s;
     _is_sampling := _is_sampling s; samplingFunc := samplingFunc s;
     old_is_back := old_is_back s |}.

Definition set__attribute_changed_callback (v : option nat) (s : MonitoredItem) : MonitoredItem :=
  {| _samplingId := _samplingId s; clientHandle := clientHandle s;
     samplingInterval := samplingInterval s;
     discardOldest := discardOldest s; queueSize := queueSize s;
     monitoredItemId := monitoredItemId s; queue := queue s;
     overflow := overflow s; oldDataValue := oldDataValue s;
     monitoringMode := monitoringMode s;
     timestampsToReturn := timestampsToReturn s;
     itemToMonitor := itemToMonitor s; filter := filter s; node := node s;
     _value_changed_callback := _value_changed_callback s;
     _attribute_changed_callback := v; _is_sampling := _is_sampling s;
     samplingFunc := samplingFunc s; old_is_back := old_is_back s |}.

Definition set__is_sampling (v : bool) (s : MonitoredItem) : MonitoredItem :=
  {| _samplingId := _samplingId s; clientHandle := clientHandle s;
     samplingInterval := samplingInterval s;
     discardOldest := discardOldest s; queueSize := queueSize s;
     monitoredItemId := monitoredItemId s; queue := queue s;
     overflow := overflow s; oldDataValue := oldDataValue s;
     monitoringMode := monitoringMode s;
     timestampsToReturn := timestampsToReturn s;
     itemToMonitor := itemToMonitor s; filter := filter s; node := node s;
     _value_changed_callback := _value_changed_callback s;
     _attribute_changed_callback := _attribute_changed_callback s;
     _is_sampling := v; samplingFunc := samplingFunc s;
     old_is_back := old_is_back s |}.

Definition set_samplingFunc (v : bool) (s : MonitoredItem) : MonitoredItem :=
  {| _samplingId := _samplingId s; clientHandle := clientHandle s;
     samplingInterval := samplingInterval s;
     discardOldest := discardOldest s; queueSize := queueSize s;
     monitoredItemId := monitoredItemId s; queue := queue s;
     overflow := overflow s; oldDataValue := oldDataValue s;
     monitoringMode := monitoringMode s;
     timestampsToReturn := timestampsToReturn s;
     itemToMonitor := itemToMonitor s; filter := filter s; node := node s;
     _value_changed_callback := _value_changed_callback s;
     _attribute_changed_callback := _attribute_changed_callback s;
     _is_sampling := _is_sampling s; samplingFunc := v;
     old_is_back := old_is_back s |}.

Definition set_old_is_back (v : bool) (s : MonitoredItem) : MonitoredItem :=
  {| _samplingId := _samplingId s; clientHandle := clientHandle s;
     samplingInterval := samplingInterval s;
     discardOldest := discardOldest s; queueSize := queueSize s;
     monitoredItemId := monitoredItemId s; queue := queue s;
     overflow := overflow s; oldDataValue := oldDataValue s;
     monitoringMode := monitoringMode s;
     timestampsToReturn := timestampsToReturn s;
     itemToMonitor := itemToMonitor s; filter := filter s; node := node s;
     _value_changed_callback := _value_changed_callback s;
     _attribute_changed_callback := _attribute_changed_callback s;
     _is_sampling := _is_sampling s; samplingFunc := samplingFunc s;
     old_is_back := v |}.

Inductive EventName : Type :=
| value_changed
| AttributeEvent (a : AttributeId).   (* [BaseNode.makeAttributeEventName] *)

Definition EventName_eqb (a b : EventName) : bool :=
  match a, b with
  | value_changed, value_changed => true
  | AttributeEvent x, AttributeEvent y => x =? y
  | _, _ => false
  end.

(** What the item acts upon outside of itself: the intervals of the event
    loop, the listeners of the node, the registry of running items, and the
    calls whose callback has not run yet. *)
Record World : Type := {
  timers : list (nat * Z);               (* handle, period *)
  listeners : list (EventName * nat);    (* event, listener *)
  registered : bool;                     (* [g_running_MonitoredItem] *)
  next_handle : nat;                     (* next fresh object identity *)
  pending_reads : nat;                   (* [readValueAsync] in flight *)
  pending_samplings : nat }.             (* [samplingFunc] in flight *)

Definition set_timers (v : list (nat * Z)) (w : World) : World :=
  {| timers := v; listeners := listeners w; registered := registered w;
     next_handle := next_handle w; pending_reads := pending_reads w;
     pending_samplings := pending_samplings w |}.
Definition set_listeners (v : list (EventName * nat)) (w : World) : World :=
  {| timers := timers w; listeners := v; registered := registered w;
     next_handle := next_handle w; pending_reads := pending_reads w;
     pending_samplings := pending_samplings w |}.
Definition set_registered (v : bool) (w : World) : World :=
  {| timers := timers w; listeners := listeners w; registered := v;
     next_handle := next_handle w; pending_reads := pending_reads w;
     pending_samplings := pending_samplings w |}.
Definition set_next_handle (v : nat) (w : World) : World :=
  {| timers := timers w; listeners := listeners w; registered := registered w;
     next_handle := v; pending_reads := pending_reads w;
     pending_samplings := pending_samplings w |}.
Definition set_pending_reads (v : nat) (w : World) : World :=
  {| timers := timers w; listeners := listeners w; registered := registered w;
     next_handle := next_handle w; pending_reads := v;
     pending_samplings := pending_samplings w |}.
Definition set_pending_samplings (v : nat) (w : World) : World :=
  {| timers := timers w; listeners := listeners w; registered := registered w;
     next_handle := next_handle w; pending_reads := pending_reads w;
     pending_samplings := v |}.

Record State : Type := { item : MonitoredItem; world : World }.

Definition on_self (f : MonitoredItem -> MonitoredItem) (s : State) : State :=
  {| item := f (item s); world := world s |}.
Definition on_world (f : World -> World) (s : State) : State :=
  {| item := item s; world := f (world s) |}.

(** A method that touches the fields only, run on the whole state. *)
Definition lift_self {A} (m : Js MonitoredItem A) : Js State A :=
  fun s => (fst (m (item s)), {| item := snd (m (item s)); world := world s |}).

(** ** Parameter normaliser *)

Definition minimumSamplingInterval : Z := 50.
Definition defaultSamplingInterval : Z := 1500.
Definition maximumSamplingInterval : Z := 1000 * 60 * 60.

(** [samplingInterval || defaultSamplingInterval] keeps a number that is
    neither zero nor [NaN], and zero has returned before. *)
Definition _adjust_sampling_interval (samplingInterval : Z) : Outcome Z :=
  if samplingInterval =? 0 then Return samplingInterval
  else if negb (0 <=? samplingInterval) then Throw AssertionError
  else Return (Z.min (Z.max samplingInterval minimumSamplingInterval)
                     maximumSamplingInterval).

Definition maxQueueSize : Z := 5000.

Definition _adjust_queue_size (queueSize : Z) : Z :=
  Z.max 1 (Z.min queueSize maxQueueSize).

(** [MonitoringParameters], and the [options] of the constructor. *)
Record MonitoringParameters : Type := {
  o_clientHandle : Z;
  o_samplingInterval : Z;
  o_discardOldest : bool;
  o_queueSize : Z }.

Record Options : Type := {
  o_parameters : MonitoringParameters;
  o_monitoredItemId : Z;
  o_monitoringMode : option MonitoringMode;
  o_itemToMonitor : option ReadValueId;
  o_filter : option Filter;
  o_timestampsToReturn : option TimestampsToReturn }.

(** The typed fields carry the [hasOwnProperty], [isFinite] and [isBoolean]
    assertions; the last one remains. *)
Definition _validate_parameters {S} (options : MonitoringParameters) : Js S unit :=
  assert (0 <=? o_queueSize options).

Definition _set_parameters (options : MonitoringParameters) : Js MonitoredItem unit :=
  _validate_parameters options ;;
  modify_state (set_clientHandle (o_clientHandle options)) ;;
  si <- liftO (_adjust_sampling_interval (o_samplingInterval options)) ;;
  modify_state (set_samplingInterval si) ;;
  modify_state (set_discardOldest (o_discardOldest options)) ;;
  modify_state (set_queueSize (_adjust_queue_size (o_queueSize options))).

(** The constructor.  [_set_parameters] is the only statement of it that can
    throw once [options.monitoringMode] is known to be absent, and no
    statement reads a field another one wrote: [blank] holds what the other
    statements assign. *)
Definition blank (options : Options) : MonitoredItem :=
  {| _samplingId := IdNull; clientHandle := 0; samplingInterval := 0;
     discardOldest := false; queueSize := 0;
     monitoredItemId := o_monitoredItemId options;
     queue := []; overflow := false;
     oldDataValue := unset_DataValue;
     monitoringMode := Invalid;
     timestampsToReturn := default Neither (o_timestampsToReturn options);
     itemToMonitor := default defaultItemToMonitor (o_itemToMonitor options);
     filter := o_filter options;
     node := None;
     _value_changed_callback := None;
     _attribute_changed_callback := None;
     _is_sampling := false; samplingFunc := false;
     old_is_back := false |}.

Definition MonitoredItem_new (options : Options) : Outcome MonitoredItem :=
  match o_monitoringMode options with
  | Some _ => Throw AssertionError
  | None =>
      match _set_parameters (o_parameters options) (blank options) with
      | (Return _, self) => Return self
      | (Throw e, _) => Throw e
      end
  end.

(** ** Filter evaluator *)

Definition statusCodeHasChanged (newDataValue oldDataValue : DataValue) : bool :=
  negb (StatusCode_eqb (statusCode newDataValue) (statusCode oldDataValue)).

Inductive JsNumber : Type :=
| Num (x : Q)
| NaN.

(** [x !== 0], [Math.abs(x)] and [x > y] on numbers. *)
Definition nonzero (x : JsNumber) : bool :=
  match x with Num q => negb (Qeq_bool q 0) | NaN => true end.
Definition Math_abs (x : JsNumber) : JsNumber :=
  match x with Num q => Num (Qabs q) | NaN => NaN end.
Definition js_gt (x : JsNumber) (y : Q) : bool :=
  match x with Num q => negb (Qle_bool q y) | NaN => false end.

(** [p[0]] and [p[1]]; indexing a number yields [undefined]. *)
Definition word0 (p : Payload) : option Z :=
  match p with Words h _ => Some h | Scalar _ => None end.
Definition word1 (p : Payload) : option Z :=
  match p with Words _ l => Some l | Scalar _ => None end.

Definition strict_eq (a b : option Z) : bool :=
  match a, b with
  | Some x, Some y => x =? y
  | None, None => true
  | _, _ => false
  end.

(** [a - b] where an operand may be [undefined] or an array of two numbers:
    only two numbers subtract to a number.  A [Scalar] is a finite number,
    and two of them are subtracted as rationals, without the rounding of
    binary64: this is the difference of the source when that difference is a
    binary64 number itself, as it is for two integers of a magnitude up to
    [2 ^ 52], and it is zero exactly when the difference of the source is.
    What is proved about the size of a difference is stated for such
    integers. *)
Definition js_sub_words (a b : option Z) : JsNumber :=
  match a, b with
  | Some x, Some y => Num (inject_Z (x - y))
  | _, _ => NaN
  end.
Definition js_sub (a b : Payload) : JsNumber :=
  match a, b with
  | Scalar x, Scalar y => Num (x - y)%Q
  | _, _ => NaN
  end.

Definition difference (v1 v2 : option Variant) : Outcome JsNumber :=
  match v1, v2 with
  | Some v1, Some v2 =>
      if DataType_eqb (dataType v1) UInt64 || DataType_eqb (dataType v2) Int64
      then
        let h1 := word0 (value v1) in
        let h2 := word0 (value v2) in
        if strict_eq h1 h2
        then Return (js_sub_words (word1 (value v1)) (word1 (value v2)))
        else Throw AssertionError           (* "TODO : fix this case" *)
      else Return (js_sub (value v2) (value v1))
  | _, _ => Throw TypeError
  end.

Definition valueHasChanged (self : MonitoredItem)
    (newDataValue oldDataValue : DataValue)
    (deadbandType : DeadbandType) (deadbandValue : Q) : Outcome bool :=
  match deadbandType with
  | DeadbandNone =>
      if negb (bool_decide (is_Some (dv_value newDataValue)))
      then Throw AssertionError
      else obind (difference (dv_value oldDataValue) (dv_value newDataValue))
                 (fun d => Return (nonzero d))
  | Absolute =>
      obind (difference (dv_value oldDataValue) (dv_value newDataValue))
            (fun d => Return (js_gt (Math_abs d) deadbandValue))
  | Percent =>
      if negb (Qle_bool 0 deadbandValue && Qle_bool deadbandValue 100)
      then Throw AssertionError
      else if negb (bool_decide (is_Some (node self)))
      then Throw AssertionError
      else Return true
  end.

Definition apply_datachange_filter (self : MonitoredItem)
    (newDataValue oldDataValue : DataValue) : Outcome bool :=
  match filter self with
  | Some (DataChangeFilter trigger deadbandType deadbandValue) =>
      match trigger with
      | Status => Return (statusCodeHasChanged newDataValue oldDataValue)
      | StatusValue =>
          if statusCodeHasChanged newDataValue oldDataValue then Return true
          else valueHasChanged self newDataValue oldDataValue
                               deadbandType deadbandValue
      | StatusValueTimestamp => Return false
      end
  | _ => Throw AssertionError
  end.

(** Without a filter the source calls
    [valueHasChanged(newDataValue, oldDataValue, DeadbandType.None)]: the
    three arguments land in [self], [newDataValue] and [oldDataValue], and
    [assert(oldDataValue instanceof DataValue)] meets the deadband type. *)
Definition apply_filter (self : MonitoredItem) (newDataValue : DataValue)
  : Outcome bool :=
  let oldDataValue := oldDataValue self in
  match filter self with
  | None =>
      if statusCodeHasChanged newDataValue oldDataValue then Return true
      else Throw AssertionError
  | Some (DataChangeFilter _ _ _) =>
      apply_datachange_filter self newDataValue oldDataValue
  | Some OtherFilter => Return true
  end.

(** ** Notification queue *)

(** Both overflow branches write the status code of a reading that sits in
    the queue.  In the discard-newest branch that reading is the argument,
    which [oldDataValue] names as well; in the discard-oldest branch it is
    the front, which is the argument only when nothing else is left. *)
Definition _enqueue_value (dataValue : DataValue) : Js MonitoredItem DataValue :=
  modify_state (set_oldDataValue dataValue) ;;
  modify_state (set_old_is_back true) ;;
  self <- get ;;
  if queueSize self =? 1 then
    modify_state (set_queue [dataValue]) ;;
    ret dataValue
  else if discardOldest self then
    let pushed := queue self ++ [dataValue] in
    modify_state (set_queue pushed) ;;
    if queueSize self <? Z.of_nat (length pushed) then
      modify_state (set_overflow true) ;;
      modify_state (set_queue (tail pushed)) ;;
      match tail pushed with
      | [] => throw TypeError
      | front :: rest =>
          assert (StatusCode_eqb (statusCode front) Good) ;;
          let marked := set_statusCode GoodWithOverflowBit front in
          modify_state (set_queue (marked :: rest)) ;;
          match rest with
          | [] => modify_state (set_oldDataValue marked) ;; ret marked
          | _ :: _ => ret dataValue
          end
      end
    else ret dataValue
  else if Z.of_nat (length (queue self)) <? queueSize self then
    modify_state (set_queue (queue self ++ [dataValue])) ;;
    ret dataValue
  else
    modify_state (set_overflow true) ;;
    let marked := set_statusCode GoodWithOverflowBit dataValue in
    modify_state (set_oldDataValue marked) ;;
    modify_state
      (set_queue (<[(length (queue self) - 1)%nat := marked]> (queue self))) ;;
    ret marked.

Definition _empty_queue : Js MonitoredItem unit :=
  modify_state (set_queue []) ;;
  modify_state (set_overflow false).

(** [Array.prototype.splice(start)] and [splice(0, deleteCount)]. *)
Definition splice_from (start : Z) (l : list DataValue) : list DataValue :=
  if start <? 0
  then take (Z.to_nat (Z.max (Z.of_nat (length l) + start) 0)) l
  else take (Z.to_nat start) l.
Definition splice_front (deleteCount : Z) (l : list DataValue) : list DataValue :=
  drop (Z.to_nat deleteCount) l.

(** The argument [old_queueSize] is not used by the source.  The reading
    whose overflow bit is unset is the back of the queue, hence
    [oldDataValue] too when the two are one object. *)
Definition _adjust_queue_to_match_new_queue_size : Js MonitoredItem unit :=
  self <- get ;;
  when (queueSize self <? Z.of_nat (length (queue self)))
    (if discardOldest self then
       modify_state (set_queue
         (splice_front (Z.of_nat (length (queue self)) - queueSize self)
                       (queue self)))
     else
       match last (queue self) with
       | Some lastElement =>
           let kept := splice_from (queueSize self) (queue self) in
           modify_state (set_queue (<[(length kept - 1)%nat := lastElement]> kept))
       | None => ret tt
       end) ;;
  self <- get ;;
  when (queueSize self <=? 1)
    (modify_state (set_overflow false) ;;
     match queue self with
     | [d] =>
         when (StatusCode_eqb (statusCode d) GoodWithOverflowBit)
              (modify_state (set_queue [set_statusCode Good d]) ;;
               when (old_is_back self)
                    (modify_state (set_oldDataValue (set_statusCode Good d))))
     | _ => ret tt
     end) ;;
  self <- get ;;
  assert (Z.of_nat (length (queue self)) <=? queueSize self).

Section Methods.
Context `{DataModel}.

(** ** Ingestion *)

Definition recordValue (dataValue : DataValue)
    (indexRange' : option NumericRange) : Js MonitoredItem unit :=
  self <- get ;;
  if negb (NumericRange_overlap indexRange' (indexRange (itemToMonitor self)))
  then ret tt
  else
    let dataValue := extractRange dataValue (indexRange (itemToMonitor self)) in
    keep <- match filter self with
            | Some _ => liftO (apply_filter self dataValue)
            | None => ret true
            end ;;
    if negb keep then ret tt
    else
      dataValue <- _enqueue_value dataValue ;;
      modify_state (set_oldDataValue dataValue).

Definition _on_value_changed (dataValue : DataValue)
    (indexRange' : option NumericRange) : Js MonitoredItem unit :=
  self <- get ;;
  if negb (sameDataValue dataValue (oldDataValue self))
  then recordValue dataValue indexRange'
  else ret tt.

(** ** Extraction *)

Definition extractMonitoredItemNotifications
  : Js MonitoredItem (list MonitoredItemNotification) :=
  self <- get ;;
  if negb (MonitoringMode_eqb (monitoringMode self) Reporting) then ret []
  else
    let attributeId := attributeId (itemToMonitor self) in
    let notifications :=
      map (fun dataValue =>
             {| n_clientHandle := clientHandle self;
                n_value := apply_timestamps dataValue
                             (timestampsToReturn self) attributeId |})
          (queue self) in
    _empty_queue ;;
    ret notifications.

(** ** Sampler *)

(** The event loop, the emitter of the node and the registry, as far as
    the item uses them.  The newest listener is at the head;
    [removeListener] takes away one instance, the newest. *)
Definition fresh : Js State nat :=
  s <- get ;;
  modify_state (on_world (set_next_handle (S (next_handle (world s))))) ;;
  ret (next_handle (world s)).

(** The period a timer of Node runs with: a delay below 1 or above
    [TIMEOUT_MAX] is replaced by 1. *)
Definition TIMEOUT_MAX : Z := 2147483647.

Definition timer_period (delay : Z) : Z :=
  if (delay <? 1) || (TIMEOUT_MAX <? delay) then 1 else delay.

Definition setInterval (delay : Z) : Js State nat :=
  h <- fresh ;;
  modify_state (on_world (fun w =>
    set_timers ((h, timer_period delay) :: timers w) w)) ;;
  ret h.

Definition clearInterval (h : nat) : Js State unit :=
  modify_state (on_world (fun w =>
    set_timers (List.filter (fun t => negb (Nat.eqb (fst t) h)) (timers w)) w)).

Definition same_listener (ev : EventName) (cb : nat)
    (l : EventName * nat) : bool :=
  EventName_eqb (fst l) ev && Nat.eqb (snd l) cb.

Fixpoint remove_first (ev : EventName) (cb : nat)
    (ls : list (EventName * nat)) : list (EventName * nat) :=
  match ls with
  | [] => []
  | l :: ls' => if same_listener ev cb l then ls' else l :: remove_first ev cb ls'
  end.

Definition node_on (ev : EventName) (cb : nat) : Js State unit :=
  s <- get ;;
  match node (item s) with
  | None => throw TypeError
  | Some _ =>
      modify_state (on_world (fun w => set_listeners ((ev, cb) :: listeners w) w))
  end.

Definition node_removeListener (ev : EventName) (cb : nat) : Js State unit :=
  s <- get ;;
  match node (item s) with
  | None => throw TypeError
  | Some _ =>
      modify_state (on_world (fun w =>
        set_listeners (remove_first ev cb (listeners w)) w))
  end.

Definition register : Js State unit :=
  modify_state (on_world (set_registered true)).
Definition unregister : Js State unit :=
  modify_state (on_world (set_registered false)).

Definition _stop_sampling : Js State unit :=
  s <- get ;;
  match _attribute_changed_callback (item s),
        _value_changed_callback (item s) with
  | Some cb, _ =>
      unregister ;;
      node_removeListener
        (AttributeEvent (attributeId (itemToMonitor (item s)))) cb ;;
      modify_state (on_self (set__attribute_changed_callback None))
  | None, Some cb =>
      unregister ;;
      assert (negb (truthy (_samplingId (item s)))) ;;
      node_removeListener value_changed cb ;;
      modify_state (on_self (set__value_changed_callback None))
  | None, None =>
      match _samplingId (item s) with
      | IdTimer h =>
          unregister ;;
          clearInterval h ;;
          modify_state (on_self (set__samplingId IdZero))
      | _ => ret tt
      end
  end ;;
  s <- get ;;
  assert (negb (truthy (_samplingId (item s)))) ;;
  assert (negb (bool_decide (is_Some (_value_changed_callback (item s))))) ;;
  assert (negb (bool_decide (is_Some (_attribute_changed_callback (item s))))).

(** [self.samplingFunc.call(self, self.oldDataValue, callback)] starts a
    sampling; [sampling_callback] below is the callback it is given.  The
    sampling function is taken to defer its callback: the call leaves one
    more sampling outstanding, and the callback is a step of its own.  A
    sampling function that calls back before it returns is this step
    followed at once by that one. *)
Definition _on_sampling_timer : Js State unit :=
  s <- get ;;
  assert (MonitoringMode_eqb (monitoringMode (item s)) Sampling
          || MonitoringMode_eqb (monitoringMode (item s)) Reporting) ;;
  if truthy (_samplingId (item s)) then
    assert (negb (_is_sampling (item s))) ;;
    assert (samplingFunc (item s)) ;;
    modify_state (on_self (set__is_sampling true)) ;;
    modify_state (on_world (fun w =>
      set_pending_samplings (S (pending_samplings w)) w))
  else ret tt.                               (* [console.log] *)

(** [function(err, newDataValue)]: [None] stands for a call with [err]. *)
Definition sampling_callback (newDataValue : option DataValue) : Js State unit :=
  match newDataValue with
  | None => ret tt                           (* [console.log] *)
  | Some newDataValue => lift_self (_on_value_changed newDataValue None)
  end ;;
  modify_state (on_self (set__is_sampling false)).

(** The callback given to [readValueAsync]; it ignores [err]. *)
Definition readValueAsync_callback (dataValue : DataValue) : Js State unit :=
  lift_self (recordValue dataValue None).

Definition _start_sampling (recordInitialValue : bool) : Js State unit :=
  modify_state (on_self (set_oldDataValue unset_DataValue)) ;;
  modify_state (on_self (set_old_is_back false)) ;;
  _stop_sampling ;;
  register ;;
  s <- get ;;
  let attribute := attributeId (itemToMonitor (item s)) in
  if negb (attribute =? AttributeIds_Value) then
    modify_state (on_self (set_samplingInterval 0)) ;;
    cb <- fresh ;;
    modify_state (on_self (set__attribute_changed_callback (Some cb))) ;;
    node_on (AttributeEvent attribute) cb ;;
    when recordInitialValue
      (match node (item s) with
       | None => throw TypeError
       | Some n => lift_self (recordValue (readAttribute n attribute) None)
       end)
  else if samplingInterval (item s) =? 0 then
    cb <- fresh ;;
    modify_state (on_self (set__value_changed_callback (Some cb))) ;;
    node_on value_changed cb ;;
    when recordInitialValue
      (s' <- get ;;
       match node (item s') with
       | None => throw TypeError
       | Some _ =>
           modify_state (on_world (fun w =>
             set_pending_reads (S (pending_reads w)) w))
       end)
  else
    assert (minimumSamplingInterval <=? samplingInterval (item s)) ;;
    h <- setInterval (samplingInterval (item s)) ;;
    modify_state (on_self (set__samplingId (IdTimer h))) ;;
    when recordInitialValue _on_sampling_timer.

Definition setMonitoringMode (monitoringMode' : MonitoringMode) : Js State unit :=
  assert (negb (MonitoringMode_eqb monitoringMode' Invalid)) ;;
  s <- get ;;
  if MonitoringMode_eqb monitoringMode' (monitoringMode (item s)) then ret tt
  else
    let old_monitoringMode := monitoringMode (item s) in
    modify_state (on_self (set_monitoringMode monitoringMode')) ;;
    if MonitoringMode_eqb monitoringMode' Disabled then
      _stop_sampling ;;
      modify_state (on_self (set_queue [])) ;;
      modify_state (on_self (set_overflow false))
    else
      let recordInitialValue :=
        MonitoringMode_eqb old_monitoringMode Invalid
        || MonitoringMode_eqb old_monitoringMode Disabled in
      _start_sampling recordInitialValue.

Definition terminate : Js State unit := _stop_sampling.

(** [isSampling] *)
Definition isSampling (self : MonitoredItem) : bool :=
  truthy (_samplingId self)
  || bool_decide (is_Some (_value_changed_callback self))
  || bool_decide (is_Some (_attribute_changed_callback self)).

(** ** Modification *)

Definition _change_timer_timeout : Js State unit :=
  s <- get ;;
  match _samplingId (item s) with
  | IdTimer h =>
      clearInterval h ;;
      h' <- setInterval (samplingInterval (item s)) ;;
      modify_state (on_self (set__samplingId (IdTimer h')))
  | _ => ret tt
  end.

Definition _adjust_sampling (old_samplingInterval : Z) : Js State unit :=
  s <- get ;;
  when (negb (old_samplingInterval =? samplingInterval (item s)))
       _change_timer_timeout.

Record MonitoredItemModifyResult : Type := {
  r_statusCode : StatusCode;
  revisedSamplingInterval : Z;
  revisedQueueSize : Z;
  filterResult : option Filter }.

Definition modify (timestampsToReturn' : option TimestampsToReturn)
    (options : MonitoringParameters) : Js State MonitoredItemModifyResult :=
  s <- get ;;
  let old_samplingInterval := samplingInterval (item s) in
  modify_state (on_self (fun i =>
    set_timestampsToReturn (default (timestampsToReturn i) timestampsToReturn') i)) ;;
  lift_self (_set_parameters options) ;;
  lift_self _adjust_queue_to_match_new_queue_size ;;
  _adjust_sampling old_samplingInterval ;;
  s' <- get ;;
  ret {| r_statusCode := Good;
         revisedSamplingInterval := samplingInterval (item s');
         revisedQueueSize := queueSize (item s');
         filterResult := None |}.
End Methods.

(** ** Operations on an item and the states they reach *)

Inductive Op : Type :=
| OpSetMonitoringMode (m : MonitoringMode)
| OpModify (ts : option TimestampsToReturn) (p : MonitoringParameters)
| OpRecordValue (d : DataValue) (r : option NumericRange)
| OpExtract
| OpTerminate
| OpEmit (ev : EventName) (d : DataValue) (r : option NumericRange)
| OpTimer (h : nat)
| OpSamplingDone (d : option DataValue)
| OpReadDone (d : DataValue)
| OpNodeChange (n : Node)
| OpInstallSamplingFunc.

Definition empty_World : World :=
  {| timers := []; listeners := []; registered := false; next_handle := 1%nat;
     pending_reads := 0%nat; pending_samplings := 0%nat |}.

Section Run.
Context `{DataModel}.

(** The node calls the listeners of an event in the order they were
    added. *)
Fixpoint call_listeners (ls : list (EventName * nat)) (d : DataValue)
    (r : option NumericRange) : Js State unit :=
  match ls with
  | [] => ret tt
  | _ :: ls' => lift_self (_on_value_changed d r) ;; call_listeners ls' d r
  end.

Definition emit (ev : EventName) (d : DataValue)
    (r : option NumericRange) : Js State unit :=
  s <- get ;;
  call_listeners
    (rev (List.filter (fun l => EventName_eqb (fst l) ev) (listeners (world s))))
    d r.

(** One step of the life of an item: a call of its owner, or a callback
    of the event loop. *)
Definition run_op (op : Op) : Js State unit :=
  match op with
  | OpSetMonitoringMode m => setMonitoringMode m
  | OpModify ts p => modify ts p ;; ret tt
  | OpRecordValue d r => lift_self (recordValue d r)
  | OpExtract => lift_self extractMonitoredItemNotifications ;; ret tt
  | OpTerminate => terminate
  | OpEmit ev d r => emit ev d r
  | OpTimer h =>
      s <- get ;;
      when (existsb (fun t => Nat.eqb (fst t) h) (timers (world s)))
           _on_sampling_timer
  | OpSamplingDone d =>
      s <- get ;;
      match pending_samplings (world s) with
      | O => ret tt
      | S n =>
          modify_state (on_world (set_pending_samplings n)) ;;
          sampling_callback d
      end
  | OpReadDone d =>
      s <- get ;;
      match pending_reads (world s) with
      | O => ret tt
      | S n =>
          modify_state (on_world (set_pending_reads n)) ;;
          readValueAsync_callback d
      end
  | OpNodeChange n => modify_state (on_self (set_node (Some n)))
  | OpInstallSamplingFunc => modify_state (on_self (set_samplingFunc true))
  end.

Definition exec (op : Op) (s : State) : State := snd (run_op op s).

(** The owner constructs the item and attaches the node before anything
    else; [valid] restricts the steps that are considered. *)
Definition initial (options : Options) (n : Node) (s : State) : Prop :=
  exists i, MonitoredItem_new options = Return i
            /\ s = {| item := set_node (Some n) i; world := empty_World |}.

Inductive reachable (valid : State -> Op -> Prop) : State -> Prop :=
| reachable_initial options n s :
    initial options n s -> reachable valid s
| reachable_step s op :
    reachable valid s -> valid s op -> reachable valid (exec op s).

Definition run_ops (ops : list Op) (s : State) : State :=
  foldl (fun s op => exec op s) s ops.
End Run.

(** ** An instance for readings without index range

    Modelled from the spec: [lib/datamodel] is missing.  Two readings are
    the same when they agree field by field; without index range on either
    side every reading overlaps and is extracted whole; the timestamps that
    [timestamps_to_return] does not ask for are dropped. *)

Definition Payload_eqb (a b : Payload) : bool :=
  match a, b with
  | Scalar x, Scalar y => Qeq_bool x y
  | Words h l, Words h' l' => (h =? h') && (l =? l')
  | _, _ => false
  end.

Definition Variant_eqb (a b : Variant) : bool :=
  DataType_eqb (dataType a) (dataType b) && Payload_eqb (value a) (value b).

Definition option_eqb {A} (eqb : A -> A -> bool) (a b : option A) : bool :=
  match a, b with
  | Some x, Some y => eqb x y
  | None, None => true
  | _, _ => false
  end.

Definition DataValue_eqb (a b : DataValue) : bool :=
  option_eqb Variant_eqb (dv_value a) (dv_value b)
  && StatusCode_eqb (statusCode a) (statusCode b)
  && option_eqb Z.eqb (sourceTimestamp a) (sourceTimestamp b)
  && option_eqb Z.eqb (sourcePicoseconds a) (sourcePicoseconds b)
  && option_eqb Z.eqb (serverTimestamp a) (serverTimestamp b)
  && option_eqb Z.eqb (serverPicoseconds a) (serverPicoseconds b).

Definition keep_timestamps (d : DataValue) (t : TimestampsToReturn)
    (a : AttributeId) : DataValue :=
  let source := match t with Source | Both => true | _ => false end in
  let server := match t with Server | Both => true | _ => false end in
  {| dv_value := dv_value d; statusCode := statusCode d;
     sourceTimestamp := if source then sourceTimestamp d else None;
     sourcePicoseconds := if source then sourcePicoseconds d else None;
     serverTimestamp := if server then serverTimestamp d else None;
     serverPicoseconds := if server then serverPicoseconds d else None |}.

Definition ranges_overlap (a b : option NumericRange) : bool :=
  match a, b with
  | Some (SingleValue i), Some (SingleValue j) => i =? j
  | Some (SingleValue i), Some (ArrayRange l h)
  | Some (ArrayRange l h), Some (SingleValue i) => (l <=? i) && (i <=? h)
  | Some (ArrayRange l h), Some (ArrayRange l' h') => (l <=? h') && (l' <=? h)
  | _, _ => true
  end.

Definition scalar_DataModel : DataModel :=
  {| sameDataValue := DataValue_eqb;
     apply_timestamps := keep_timestamps;
     extractRange := fun d _ => d;
     NumericRange_overlap := ranges_overlap |}.

(** Readings, items and nodes of the scenarios. *)
Definition reading (x : Q) (c : StatusCode) : DataValue :=
  {| dv_value := Some {| dataType := Double; value := Scalar x |};
     statusCode := c;
     sourceTimestamp := None; sourcePicoseconds := None;
     serverTimestamp := None; serverPicoseconds := None |}.

Definition reading64 (t : DataType) (high low : Z) : DataValue :=
  {| dv_value := Some {| dataType := t; value := Words high low |};
     statusCode := Good;
     sourceTimestamp := None; sourcePicoseconds := None;
     serverTimestamp := None; serverPicoseconds := None |}.

Definition analog_node (low high : Q) : Node :=
  {| readAttribute := fun _ => reading 100 Good;
     euRange := Some {| range_low := low; range_high := high |} |}.

Definition scenario_options (samplingInterval' queueSize' : Z)
    (discardOldest' : bool) (f : option Filter) : Options :=
  {| o_parameters := {| o_clientHandle := 7;
                        o_samplingInterval := samplingInterval';
                        o_discardOldest := discardOldest';
                        o_queueSize := queueSize' |};
     o_monitoredItemId := 1;
     o_monitoringMode := None;
     o_itemToMonitor := None;
     o_filter := f;
     o_timestampsToReturn := None |}.

(** The item of a scenario, as the constructor leaves it, attached to an
    analog node with range 0 to 200. *)
Definition scenario_item (samplingInterval' queueSize' : Z)
    (discardOldest' : bool) (f : option Filter) : MonitoredItem :=
  let options := scenario_options samplingInterval' queueSize' discardOldest' f in
  set_node (Some (analog_node 0 200))
           (snd (_set_parameters (o_parameters options) (blank options))).

Definition scenario_state (samplingInterval' queueSize' : Z)
    (discardOldest' : bool) (f : option Filter) : State :=
  {| item := scenario_item samplingInterval' queueSize' discardOldest' f;
     world := empty_World |}.

(** The operations with the instance above. *)
Definition scenario_run : list Op -> State -> State :=
  @run_ops scalar_DataModel.
Definition scenario_recordValue : DataValue -> option NumericRange ->
                                  Js MonitoredItem unit :=
  @recordValue scalar_DataModel.

(** [_enqueue_value] on each reading in turn, as long as none throws. *)
Fixpoint enqueue_all (ds : list DataValue) (self : MonitoredItem) : MonitoredItem :=
  match ds with
  | [] => self
  | d :: ds' => enqueue_all ds' (snd (_enqueue_value d self))
  end.

(** ** Notions the properties are stated with *)

(** The handle of the sampler binding the fields name: the listener of an
    attribute event, the listener of [value_changed], or the interval. *)
Definition binding_handle (self : MonitoredItem) : option nat :=
  match _attribute_changed_callback self, _value_changed_callback self,
        _samplingId self with
  | Some cb, _, _ => Some cb
  | None, Some cb, _ => Some cb
  | None, None, IdTimer h => Some h
  | None, None, _ => None
  end.

(** The handle is live: the event loop or the node holds it. *)
Definition live (w : World) (h : nat) : bool :=
  existsb (fun t => Nat.eqb (fst t) h) (timers w)
  || existsb (fun l => Nat.eqb (snd l) h) (listeners w).

(** A computation keeps a view of the state when the view reads the same
    before and after, whether the computation returns or throws. *)
Definition keeps {S V A} (view : S -> V) (m : Js S A) : Prop :=
  forall s, view (snd (m s)) = view s.

(** The part of an item that tells how it is bound, and the part that is
    its buffer. *)
Definition binding_fields (self : MonitoredItem) :=
  (_attribute_changed_callback self, _value_changed_callback self,
   _samplingId self, bool_decide (is_Some (node self)),
   monitoringMode self, itemToMonitor self).

Definition buffer_fields (self : MonitoredItem) :=
  (queue self, overflow self, itemToMonitor self, node self).

Definition binding_view (s : State) :=
  (binding_fields (item s), timers (world s), listeners (world s)).

Definition buffer_view (s : State) := buffer_fields (item s).

(** The percent deadband in the words of the specification: a change is
    reported when [|new - old| > (deadband_value / 100) * (high - low)]. *)
Definition percent_deadband_changed (old new deadbandValue : Q) (r : Range) : bool :=
  negb (Qle_bool (Qabs (new - old))
                 ((deadbandValue / 100) * (range_high r - range_low r))).

(** A reading carries the overflow bit. *)
Definition marked (d : DataValue) : bool :=
  StatusCode_eqb (statusCode d) GoodWithOverflowBit.

(** The world holds exactly the binding the fields name, and the fields
    name at most one. *)
Definition bound_as (self : MonitoredItem) (w : World) : Prop :=
  match _attribute_changed_callback self, _value_changed_callback self,
        _samplingId self with
  | Some cb, None, (IdNull | IdZero) =>
      timers w = []
      /\ listeners w = [(AttributeEvent (attributeId (itemToMonitor self)), cb)]
  | None, Some cb, (IdNull | IdZero) =>
      timers w = [] /\ listeners w = [(value_changed, cb)]
  | None, None, IdTimer h =>
      (exists period, timers w = [(h, period)]) /\ listeners w = []
  | None, None, (IdNull | IdZero) => timers w = [] /\ listeners w = []
  | _, _, _ => False
  end.

(** No sampler is bound: the fields name none, no interval runs and the
    node has no listener. *)
Definition unbound (s : State) : Prop :=
  binding_handle (item s) = None
  /\ timers (world s) = [] /\ listeners (world s) = [].

Definition well_bound (s : State) : Prop :=
  is_Some (node (item s))
  /\ bound_as (item s) (world s)
  /\ (monitoringMode (item s) = Disabled \/ monitoringMode (item s) = Invalid ->
      binding_handle (item s) = None).

(** Every step is considered. *)
Definition any_op : State -> Op -> Prop := fun _ _ => True.

(** Every overflow bit in the queue is accounted for by the flag. *)
Definition flagged (self : MonitoredItem) : Prop :=
  existsb marked (queue self) = true -> overflow self = true.

Section Clean.
Context `{DataModel}.



End Clean.

(** The queue after the first statement of
    [_adjust_queue_to_match_new_queue_size]. *)
Definition resized (discardOldest' : bool) (queueSize' : Z)
    (q : list DataValue) : list DataValue :=
  if queueSize' <? Z.of_nat (length q) then
    if discardOldest' then
      splice_front (Z.of_nat (length q) - queueSize') q
    else
      match last q with
      | Some lastElement =>
          let kept := splice_from queueSize' q in
          <[(length kept - 1)%nat := lastElement]> kept
      | None => q
      end
  else q.

(** A computation maintains a property of the state when the property
    holds afterwards if it held before, whether the computation returns or
    throws. *)
Definition maintains {S A} (P : S -> Prop) (m : Js S A) : Prop :=
  forall s, P s -> P (snd (m s)).

(** The buffer together with the two revised parameters. *)
Definition size_fields (self : MonitoredItem) :=
  (queue self, overflow self, queueSize self, samplingInterval self).

Definition size_view (s : State) := size_fields (item s).

(** The parameters are revised ones, the queue fits its size, and a queue
    of size one has not overflowed. *)
Definition sized (self : MonitoredItem) : Prop :=
  1 <= queueSize self <= maxQueueSize
  /\ Z.of_nat (length (queue self)) <= queueSize self
  /\ (samplingInterval self = 0
      \/ minimumSamplingInterval <= samplingInterval self <= maximumSamplingInterval)
  /\ (queueSize self = 1 -> overflow self = false).

(** The re-entrancy guard of the sampling function: at most one sampling is
    in flight, and [_is_sampling] is set while it is. *)
Definition guarded (s : State) : Prop :=
  (pending_samplings (world s) <= 1)%nat
  /\ (pending_samplings (world s) = 1%nat -> _is_sampling (item s) = true).

(** The three samplers, and the one [_start_sampling] chooses for an item:
    a listener of the attribute's event for any attribute but [Value], a
    listener of [value_changed] for an exception-based item, an interval
    otherwise. *)
Inductive SamplerKind : Type :=
| AttributeListener
| ValueListener
| PeriodicTimer.

Definition sampler_kind (self : MonitoredItem) : SamplerKind :=
  if negb (attributeId (itemToMonitor self) =? AttributeIds_Value)
  then AttributeListener
  else if samplingInterval self =? 0 then ValueListener
  else PeriodicTimer.

(** The binding together with the sampling interval. *)
Definition sampler_view (s : State) :=
  (binding_view s, samplingInterval (item s)).

(** The fields that only the constructor assigns. *)
Definition identity_fields (self : MonitoredItem) :=
  (monitoredItemId self, itemToMonitor self, filter self).

Definition identity_view (s : State) := identity_fields (item s).

(** An item with the trigger [StatusValueTimestamp] that holds nothing. *)
Definition silent (deadbandType : DeadbandType) (deadbandValue : Q)
    (self : MonitoredItem) : Prop :=
  filter self
  = Some (DataChangeFilter StatusValueTimestamp deadbandType deadbandValue)
  /\ queue self = []
  /\ overflow self = false.

(** The timer an item runs on and the interval it is meant to tick at. *)
Definition timer_fields (self : MonitoredItem) :=
  (_samplingId self, samplingInterval self).

Definition timer_view (s : State) :=
  (timer_fields (item s), timers (world s)).

(** The timer of the item, when it has one, is the only one and runs with
    the period of a timer set with the sampling interval. *)
Definition timed (s : State) : Prop :=
  forall h, _samplingId (item s) = IdTimer h ->
            timers (world s) = [(h, timer_period (samplingInterval (item s)))].

(** * Properties *)

Ltac js_unfold :=
  unfold bind, ret, get, modify_state, assert, throw, when, liftO,
         lift_self, on_self, on_world.
Ltac js_simpl := js_unfold; cbn.

(** Running a computation one statement at a time. *)
Lemma bind_run {S A B} (m : Js S A) (k : A -> Js S B) (s : S) :
  bind m k s = match m s with
               | (Return a, s') => k a s'
               | (Throw e, s') => (Throw e, s')
               end.
Proof. reflexivity. Qed.

Lemma bind_ret {S A B} (a : A) (k : A -> Js S B) (s : S) :
  bind (ret a) k s = k a s.
Proof. reflexivity. Qed.

Lemma bind_get {S B} (k : S -> Js S B) (s : S) : bind get k s = k s s.
Proof. reflexivity. Qed.

Lemma bind_modify_state {S B} (f : S -> S) (k : unit -> Js S B) (s : S) :
  bind (modify_state f) k s = k tt (f s).
Proof. reflexivity. Qed.

Lemma bind_throw {S A B} (e : Exn) (k : A -> Js S B) (s : S) :
  bind (@throw S A e) k s = (Throw e, s).
Proof. reflexivity. Qed.

Lemma bind_bind {S A B C} (m : Js S A) (k : A -> Js S B) (k' : B -> Js S C)
    (s : S) :
  bind (bind m k) k' s = bind m (fun a => bind (k a) k') s.
Proof. unfold bind. destruct (m s) as [[a|e] s']; reflexivity. Qed.

Lemma bind_assert_true {S B} (k : unit -> Js S B) (s : S) :
  bind (assert true) k s = k tt s.
Proof. reflexivity. Qed.

Lemma bind_assert_false {S B} (k : unit -> Js S B) (s : S) :
  bind (assert false) k s = (Throw AssertionError, s).
Proof. reflexivity. Qed.

Lemma bind_when_false {S B} (m : Js S unit) (k : unit -> Js S B) (s : S) :
  bind (when false m) k s = k tt s.
Proof. reflexivity. Qed.

Lemma modify_state_run {S} (f : S -> S) (s : S) :
  modify_state f s = (Return tt, f s).
Proof. reflexivity. Qed.

Lemma ret_run {S A} (a : A) (s : S) : @ret S A a s = (Return a, s).
Proof. reflexivity. Qed.

Lemma throw_run {S A} (e : Exn) (s : S) : @throw S A e s = (Throw e, s).
Proof. reflexivity. Qed.

Lemma when_false_run {S} (m : Js S unit) (s : S) :
  when false m s = (Return tt, s).
Proof. reflexivity. Qed.

Create Rewrite HintDb js.
#[local] Hint Rewrite @bind_ret @bind_get @bind_modify_state @bind_throw
  @bind_bind @bind_assert_true @bind_assert_false @bind_when_false
  @modify_state_run @ret_run @throw_run @when_false_run : js.

(** Rules for [keeps], one per construct of the monad. *)
Section Keeps.
Context {S V : Type} (view : S -> V).

Lemma keeps_ret {A} (a : A) : keeps view (ret a).
Proof. intros s. reflexivity. Qed.

Lemma keeps_throw {A} (e : Exn) : keeps view (@throw S A e).
Proof. intros s. reflexivity. Qed.

Lemma keeps_get : keeps view get.
Proof. intros s. reflexivity. Qed.

Lemma keeps_assert (b : bool) : keeps view (assert b).
Proof. intros s. destruct b; reflexivity. Qed.

Lemma keeps_liftO {A} (o : Outcome A) : keeps view (liftO o).
Proof. intros s. reflexivity. Qed.

Lemma keeps_modify_state (f : S -> S) :
  (forall s, view (f s) = view s) -> keeps view (modify_state f).
Proof. intros Hf s. apply Hf. Qed.

Lemma keeps_bind {A B} (m : Js S A) (k : A -> Js S B) :
  keeps view m -> (forall a, keeps view (k a)) -> keeps view (bind m k).
Proof.
  intros Hm Hk s. unfold bind. specialize (Hm s).
  destruct (m s) as [[a|e] s']; cbn in *.
  - now rewrite Hk.
  - exact Hm.
Qed.

Lemma keeps_when (b : bool) (m : Js S unit) :
  keeps view m -> keeps view (when b m).
Proof. intros Hm. destruct b; [exact Hm | apply keeps_ret]. Qed.
End Keeps.

Lemma keeps_lift_self {V W A} (view : MonitoredItem -> V) (view' : State -> W)
    (m : Js MonitoredItem A) :
  keeps view m ->
  (forall s i, view i = view (item s) ->
               view' {| item := i; world := world s |} = view' s) ->
  keeps view' (lift_self m).
Proof. intros Hm Hview s. unfold lift_self. cbn. apply Hview, Hm. Qed.

(** The rules applied along the text of a method. *)
Ltac keeps_step :=
  lazymatch goal with
  | |- keeps _ (bind _ _) => apply keeps_bind; [|intros ?]
  | |- keeps _ (ret _) => apply keeps_ret
  | |- keeps _ (throw _) => apply keeps_throw
  | |- keeps _ get => apply keeps_get
  | |- keeps _ (assert _) => apply keeps_assert
  | |- keeps _ (liftO _) => apply keeps_liftO
  | |- keeps _ (when _ _) => apply keeps_when
  | |- keeps _ (modify_state _) =>
      apply keeps_modify_state; intros ?; reflexivity
  | |- keeps _ (if ?b then _ else _) => destruct b
  | |- keeps _ (match ?x with _ => _ end) => destruct x
  | |- keeps _ (let _ := _ in _) => cbv zeta
  end.
Ltac keeps_tac := repeat keeps_step.

(** An item split into its fields, so that every projection computes. *)
Ltac destruct_item i :=
  destruct i as [sid ch si dold qs mid q ovf old mode ttr itm flt nd vcb acb
                 busy sf oib].

(** ** The queue under overflow *)

(** C4.  With [queueSize > 1] and [discardOldest], enqueueing into a full
    queue whose second reading is [Good] drops the front, promotes the new
    front to [GoodWithOverflowBit] and sets [overflow]; five [Good] readings
    1 to 5 enqueued into a queue of size 3 leave 3 (marked), 4 and 5. *)
Theorem discard_oldest_drops_front_and_marks :
  (forall (self : MonitoredItem) (dataValue older front : DataValue)
          (rest : list DataValue),
      1 < queueSize self ->
      discardOldest self = true ->
      queue self = older :: front :: rest ->
      Z.of_nat (length (queue self)) = queueSize self ->
      statusCode front = Good ->
      fst (_enqueue_value dataValue self) = Return dataValue
      /\ queue (snd (_enqueue_value dataValue self))
         = set_statusCode GoodWithOverflowBit front :: rest ++ [dataValue]
      /\ overflow (snd (_enqueue_value dataValue self)) = true)
  /\ (let self := enqueue_all (map (fun x => reading (inject_Z x) Good) [1; 2; 3; 4; 5])
                              (scenario_item 0 3 true None) in
      queue self = [reading 3 GoodWithOverflowBit; reading 4 Good; reading 5 Good]
      /\ overflow self = true).
Proof.
  split; [|vm_compute; split; reflexivity].
  intros self dataValue older front rest Hsize Hold Hq Hfull Hgood.
  unfold _enqueue_value. js_simpl.
  destruct (queueSize self =? 1) eqn:E1; [apply Z.eqb_eq in E1; lia|].
  rewrite Hold. cbn. rewrite Hq. cbn.
  replace (queueSize self <? _) with true; cycle 1.
  { symmetry. apply Z.ltb_lt. rewrite <- Hfull, Hq, length_app. cbn [length]. lia. }
  cbn. rewrite Hgood. cbn.
  destruct (rest ++ [dataValue]) eqn:E; [destruct rest; discriminate|].
  cbn. auto.
Qed.

(** The fourth reading into a full queue of three. *)
Lemma discard_oldest_drops_front_and_marks_witness :
  let self := enqueue_all [reading 1 Good; reading 2 Good; reading 3 Good]
                          (scenario_item 0 3 true None) in
  fst (_enqueue_value (reading 4 Good) self) = Return (reading 4 Good)
  /\ queue (snd (_enqueue_value (reading 4 Good) self))
     = set_statusCode GoodWithOverflowBit (reading 2 Good)
       :: [reading 3 Good] ++ [reading 4 Good]
  /\ overflow (snd (_enqueue_value (reading 4 Good) self)) = true.
Proof.
  apply (proj1 discard_oldest_drops_front_and_marks
               (enqueue_all [reading 1 Good; reading 2 Good; reading 3 Good]
                            (scenario_item 0 3 true None))
               (reading 4 Good) (reading 1 Good) (reading 2 Good)
               [reading 3 Good]);
    reflexivity.
Defined.

(** C5.  With [queueSize > 1] and [discardOldest] false, enqueueing into a
    full queue replaces the back reading by the new one, which gets
    [GoodWithOverflowBit], and sets [overflow]; five [Good] readings 1 to 5
    enqueued into a queue of size 3 leave 1, 2 and 5 (marked). *)
Theorem discard_newest_replaces_back_and_marks :
  (forall (self : MonitoredItem) (dataValue back : DataValue)
          (init : list DataValue),
      1 < queueSize self ->
      discardOldest self = false ->
      queue self = init ++ [back] ->
      Z.of_nat (length (queue self)) = queueSize self ->
      fst (_enqueue_value dataValue self)
        = Return (set_statusCode GoodWithOverflowBit dataValue)
      /\ queue (snd (_enqueue_value dataValue self))
         = init ++ [set_statusCode GoodWithOverflowBit dataValue]
      /\ overflow (snd (_enqueue_value dataValue self)) = true)
  /\ (let self := enqueue_all (map (fun x => reading (inject_Z x) Good) [1; 2; 3; 4; 5])
                              (scenario_item 0 3 false None) in
      queue self = [reading 1 Good; reading 2 Good; reading 5 GoodWithOverflowBit]
      /\ overflow self = true).
Proof.
  split; [|vm_compute; split; reflexivity].
  intros self dataValue back init Hsize Hold Hq Hfull.
  unfold _enqueue_value. js_simpl.
  destruct (queueSize self =? 1) eqn:E1; [apply Z.eqb_eq in E1; lia|].
  rewrite Hold. cbn.
  replace (_ <? queueSize self) with false by (symmetry; apply Z.ltb_ge; lia).
  cbn. repeat split.
  rewrite Hq, length_app. cbn [length].
  replace (length init + 1 - 1)%nat with (length init + 0)%nat by lia.
  rewrite insert_app_r. reflexivity.
Qed.

(** The fourth reading into a full queue of three that keeps the oldest. *)
Lemma discard_newest_replaces_back_and_marks_witness :
  let self := enqueue_all [reading 1 Good; reading 2 Good; reading 3 Good]
                          (scenario_item 0 3 false None) in
  fst (_enqueue_value (reading 4 Good) self)
    = Return (set_statusCode GoodWithOverflowBit (reading 4 Good))
  /\ queue (snd (_enqueue_value (reading 4 Good) self))
     = [reading 1 Good; reading 2 Good]
       ++ [set_statusCode GoodWithOverflowBit (reading 4 Good)]
  /\ overflow (snd (_enqueue_value (reading 4 Good) self)) = true.
Proof.
  apply (proj1 discard_newest_replaces_back_and_marks
               (enqueue_all [reading 1 Good; reading 2 Good; reading 3 Good]
                            (scenario_item 0 3 false None))
               (reading 4 Good) (reading 3 Good)
               [reading 1 Good; reading 2 Good]);
    reflexivity.
Defined.

(** Whatever branch [_enqueue_value] takes, the reading it was given ends up
    at the back of the queue, marked or not, and [oldDataValue] is that
    reading. *)
Lemma _enqueue_value_back (self : MonitoredItem) (d : DataValue) :
  1 <= queueSize self ->
  exists d',
    (d' = d \/ d' = set_statusCode GoodWithOverflowBit d)
    /\ last (queue (snd (_enqueue_value d self))) = Some d'
    /\ (forall x, fst (_enqueue_value d self) = Return x -> x = d')
    /\ oldDataValue (snd (_enqueue_value d self)) = d'.
Proof.
  intros Hsize. unfold _enqueue_value. js_simpl.
  destruct (queueSize self =? 1) eqn:E1; cbn.
  { exists d. repeat split; auto. now intros x [= <-]. }
  apply Z.eqb_neq in E1.
  destruct (discardOldest self); cbn.
  - destruct (queueSize self <? _) eqn:E2; cbn.
    + apply Z.ltb_lt in E2. rewrite length_app in E2. cbn in E2.
      destruct (queue self) as [|a [|b q]]; cbn in *; try lia.
      destruct (StatusCode_eqb (statusCode b) Good); cbn.
      * destruct (q ++ [d]) eqn:Eq; [destruct q; discriminate|]. cbn.
        exists d. rewrite <- Eq, last_snoc.
        repeat split; auto. now intros x [= <-].
      * exists d. change (last (b :: q ++ [d])) with (last ((b :: q) ++ [d])).
        rewrite last_snoc. repeat split; auto. discriminate.
    + exists d. rewrite last_snoc. repeat split; auto. now intros x [= <-].
  - destruct (_ <? queueSize self) eqn:E2; cbn.
    + exists d. rewrite last_snoc. repeat split; auto. now intros x [= <-].
    + apply Z.ltb_ge in E2.
      exists (set_statusCode GoodWithOverflowBit d).
      repeat split; auto; [|now intros x [= <-]].
      induction (queue self) as [|back init _] using rev_ind;
        [cbn in E2; lia|].
      rewrite length_app. cbn [length].
      replace (length init + 1 - 1)%nat with (length init + 0)%nat by lia.
      rewrite insert_app_r. cbn [list_insert insert].
      change (<[0%nat:=set_statusCode GoodWithOverflowBit d]> [back])
        with [set_statusCode GoodWithOverflowBit d].
      now rewrite last_snoc.
Qed.

(** ** Extraction *)

Section Extraction.
Context `{DataModel}.

(** C8.  In [Reporting] mode the notifications are the queued readings in
    queue order, each paired with the client handle and with its timestamps
    passed through [apply_timestamps], and the queue is left empty with
    [overflow] false; in any other mode the result is empty and the item is
    left as it was. *)
Theorem extract_drains_only_when_reporting (self : MonitoredItem) :
  (monitoringMode self = Reporting ->
   fst (extractMonitoredItemNotifications self)
     = Return (map (fun d =>
                      {| n_clientHandle := clientHandle self;
                         n_value := apply_timestamps d (timestampsToReturn self)
                                      (attributeId (itemToMonitor self)) |})
                   (queue self))
   /\ queue (snd (extractMonitoredItemNotifications self)) = []
   /\ overflow (snd (extractMonitoredItemNotifications self)) = false)
  /\ (monitoringMode self <> Reporting ->
      extractMonitoredItemNotifications self = (Return [], self)).
Proof.
  unfold extractMonitoredItemNotifications, _empty_queue. js_simpl.
  split; intros Hmode.
  - rewrite Hmode. cbn. auto.
  - destruct (monitoringMode self); cbn; congruence.
Qed.
End Extraction.

(** Two queued readings extracted in [Reporting] mode. *)
Lemma extract_drains_only_when_reporting_witness :
  let self := set_monitoringMode Reporting
                (enqueue_all [reading 1 Good; reading 2 Good]
                             (scenario_item 0 3 true None)) in
  fst (@extractMonitoredItemNotifications scalar_DataModel self)
    = Return [ {| n_clientHandle := 7; n_value := reading 1 Good |};
               {| n_clientHandle := 7; n_value := reading 2 Good |} ]
  /\ queue (snd (@extractMonitoredItemNotifications scalar_DataModel self)) = []
  /\ overflow (snd (@extractMonitoredItemNotifications scalar_DataModel self)) = false.
Proof.
  exact (proj1 (@extract_drains_only_when_reporting scalar_DataModel
                  (set_monitoringMode Reporting
                     (enqueue_all [reading 1 Good; reading 2 Good]
                                  (scenario_item 0 3 true None))))
               eq_refl).
Defined.

(** ** Ingestion *)

Section Ingestion.
Context `{DataModel}.

Lemma _on_value_changed_same (self : MonitoredItem) (d : DataValue)
    (r : option NumericRange) :
  sameDataValue d (oldDataValue self) = true ->
  _on_value_changed d r self = (Return tt, self).
Proof.
  intros Hsame. unfold _on_value_changed. js_simpl. now rewrite Hsame.
Qed.

Lemma call_listeners_same (ls : list (EventName * nat)) (s : State)
    (d : DataValue) (r : option NumericRange) :
  sameDataValue d (oldDataValue (item s)) = true ->
  call_listeners ls d r s = (Return tt, s).
Proof.
  intros Hsame. induction ls as [|l ls IH]; [reflexivity|].
  cbn [call_listeners]. unfold bind, lift_self.
  rewrite (_on_value_changed_same _ _ _ Hsame). cbn.
  destruct s. exact IH.
Qed.

(** C10.  A reading that [sameDataValue] finds equal to [oldDataValue] and
    that arrives by a node event (value change or attribute change) or by
    the callback of the sampling function leaves the item as it is:
    [recordValue] is not entered, whatever the filter.  The callback of the
    sampling function only clears [_is_sampling]. *)
Theorem same_reading_is_dropped_before_recordValue (s : State)
    (d : DataValue) (r : option NumericRange) (ev : EventName) :
  sameDataValue d (oldDataValue (item s)) = true ->
  _on_value_changed d r (item s) = (Return tt, item s)
  /\ emit ev d r s = (Return tt, s)
  /\ sampling_callback (Some d) s
     = (Return tt, on_self (set__is_sampling false) s).
Proof.
  intros Hsame. split; [|split].
  - now apply _on_value_changed_same.
  - unfold emit, bind, get. now apply call_listeners_same.
  - unfold sampling_callback, bind, lift_self.
    rewrite (_on_value_changed_same _ _ None Hsame). cbn.
    destruct s. reflexivity.
Qed.

(** Without a filter [recordValue] does not look at [oldDataValue]:
    [apply_filter] is called under [if (self.filter)] only, and every
    reading whose index range overlaps is narrowed and enqueued. *)
Lemma recordValue_without_filter_run (self : MonitoredItem)
    (d : DataValue) (r : option NumericRange) :
  filter self = None ->
  NumericRange_overlap r (indexRange (itemToMonitor self)) = true ->
  recordValue d r self
  = (queued <- _enqueue_value
                 (extractRange d (indexRange (itemToMonitor self))) ;;
     modify_state (set_oldDataValue queued)) self.
Proof.
  intros Hfilter Hoverlap. unfold recordValue.
  rewrite bind_get, Hoverlap, Hfilter. cbn [negb].
  now rewrite bind_ret.
Qed.
End Ingestion.

(** The reading just recorded, delivered once more. *)
Lemma same_reading_is_dropped_before_recordValue_witness :
  let s := scenario_run [OpSetMonitoringMode Reporting; OpReadDone (reading 1 Good)]
                        (scenario_state 0 3 true None) in
  @_on_value_changed scalar_DataModel (reading 1 Good) None (item s)
    = (Return tt, item s)
  /\ @emit scalar_DataModel value_changed (reading 1 Good) None s = (Return tt, s)
  /\ @sampling_callback scalar_DataModel (Some (reading 1 Good)) s
     = (Return tt, on_self (set__is_sampling false) s).
Proof.
  apply (@same_reading_is_dropped_before_recordValue scalar_DataModel
           (scenario_run [OpSetMonitoringMode Reporting; OpReadDone (reading 1 Good)]
                         (scenario_state 0 3 true None))
           (reading 1 Good) None value_changed).
  reflexivity.
Defined.

(** C2 on the code.  An item without a filter holds the reading 1; the
    same reading, with the same status code, is offered again.  The rule
    for an item without a filter, that of the trigger [StatusValue] without
    deadband, finds neither the status code nor the value changed, but
    [recordValue] enqueues the reading a second time: it asks
    [apply_filter] only when there is a filter.  The branch of
    [apply_filter] for an item without a filter would not have applied the
    rule either: its call of [valueHasChanged] lacks the first argument and
    fails the assertion on [oldDataValue]. *)
Theorem no_filter_enqueues_an_identical_reading :
  let self := snd (scenario_recordValue (reading 1 Good) None
                                        (scenario_item 0 3 true None)) in
  let again := scenario_recordValue (reading 1 Good) None self in
  filter self = None
  /\ queue self = [reading 1 Good]
  /\ oldDataValue self = reading 1 Good
  /\ statusCodeHasChanged (reading 1 Good) (oldDataValue self) = false
  /\ valueHasChanged self (reading 1 Good) (oldDataValue self) DeadbandNone 0
     = Return false
  /\ fst again = Return tt
  /\ queue (snd again) = [reading 1 Good; reading 1 Good]
  /\ apply_filter self (reading 1 Good) = Throw AssertionError.
Proof. vm_compute. repeat split; reflexivity. Qed.

(** ** Monitoring mode *)

(** What [_stop_sampling] leaves alone, and what it achieves when it
    returns. *)
Lemma _stop_sampling_frame (s : State) :
  let s' := snd (_stop_sampling s) in
  queue (item s') = queue (item s)
  /\ overflow (item s') = overflow (item s)
  /\ oldDataValue (item s') = oldDataValue (item s)
  /\ monitoringMode (item s') = monitoringMode (item s)
  /\ itemToMonitor (item s') = itemToMonitor (item s)
  /\ samplingInterval (item s') = samplingInterval (item s)
  /\ node (item s') = node (item s)
  /\ next_handle (world s') = next_handle (world s)
  /\ (fst (_stop_sampling s) = Return tt ->
      _samplingId (item s') <> IdTimer (next_handle (world s))
      /\ truthy (_samplingId (item s')) = false
      /\ _value_changed_callback (item s') = None
      /\ _attribute_changed_callback (item s') = None).
Proof.
  destruct s as [i w]. destruct_item i.
  unfold _stop_sampling, node_removeListener, unregister, clearInterval.
  destruct sid, vcb, acb, nd; js_simpl;
    repeat split; auto; try discriminate; congruence.
Qed.

Section Modes.
Context `{DataModel}.


(** Enabling: any target but [Disabled] that differs from the current mode
    goes through [_start_sampling]. *)
Lemma setMonitoringMode_enables (m : MonitoringMode) (s : State) :
  m = Sampling \/ m = Reporting ->
  MonitoringMode_eqb m (monitoringMode (item s)) = false ->
  setMonitoringMode m s
  = _start_sampling
      (MonitoringMode_eqb (monitoringMode (item s)) Invalid
       || MonitoringMode_eqb (monitoringMode (item s)) Disabled)
      (on_self (set_monitoringMode m) s).
Proof.
  intros Hm Hdiff. unfold setMonitoringMode.
  destruct Hm as [-> | ->].
  - change (negb (MonitoringMode_eqb Sampling Invalid)) with true.
    autorewrite with js. now rewrite Hdiff.
  - change (negb (MonitoringMode_eqb Reporting Invalid)) with true.
    autorewrite with js. now rewrite Hdiff.
Qed.

End Modes.



(** ** What each method leaves alone *)

Lemma _set_parameters_keeps_binding (options : MonitoringParameters) :
  keeps binding_fields (_set_parameters options).
Proof. unfold _set_parameters, _validate_parameters. keeps_tac. Qed.


Lemma _enqueue_value_keeps_binding (d : DataValue) :
  keeps binding_fields (_enqueue_value d).
Proof. unfold _enqueue_value. keeps_tac. Qed.

Lemma _adjust_queue_keeps_binding :
  keeps binding_fields _adjust_queue_to_match_new_queue_size.
Proof. unfold _adjust_queue_to_match_new_queue_size. keeps_tac. Qed.

Lemma binding_view_lift (s : State) (i : MonitoredItem) :
  binding_fields i = binding_fields (item s) ->
  binding_view {| item := i; world := world s |} = binding_view s.
Proof. unfold binding_view. cbn. now intros ->. Qed.

Lemma buffer_view_lift (s : State) (i : MonitoredItem) :
  buffer_fields i = buffer_fields (item s) ->
  buffer_view {| item := i; world := world s |} = buffer_view s.
Proof. unfold buffer_view. cbn. now intros ->. Qed.

Lemma _stop_sampling_keeps_buffer : keeps buffer_view _stop_sampling.
Proof.
  unfold _stop_sampling, unregister, node_removeListener, clearInterval.
  keeps_tac.
Qed.


Lemma _on_sampling_timer_keeps_binding : keeps binding_view _on_sampling_timer.
Proof. unfold _on_sampling_timer. keeps_tac. Qed.


Section Frames.
Context `{DataModel}.

Lemma recordValue_keeps_binding (d : DataValue) (r : option NumericRange) :
  keeps binding_fields (recordValue d r).
Proof.
  unfold recordValue. keeps_tac; apply _enqueue_value_keeps_binding.
Qed.

Lemma _on_value_changed_keeps_binding (d : DataValue) (r : option NumericRange) :
  keeps binding_fields (_on_value_changed d r).
Proof.
  unfold _on_value_changed. keeps_tac. apply recordValue_keeps_binding.
Qed.

Lemma extract_keeps_binding :
  keeps binding_fields extractMonitoredItemNotifications.
Proof. unfold extractMonitoredItemNotifications, _empty_queue. keeps_tac. Qed.

Lemma call_listeners_keeps_binding (ls : list (EventName * nat))
    (d : DataValue) (r : option NumericRange) :
  keeps binding_view (call_listeners ls d r).
Proof.
  induction ls as [|l ls IH]; cbn [call_listeners]; keeps_tac.
  - eapply keeps_lift_self;
      [apply _on_value_changed_keeps_binding | apply binding_view_lift].
  - exact IH.
Qed.
End Frames.

(** ** Disabling *)

Lemma well_bound_view (s s' : State) :
  binding_view s' = binding_view s -> well_bound s -> well_bound s'.
Proof.
  unfold binding_view, binding_fields, well_bound, bound_as, binding_handle.
  intros [= Ha Hv Hi Hn Hm Hitm Ht Hl].
  rewrite Ha, Hv, Hi, Hm, Hitm, Ht, Hl.
  intros (Hnode & Hbound & Hmode). repeat split; auto.
  assert (bool_decide (is_Some (node (item s'))) = true) as Hd
    by (rewrite Hn; now apply bool_decide_eq_true_2).
  exact (bool_decide_eq_true_1 _ Hd).
Qed.

Lemma bound_as_unbound (s : State) :
  bound_as (item s) (world s) -> binding_handle (item s) = None -> unbound s.
Proof.
  unfold unbound, bound_as, binding_handle.
  destruct (_attribute_changed_callback (item s)),
    (_value_changed_callback (item s)), (_samplingId (item s));
    intros Hb Hh; try discriminate; try contradiction; tauto.
Qed.

Lemma unbound_bound_as (s : State) :
  unbound s -> bound_as (item s) (world s).
Proof.
  destruct s as [i w]. destruct_item i.
  unfold unbound, bound_as, binding_handle. cbn.
  intros (Hh & -> & ->). destruct acb, vcb, sid; try discriminate; auto.
Qed.

(** From a state whose node is attached and whose binding is the one the
    world holds, [_stop_sampling] returns and nothing is bound. *)
Lemma _stop_sampling_unbinds (s : State) :
  is_Some (node (item s)) -> bound_as (item s) (world s) ->
  fst (_stop_sampling s) = Return tt
  /\ unbound (snd (_stop_sampling s))
  /\ node (item (snd (_stop_sampling s))) = node (item s)
  /\ monitoringMode (item (snd (_stop_sampling s))) = monitoringMode (item s)
  /\ itemToMonitor (item (snd (_stop_sampling s))) = itemToMonitor (item s)
  /\ samplingInterval (item (snd (_stop_sampling s))) = samplingInterval (item s)
  /\ next_handle (world (snd (_stop_sampling s))) = next_handle (world s).
Proof.
  destruct s as [i w]. destruct_item i. destruct w as [tm ls rg nh pr ps].
  unfold bound_as, unbound, binding_handle. cbn.
  intros [n ->] Hb.
  unfold _stop_sampling, node_removeListener, unregister, clearInterval.
  destruct acb as [a|], vcb as [v|], sid as [| |h]; try contradiction;
    destruct Hb as [Ht Hl];
    try match type of Ht with ex _ => destruct Ht as [period Ht] end;
    subst; js_simpl; unfold same_listener; cbn;
    rewrite ?Z.eqb_refl, ?Nat.eqb_refl; cbn; auto 10.
Qed.

Section Disabling.
Context `{DataModel}.

Lemma recordValue_keeps_binding_view (d : DataValue) (r : option NumericRange) :
  keeps binding_view (lift_self (recordValue d r)).
Proof.
  eapply keeps_lift_self;
    [apply recordValue_keeps_binding | apply binding_view_lift].
Qed.

Lemma _start_sampling_well_bound (recordInitialValue : bool) (s : State) :
  is_Some (node (item s)) -> bound_as (item s) (world s) ->
  monitoringMode (item s) = Sampling \/ monitoringMode (item s) = Reporting ->
  well_bound (snd (_start_sampling recordInitialValue s)).
Proof.
  intros Hnode Hbound Hmode.
  destruct (_start_sampling recordInitialValue s) as [r s'] eqn:E. cbn.
  unfold _start_sampling in E. autorewrite with js in E.
  rewrite bind_run in E.
  match type of E with context [_stop_sampling ?s0] =>
    destruct (_stop_sampling_unbinds s0) as (Fret & Fun & Fnd & Fm & Fitm & Fsi & Fnh);
      [exact Hnode | exact Hbound |];
    destruct (_stop_sampling s0) as [o s1]
  end.
  cbn in Fret, Fun, Fnd, Fm, Fitm, Fsi, Fnh. subst o.
  destruct Hnode as [n Hn]. rewrite Hn in Fnd.
  destruct Fun as (Fh & Ft & Fl).
  destruct s1 as [i1 w1]. destruct_item i1. destruct w1 as [tm ls rg nh pr ps].
  unfold binding_handle in Fh. cbn in *. subst.
  assert (acb = None /\ vcb = None /\ truthy sid = false) as (-> & -> & Hsid).
  { destruct acb, vcb, sid; try discriminate; auto. }
  unfold register, node_on, setInterval, fresh in E.
  autorewrite with js in E. cbn in E.
  assert (forall m, monitoringMode (item s) = m ->
                    m = Disabled \/ m = Invalid -> False) as Hnot
    by (intros m <- [Hd|Hd]; destruct Hmode; congruence).
  assert (forall s2, well_bound s2 ->
                     binding_view s' = binding_view s2 -> well_bound s') as Hview
    by (intros s2 Hwb K; exact (well_bound_view _ _ K Hwb)).
  destruct (negb (attributeId (itemToMonitor (item s)) =? AttributeIds_Value)).
  - autorewrite with js in E. cbn in E.
    match type of E with when _ ?m ?s2 = _ =>
      assert (keeps binding_view (when recordInitialValue m)) as K
        by (apply keeps_when, recordValue_keeps_binding_view);
      specialize (K s2); rewrite E in K; cbn [snd] in K;
      apply (Hview s2); [|exact K]
    end.
    unfold well_bound, bound_as, binding_handle; cbn.
    destruct sid; try discriminate;
      (split; [eauto | split; [auto | intros Hd; exfalso; eapply Hnot; eauto]]).
  - destruct (samplingInterval (item s) =? 0); autorewrite with js in E; cbn in E.
    + match type of E with when _ ?m ?s2 = _ =>
        assert (keeps binding_view (when recordInitialValue m)) as K
          by (apply keeps_when; unfold node_on; keeps_tac);
        specialize (K s2); rewrite E in K; cbn [snd] in K;
        apply (Hview s2); [|exact K]
      end.
      unfold well_bound, bound_as, binding_handle; cbn.
      destruct sid; try discriminate;
        (split; [eauto | split; [auto | intros Hd; exfalso; eapply Hnot; eauto]]).
    + destruct (minimumSamplingInterval <=? samplingInterval (item s));
        autorewrite with js in E; cbn in E.
      * match type of E with when _ ?m ?s2 = _ =>
          assert (keeps binding_view (when recordInitialValue m)) as K
            by (apply keeps_when, _on_sampling_timer_keeps_binding);
          specialize (K s2); rewrite E in K; cbn [snd] in K;
          apply (Hview s2); [|exact K]
        end.
        unfold well_bound, bound_as, binding_handle; cbn.
        split; [eauto | split; [eauto | intros Hd; exfalso; eapply Hnot; eauto]].
      * injection E as <- <-.
        unfold well_bound, bound_as, binding_handle; cbn.
        destruct sid; try discriminate;
          (split; [eauto | split; [auto | intros Hd; exfalso; eapply Hnot; eauto]]).
Qed.

(** Disabling an item whose binding is in order: the call returns, nothing
    is bound and the buffer is empty. *)
Lemma setMonitoringMode_Disabled (s : State) :
  well_bound s ->
  monitoringMode (item s) <> Disabled ->
  fst (setMonitoringMode Disabled s) = Return tt
  /\ unbound (snd (setMonitoringMode Disabled s))
  /\ monitoringMode (item (snd (setMonitoringMode Disabled s))) = Disabled
  /\ queue (item (snd (setMonitoringMode Disabled s))) = []
  /\ overflow (item (snd (setMonitoringMode Disabled s))) = false
  /\ is_Some (node (item (snd (setMonitoringMode Disabled s)))).
Proof.
  intros (Hnode & Hbound & _) Hmode.
  destruct (setMonitoringMode Disabled s) as [r s'] eqn:E. cbn.
  unfold setMonitoringMode in E. autorewrite with js in E. cbn in E.
  destruct (monitoringMode (item s)) eqn:Em; try congruence; cbn in E;
    autorewrite with js in E; rewrite bind_run in E;
    (match type of E with context [_stop_sampling ?s0] =>
       destruct (_stop_sampling_unbinds s0)
         as (Fret & (Fh & Ft & Fl) & Fnd & Fm & Fitm & Fsi & Fnh);
         [exact Hnode | exact Hbound |];
       destruct (_stop_sampling s0) as [o s1]
     end);
    cbn in Fret, Fh, Ft, Fl, Fnd, Fm, Fitm, Fsi, Fnh; subst o;
    autorewrite with js in E; injection E as <- <-;
    unfold unbound; cbn; rewrite Fnd; auto 10.
Qed.

Lemma setMonitoringMode_well_bound (m : MonitoringMode) (s : State) :
  well_bound s -> well_bound (snd (setMonitoringMode m s)).
Proof.
  intros Hwb.
  destruct (MonitoringMode_eqb m (monitoringMode (item s))) eqn:Esame.
  { unfold setMonitoringMode.
    destruct m, (monitoringMode (item s)) eqn:Em; try discriminate;
      autorewrite with js; cbn; rewrite ?Em; cbn; exact Hwb. }
  destruct m.
  - destruct (setMonitoringMode_Disabled s Hwb)
      as (_ & Hun & Hm & _ & _ & Hnode).
    { intros Hd. rewrite Hd in Esame. discriminate. }
    unfold well_bound. split; [exact Hnode|]. split.
    + now apply unbound_bound_as.
    + intros _. apply Hun.
  - destruct Hwb as (Hnode & Hbound & _).
    rewrite setMonitoringMode_enables by (auto || discriminate).
    apply _start_sampling_well_bound; cbn; auto.
  - destruct Hwb as (Hnode & Hbound & _).
    rewrite setMonitoringMode_enables by (auto || discriminate).
    apply _start_sampling_well_bound; cbn; auto.
  - unfold setMonitoringMode. autorewrite with js. exact Hwb.
Qed.

Lemma _change_timer_timeout_well_bound (s : State) :
  well_bound s -> well_bound (snd (_change_timer_timeout s)).
Proof.
  destruct s as [i w]. destruct_item i. destruct w as [tm ls rg nh pr ps].
  unfold well_bound, bound_as, binding_handle, _change_timer_timeout,
    clearInterval, setInterval, fresh.
  cbn. intros (Hnode & Hbound & Hmode).
  destruct sid as [| |h]; autorewrite with js; cbn; auto.
  destruct acb, vcb; try contradiction.
  destruct Hbound as [[period ->] ->]. cbn. rewrite Nat.eqb_refl. cbn.
  repeat split; eauto. intros Hm. now specialize (Hmode Hm).
Qed.

Lemma modify_well_bound (ts : option TimestampsToReturn)
    (options : MonitoringParameters) (s : State) :
  well_bound s -> well_bound (snd (modify ts options s)).
Proof.
  intros Hwb. unfold modify.
  autorewrite with js.
  set (s1 := on_self _ s).
  assert (well_bound s1) as Hwb1
    by (eapply well_bound_view; [|exact Hwb]; reflexivity).
  clearbody s1. rewrite bind_run.
  assert (well_bound (snd (lift_self (_set_parameters options) s1))) as Hwb2.
  { eapply well_bound_view; [|exact Hwb1].
    eapply keeps_lift_self;
      [apply _set_parameters_keeps_binding | apply binding_view_lift]. }
  destruct (lift_self (_set_parameters options) s1) as [[[]|e] s2];
    [|exact Hwb2].
  cbn [snd] in Hwb2. rewrite bind_run.
  assert (well_bound (snd (lift_self _adjust_queue_to_match_new_queue_size s2)))
    as Hwb3.
  { eapply well_bound_view; [|exact Hwb2].
    eapply keeps_lift_self;
      [apply _adjust_queue_keeps_binding | apply binding_view_lift]. }
  destruct (lift_self _adjust_queue_to_match_new_queue_size s2) as [[[]|e] s3];
    [|exact Hwb3].
  cbn [snd] in Hwb3. rewrite bind_run.
  assert (well_bound (snd (_adjust_sampling (samplingInterval (item s)) s3)))
    as Hwb4.
  { unfold _adjust_sampling. autorewrite with js.
    destruct (negb _); [now apply _change_timer_timeout_well_bound|exact Hwb3]. }
  destruct (_adjust_sampling (samplingInterval (item s)) s3) as [[[]|e] s4];
    exact Hwb4.
Qed.

Lemma exec_well_bound (op : Op) (s : State) :
  well_bound s -> well_bound (exec op s).
Proof.
  intros Hwb. unfold exec. destruct op; cbn [run_op].
  - now apply setMonitoringMode_well_bound.
  - rewrite bind_run.
    pose proof (modify_well_bound ts p s Hwb) as Hm.
    destruct (modify ts p s) as [[a|e] s']; exact Hm.
  - eapply well_bound_view; [|exact Hwb].
    apply recordValue_keeps_binding_view.
  - eapply well_bound_view; [|exact Hwb].
    apply (keeps_bind binding_view); [|intros; apply keeps_ret].
    eapply keeps_lift_self; [apply extract_keeps_binding | apply binding_view_lift].
  - destruct Hwb as (Hnode & Hbound & Hmode).
    destruct (_stop_sampling_unbinds s Hnode Hbound)
      as (_ & Hun & Hnd & Hm & _).
    unfold terminate, well_bound. rewrite Hnd, Hm.
    split; [exact Hnode|]. split; [now apply unbound_bound_as|].
    intros _. apply Hun.
  - eapply well_bound_view; [|exact Hwb].
    unfold emit. apply (keeps_bind binding_view); [apply keeps_get|].
    intros s0. apply call_listeners_keeps_binding.
  - eapply well_bound_view; [|exact Hwb].
    apply (keeps_bind binding_view); [apply keeps_get|].
    intros s0. apply keeps_when, _on_sampling_timer_keeps_binding.
  - eapply well_bound_view; [|exact Hwb].
    apply (keeps_bind binding_view); [apply keeps_get|].
    intros s0. destruct (pending_samplings (world s0)); [apply keeps_ret|].
    unfold sampling_callback. keeps_tac.
    eapply keeps_lift_self;
      [apply _on_value_changed_keeps_binding | apply binding_view_lift].
  - eapply well_bound_view; [|exact Hwb].
    apply (keeps_bind binding_view); [apply keeps_get|].
    intros s0. destruct (pending_reads (world s0)); [apply keeps_ret|].
    unfold readValueAsync_callback. keeps_tac.
    apply recordValue_keeps_binding_view.
  - destruct Hwb as (Hnode & Hbound & Hmode).
    unfold well_bound. cbn. repeat split; eauto.
  - eapply well_bound_view; [|exact Hwb]. reflexivity.
Qed.

Lemma initial_well_bound (options : Options) (n : Node) (s : State) :
  initial options n s -> well_bound s.
Proof.
  intros (i & Hnew & ->). unfold MonitoredItem_new in Hnew.
  destruct (o_monitoringMode options); [discriminate|].
  pose proof (_set_parameters_keeps_binding (o_parameters options)
                (blank options)) as K.
  destruct (_set_parameters (o_parameters options) (blank options))
    as [[[]|e] i']; [|discriminate].
  injection Hnew as ->. cbn in K.
  unfold binding_fields in K. injection K as Ha Hv Hi _ Hm _.
  unfold well_bound, bound_as, binding_handle. cbn.
  rewrite Ha, Hv, Hi, Hm. cbn. repeat split; eauto.
Qed.

Lemma reachable_well_bound (valid : State -> Op -> Prop) (s : State) :
  reachable valid s -> well_bound s.
Proof.
  induction 1 as [options n s Hinit | s op _ IH _].
  - exact (initial_well_bound options n s Hinit).
  - now apply exec_well_bound.
Qed.

(** C7, as the code has it.  From [Sampling] or [Reporting],
    [setMonitoringMode(Disabled)] returns with no sampler bound, the queue
    empty and [overflow] false; and in every reachable state a [Disabled]
    item has no sampler bound: no interval runs for it and the node holds
    no listener of it.  (The queue of a [Disabled] item can be filled again,
    see the lemma that follows.) *)
Theorem disabling_unbinds_and_disabled_stays_unbound (s : State) :
  reachable any_op s ->
  (monitoringMode (item s) = Sampling \/ monitoringMode (item s) = Reporting ->
   fst (setMonitoringMode Disabled s) = Return tt
   /\ unbound (snd (setMonitoringMode Disabled s))
   /\ queue (item (snd (setMonitoringMode Disabled s))) = []
   /\ overflow (item (snd (setMonitoringMode Disabled s))) = false
   /\ monitoringMode (item (snd (setMonitoringMode Disabled s))) = Disabled)
  /\ (monitoringMode (item s) = Disabled -> unbound s).
Proof.
  intros Hreach. pose proof (reachable_well_bound _ _ Hreach) as Hwb.
  split.
  - intros Hmode.
    destruct (setMonitoringMode_Disabled s Hwb)
      as (Hret & Hun & Hm & Hq & Ho & _); [destruct Hmode; congruence|].
    auto.
  - intros Hmode. destruct Hwb as (_ & Hbound & Hnone).
    apply bound_as_unbound; auto.
Qed.

Lemma reachable_run_ops (ops : list Op) (s : State) :
  reachable any_op s -> reachable any_op (run_ops ops s).
Proof.
  revert s. induction ops as [|op ops IH]; intros s Hs; [exact Hs|].
  cbn. apply IH. now apply reachable_step.
Qed.
End Disabling.

Lemma scenario_state_initial (samplingInterval' queueSize' : Z)
    (discardOldest' : bool) (f : option Filter) :
  0 <= samplingInterval' -> 0 <= queueSize' ->
  initial (scenario_options samplingInterval' queueSize' discardOldest' f)
          (analog_node 0 200)
          (scenario_state samplingInterval' queueSize' discardOldest' f).
Proof.
  intros Hsi Hqs.
  unfold initial, scenario_state, scenario_item, MonitoredItem_new.
  cbn [o_monitoringMode scenario_options o_parameters].
  eexists. split; [|reflexivity].
  unfold _set_parameters, _validate_parameters, _adjust_sampling_interval.
  cbn [o_queueSize o_samplingInterval o_clientHandle o_discardOldest].
  replace (0 <=? queueSize') with true by (symmetry; now apply Z.leb_le).
  replace (0 <=? samplingInterval') with true by (symmetry; now apply Z.leb_le).
  autorewrite with js. unfold liftO.
  destruct (samplingInterval' =? 0); reflexivity.
Qed.

Lemma scenario_state_reachable (samplingInterval' queueSize' : Z)
    (discardOldest' : bool) (f : option Filter) (ops : list Op) :
  0 <= samplingInterval' -> 0 <= queueSize' ->
  @reachable scalar_DataModel any_op
    (scenario_run ops (scenario_state samplingInterval' queueSize' discardOldest' f)).
Proof.
  intros Hsi Hqs. apply reachable_run_ops.
  eapply reachable_initial. now apply scenario_state_initial.
Qed.

(** C7 as stated fails for the queue: the asynchronous first read of an
    exception-based item may complete after the item has been disabled, and
    its callback records the reading. *)
Lemma disabled_item_can_hold_a_reading :
  let s := scenario_run [OpSetMonitoringMode Reporting;
                         OpSetMonitoringMode Disabled;
                         OpReadDone (reading 1 Good)]
                        (scenario_state 0 3 true None) in
  @reachable scalar_DataModel any_op s
  /\ monitoringMode (item s) = Disabled
  /\ queue (item s) = [reading 1 Good].
Proof.
  split; [apply scenario_state_reachable; lia|].
  vm_compute. split; reflexivity.
Qed.

(** An exception-based item disabled with a reading queued, and a sampled
    item after it was disabled. *)
Lemma disabling_unbinds_and_disabled_stays_unbound_witness :
  let s := scenario_run [OpSetMonitoringMode Reporting;
                         OpRecordValue (reading 1 Good) None]
                        (scenario_state 0 3 true None) in
  let s2 := scenario_run [OpSetMonitoringMode Reporting;
                          OpSetMonitoringMode Disabled]
                         (scenario_state 1000 3 true None) in
  (fst (@setMonitoringMode scalar_DataModel Disabled s) = Return tt
   /\ unbound (snd (@setMonitoringMode scalar_DataModel Disabled s))
   /\ queue (item (snd (@setMonitoringMode scalar_DataModel Disabled s))) = []
   /\ overflow (item (snd (@setMonitoringMode scalar_DataModel Disabled s))) = false
   /\ monitoringMode (item (snd (@setMonitoringMode scalar_DataModel Disabled s)))
      = Disabled)
  /\ unbound s2.
Proof.
  split.
  - apply (@disabling_unbinds_and_disabled_stays_unbound scalar_DataModel
             (scenario_run [OpSetMonitoringMode Reporting;
                            OpRecordValue (reading 1 Good) None]
                           (scenario_state 0 3 true None))).
    + apply scenario_state_reachable; lia.
    + right. reflexivity.
  - apply (@disabling_unbinds_and_disabled_stays_unbound scalar_DataModel
             (scenario_run [OpSetMonitoringMode Reporting;
                            OpSetMonitoringMode Disabled]
                           (scenario_state 1000 3 true None))).
    + apply scenario_state_reachable; lia.
    + reflexivity.
Defined.

(** ** The overflow flag and the overflow bit *)






Lemma resized_length (discardOldest' : bool) (queueSize' : Z)
    (q : list DataValue) :
  0 <= queueSize' ->
  Z.of_nat (length (resized discardOldest' queueSize' q)) <= queueSize'.
Proof.
  intros Hqs. unfold resized, splice_front, splice_from.
  destruct (queueSize' <? Z.of_nat (length q)) eqn:Elt.
  - apply Z.ltb_lt in Elt. destruct discardOldest'.
    + rewrite length_drop. lia.
    + destruct (last q) eqn:El;
        [|apply last_None in El; subst q; cbn in *; lia].
      cbv zeta.
      replace (queueSize' <? 0) with false by (symmetry; apply Z.ltb_ge; lia).
      rewrite length_insert, length_take. lia.
  - apply Z.ltb_ge in Elt. exact Elt.
Qed.

(** The buffer [_adjust_queue_to_match_new_queue_size] leaves behind. *)
Lemma _adjust_queue_buffer (self : MonitoredItem) :
  let q' := resized (discardOldest self) (queueSize self) (queue self) in
  let self' := snd (_adjust_queue_to_match_new_queue_size self) in
  queue self'
  = (if queueSize self <=? 1
     then match q' with
          | [d] => if marked d then [set_statusCode Good d] else [d]
          | _ => q'
          end
     else q')
  /\ overflow self' = (if queueSize self <=? 1 then false else overflow self).
Proof.
  destruct_item self.
  unfold _adjust_queue_to_match_new_queue_size, resized, marked. js_simpl.
  destruct (qs <? Z.of_nat (length q)); cbn.
  - destruct dold; cbn.
    + destruct (qs <=? 1); cbn.
      * destruct (splice_front _ q) as [|d [|d' l]]; cbn;
          try destruct (StatusCode_eqb (statusCode d) GoodWithOverflowBit); cbn;
          try destruct oib; cbn;
          try destruct (_ <=? qs); auto.
      * destruct (_ <=? qs); auto.
    + destruct (last q) as [lastElement|]; cbn.
      * destruct (qs <=? 1); cbn.
        -- destruct (<[_:=_]> _) as [|d [|d' l]]; cbn;
             try destruct (StatusCode_eqb (statusCode d) GoodWithOverflowBit); cbn;
             try destruct oib; cbn;
             try destruct (_ <=? qs); auto.
        -- destruct (_ <=? qs); auto.
      * destruct (qs <=? 1); cbn.
        -- destruct q as [|d [|d' l]]; cbn;
             try destruct (StatusCode_eqb (statusCode d) GoodWithOverflowBit); cbn;
             try destruct oib; cbn;
             try destruct (_ <=? qs); auto.
        -- destruct (_ <=? qs); auto.
  - destruct (qs <=? 1); cbn.
    + destruct q as [|d [|d' l]]; cbn;
        try destruct (StatusCode_eqb (statusCode d) GoodWithOverflowBit); cbn;
        try destruct oib; cbn;
        try destruct (_ <=? qs); auto.
    + destruct (_ <=? qs); auto.
Qed.


Lemma _empty_queue_flagged (self : MonitoredItem) :
  flagged (snd (_empty_queue self)).
Proof. unfold flagged, _empty_queue. js_simpl. discriminate. Qed.



Section Overflow.
Context `{DataModel}.












End Overflow.




(** ** Deadband evaluation *)

(** The percent branch of [valueHasChanged] reads neither the two values nor
    the range of the node: it never answers "unchanged". *)
Lemma valueHasChanged_Percent_never_false (self : MonitoredItem)
    (newDataValue oldDataValue : DataValue) (deadbandValue : Q) :
  valueHasChanged self newDataValue oldDataValue Percent deadbandValue
  <> Return false.
Proof.
  unfold valueHasChanged.
  destruct (negb _); [discriminate|]. destruct (negb _); discriminate.
Qed.

(** C1 on the code.  With range 0 to 200 and a percent deadband of 10 the
    specification's rule reports 125 after 100 and does not report 115; the
    code reports both, and [recordValue] enqueues 115. *)
Theorem percent_deadband_reports_every_reading :
  let f := DataChangeFilter StatusValue Percent 10 in
  let r := {| range_low := 0; range_high := 200 |} in
  let self := snd (scenario_recordValue (reading 100 Good) None
                                        (scenario_item 0 3 true (Some f))) in
  node self = Some (analog_node 0 200)
  /\ oldDataValue self = reading 100 Good
  /\ percent_deadband_changed 100 115 10 r = false
  /\ percent_deadband_changed 100 125 10 r = true
  /\ valueHasChanged self (reading 115 Good) (reading 100 Good) Percent 10
     = Return true
  /\ valueHasChanged self (reading 125 Good) (reading 100 Good) Percent 10
     = Return true
  /\ queue (snd (scenario_recordValue (reading 115 Good) None self))
     = [reading 100 Good; reading 115 Good].
Proof. vm_compute. repeat split; reflexivity. Qed.

(** Two 64-bit integers of one type with equal high words differ by their
    low words. *)
Lemma difference_equal_high_words (t : DataType) (high low1 low2 : Z) :
  t = Int64 \/ t = UInt64 ->
  difference (Some {| dataType := t; value := Words high low1 |})
             (Some {| dataType := t; value := Words high low2 |})
  = Return (Num (inject_Z (low1 - low2))).
Proof.
  intros [-> | ->]; unfold difference; cbn; now rewrite Z.eqb_refl.
Qed.

(** C9 on the code.  Two unsigned 64-bit readings whose high words differ
    make [difference] fail its assertion: the filter throws, nothing is
    enqueued and nothing is reported, with or without a deadband.  An
    [Int64] reading followed by a [UInt64] one misses the 64-bit branch
    altogether and subtracts the two arrays. *)
Theorem differing_high_words_throw :
  let old := reading64 UInt64 1 5 in
  let new := reading64 UInt64 2 5 in
  let run := fun deadband =>
    let f := DataChangeFilter StatusValue deadband 0 in
    let self := snd (scenario_recordValue old None
                                          (scenario_item 0 3 true (Some f))) in
    (queue self, scenario_recordValue new None self) in
  difference (dv_value old) (dv_value new) = Throw AssertionError
  /\ fst (run DeadbandNone) = [old]
  /\ fst (snd (run DeadbandNone)) = Throw AssertionError
  /\ queue (snd (snd (run DeadbandNone))) = [old]
  /\ fst (snd (run Absolute)) = Throw AssertionError
  /\ queue (snd (snd (run Absolute))) = [old]
  /\ difference (dv_value (reading64 Int64 1 5)) (dv_value (reading64 UInt64 1 7))
     = Return NaN.
Proof. vm_compute. repeat split; reflexivity. Qed.

(** * Further properties of the code *)

(** ** Parameter normaliser and constructor *)

(** X1.  A sampling interval that is not negative is revised to zero when it
    is zero (exception-based) and into the range from
    [minimumSamplingInterval] to [maximumSamplingInterval] otherwise; an
    interval in that range is kept, and revising twice changes nothing. *)
Theorem _adjust_sampling_interval_revises (samplingInterval' : Z) :
  0 <= samplingInterval' ->
  exists revised,
    _adjust_sampling_interval samplingInterval' = Return revised
    /\ (revised = 0 <-> samplingInterval' = 0)
    /\ (samplingInterval' <> 0 ->
        minimumSamplingInterval <= revised <= maximumSamplingInterval)
    /\ (minimumSamplingInterval <= samplingInterval' <= maximumSamplingInterval ->
        revised = samplingInterval')
    /\ _adjust_sampling_interval revised = Return revised.
Proof.
  intros Hpos. unfold _adjust_sampling_interval.
  unfold minimumSamplingInterval, maximumSamplingInterval.
  destruct (samplingInterval' =? 0) eqn:E0.
  - apply Z.eqb_eq in E0. subst. exists 0. cbn. repeat split; auto; lia.
  - apply Z.eqb_neq in E0.
    replace (0 <=? samplingInterval') with true by (symmetry; apply Z.leb_le; lia).
    cbn [negb]. eexists. split; [reflexivity|].
    repeat split; try lia.
    destruct (_ =? 0) eqn:E1; [apply Z.eqb_eq in E1; lia|].
    replace (0 <=? _) with true by (symmetry; apply Z.leb_le; lia).
    cbn [negb]. f_equal. lia.
Qed.

(** A requested interval of 10 ms is revised to the minimum. *)
Lemma _adjust_sampling_interval_revises_witness :
  exists revised,
    _adjust_sampling_interval 10 = Return revised
    /\ (revised = 0 <-> 10 = 0)
    /\ (10 <> 0 -> minimumSamplingInterval <= revised <= maximumSamplingInterval)
    /\ (minimumSamplingInterval <= 10 <= maximumSamplingInterval -> revised = 10)
    /\ _adjust_sampling_interval revised = Return revised.
Proof. apply (_adjust_sampling_interval_revises 10). lia. Defined.

(** X2.  Every queue size is revised into the range from 1 to
    [maxQueueSize]; exactly the sizes in that range are kept, revising twice
    changes nothing, and a larger request never gets a smaller queue. *)
Theorem _adjust_queue_size_revises (queueSize' other : Z) :
  1 <= _adjust_queue_size queueSize' <= maxQueueSize
  /\ (_adjust_queue_size queueSize' = queueSize' <-> 1 <= queueSize' <= maxQueueSize)
  /\ _adjust_queue_size (_adjust_queue_size queueSize') = _adjust_queue_size queueSize'
  /\ (queueSize' <= other -> _adjust_queue_size queueSize' <= _adjust_queue_size other).
Proof. unfold _adjust_queue_size, maxQueueSize. repeat split; lia. Qed.

(** What [_set_parameters] does with each kind of request. *)
Lemma _set_parameters_run (options : MonitoringParameters) (self : MonitoredItem) :
  _set_parameters options self
  = if negb (0 <=? o_queueSize options) then (Throw AssertionError, self)
    else match _adjust_sampling_interval (o_samplingInterval options) with
         | Throw e => (Throw e, set_clientHandle (o_clientHandle options) self)
         | Return revised =>
             (Return tt,
              set_queueSize (_adjust_queue_size (o_queueSize options))
                (set_discardOldest (o_discardOldest options)
                   (set_samplingInterval revised
                      (set_clientHandle (o_clientHandle options) self))))
         end.
Proof.
  unfold _set_parameters, _validate_parameters.
  destruct (0 <=? o_queueSize options); cbn [negb]; autorewrite with js;
    [|reflexivity].
  unfold liftO. rewrite bind_run.
  destruct (_adjust_sampling_interval _); [|reflexivity].
  now autorewrite with js.
Qed.

Lemma _adjust_sampling_interval_throws (samplingInterval' : Z) :
  (exists e, _adjust_sampling_interval samplingInterval' = Throw e)
  <-> samplingInterval' < 0.
Proof.
  unfold _adjust_sampling_interval.
  destruct (samplingInterval' =? 0) eqn:E0.
  - apply Z.eqb_eq in E0. split; [intros [e He]; discriminate | lia].
  - destruct (0 <=? samplingInterval') eqn:E1; cbn [negb].
    + apply Z.leb_le in E1. split; [intros [e He]; discriminate | lia].
    + apply Z.leb_gt in E1. split; [auto | eauto].
Qed.

(** X3.  The constructor throws exactly when the options carry a monitoring
    mode, a negative queue size or a negative sampling interval.  Otherwise
    the new item is in mode [Invalid] with an empty queue, no overflow, the
    unset reading with status [BadDataUnavailable] as [oldDataValue], no node
    and no sampler, and its queue size and sampling interval are the revised
    ones. *)
Theorem MonitoredItem_new_contract (options : Options) :
  ((exists e, MonitoredItem_new options = Throw e)
   <-> (is_Some (o_monitoringMode options)
        \/ o_queueSize (o_parameters options) < 0
        \/ o_samplingInterval (o_parameters options) < 0))
  /\ (forall self, MonitoredItem_new options = Return self ->
      monitoringMode self = Invalid
      /\ queue self = [] /\ overflow self = false
      /\ oldDataValue self = unset_DataValue
      /\ statusCode (oldDataValue self) = BadDataUnavailable
      /\ node self = None /\ isSampling self = false
      /\ clientHandle self = o_clientHandle (o_parameters options)
      /\ discardOldest self = o_discardOldest (o_parameters options)
      /\ queueSize self = _adjust_queue_size (o_queueSize (o_parameters options))
      /\ _adjust_sampling_interval (o_samplingInterval (o_parameters options))
         = Return (samplingInterval self)
      /\ filter self = o_filter options
      /\ itemToMonitor self
         = default defaultItemToMonitor (o_itemToMonitor options)
      /\ timestampsToReturn self
         = default Neither (o_timestampsToReturn options)).
Proof.
  unfold MonitoredItem_new. rewrite _set_parameters_run.
  pose proof (_adjust_sampling_interval_throws
                (o_samplingInterval (o_parameters options))) as Hsi.
  destruct (o_monitoringMode options) as [m|].
  { split; [|discriminate]. split; eauto. }
  destruct (0 <=? o_queueSize (o_parameters options)) eqn:Eq; cbn [negb].
  - apply Z.leb_le in Eq.
    destruct (_adjust_sampling_interval _) as [revised|e].
    + split.
      * split; [intros [e He]; discriminate|].
        intros [[x Hx]|[Hq|Hs]]; [discriminate | lia |].
        apply Hsi in Hs as [e He]. discriminate.
      * intros self [= <-]. cbn. auto 20.
    + split; [|discriminate]. split; [|eauto].
      intros _. right. right. apply Hsi. eauto.
  - apply Z.leb_gt in Eq. split; [|discriminate]. split; eauto.
Qed.

(** ** Rules for [maintains] *)

Section Maintains.
Context {S : Type} (P : S -> Prop).

Lemma maintains_ret {A} (a : A) : maintains P (ret a).
Proof. intros s Hs. exact Hs. Qed.

Lemma maintains_throw {A} (e : Exn) : maintains P (@throw S A e).
Proof. intros s Hs. exact Hs. Qed.

Lemma maintains_get : maintains P get.
Proof. intros s Hs. exact Hs. Qed.

Lemma maintains_assert (b : bool) : maintains P (assert b).
Proof. intros s Hs. destruct b; exact Hs. Qed.

Lemma maintains_liftO {A} (o : Outcome A) : maintains P (liftO o).
Proof. intros s Hs. exact Hs. Qed.

Lemma maintains_modify_state (f : S -> S) :
  (forall s, P s -> P (f s)) -> maintains P (modify_state f).
Proof. intros Hf s Hs. now apply Hf. Qed.

Lemma maintains_bind {A B} (m : Js S A) (k : A -> Js S B) :
  maintains P m -> (forall a, maintains P (k a)) -> maintains P (bind m k).
Proof.
  intros Hm Hk s Hs. unfold bind. specialize (Hm s Hs).
  destruct (m s) as [[a|e] s']; cbn in *.
  - now apply Hk.
  - exact Hm.
Qed.

Lemma maintains_when (b : bool) (m : Js S unit) :
  maintains P m -> maintains P (when b m).
Proof. intros Hm. destruct b; [exact Hm | apply maintains_ret]. Qed.

Lemma maintains_keeps {V A} (view : S -> V) (m : Js S A) :
  (forall s s', view s' = view s -> P s -> P s') ->
  keeps view m -> maintains P m.
Proof. intros Hview Hm s Hs. exact (Hview s _ (Hm s) Hs). Qed.
End Maintains.

Lemma maintains_lift_self {A} (P : MonitoredItem -> Prop)
    (m : Js MonitoredItem A) :
  maintains P m -> maintains (fun s => P (item s)) (lift_self m).
Proof. intros Hm s Hs. unfold lift_self. cbn. now apply Hm. Qed.

(** The rules applied along the text of a method; what is left is the
    statements that are methods themselves and the assignments that do not
    obviously maintain the property. *)
Ltac maintains_step :=
  lazymatch goal with
  | |- maintains _ (bind _ _) => apply maintains_bind; [|intros ?]
  | |- maintains _ (ret _) => apply maintains_ret
  | |- maintains _ (throw _) => apply maintains_throw
  | |- maintains _ get => apply maintains_get
  | |- maintains _ (assert _) => apply maintains_assert
  | |- maintains _ (liftO _) => apply maintains_liftO
  | |- maintains _ (when _ _) => apply maintains_when
  | |- maintains _ (modify_state _) =>
      apply maintains_modify_state;
      let s := fresh "s" in let Hs := fresh "Hs" in
      intros s Hs; first [exact Hs | idtac]
  | |- maintains _ (lift_self _) => apply maintains_lift_self
  | |- maintains _ (if ?b then _ else _) => destruct b
  | |- maintains _ (match ?x with _ => _ end) => destruct x
  | |- maintains _ (let _ := _ in _) => cbv zeta
  end.
Ltac maintains_tac := repeat maintains_step.

(** ** The queue fits its size *)

Lemma sized_fields (i i' : MonitoredItem) :
  size_fields i' = size_fields i -> sized i -> sized i'.
Proof.
  unfold size_fields, sized. intros [= Hq Ho Hqs Hsi].
  now rewrite Hq, Ho, Hqs, Hsi.
Qed.

Lemma sized_view (s s' : State) :
  size_view s' = size_view s -> sized (item s) -> sized (item s').
Proof. apply sized_fields. Qed.

Lemma _enqueue_value_sized (d : DataValue) : maintains sized (_enqueue_value d).
Proof.
  intros self. destruct_item self. unfold sized, _enqueue_value. js_simpl.
  intros (Hqs & Hlen & Hsi & Hone).
  destruct (qs =? 1) eqn:E1; cbn.
  { apply Z.eqb_eq in E1. repeat split; auto; lia. }
  apply Z.eqb_neq in E1.
  destruct dold; cbn.
  - destruct (qs <? Z.of_nat (length (q ++ [d]))) eqn:E2; cbn.
    + rewrite length_app in E2. cbn [length] in E2.
      assert (Z.of_nat (length (tail (q ++ [d]))) <= qs) as Htail.
      { destruct q; cbn in *; [lia|]. rewrite length_app. cbn. lia. }
      destruct (tail (q ++ [d])) as [|front rest]; cbn in *.
      * repeat split; auto; lia.
      * destruct (StatusCode_eqb (statusCode front) Good); cbn.
        -- destruct rest; cbn in *; repeat split; auto; lia.
        -- repeat split; auto; lia.
    + apply Z.ltb_ge in E2. repeat split; auto; lia.
  - destruct (Z.of_nat (length q) <? qs) eqn:E2; cbn.
    + apply Z.ltb_lt in E2. rewrite length_app. cbn [length].
      repeat split; auto; lia.
    + rewrite length_insert. repeat split; auto; lia.
Qed.

Lemma _adjust_queue_sized (self : MonitoredItem) :
  1 <= queueSize self <= maxQueueSize ->
  samplingInterval self = 0
  \/ minimumSamplingInterval <= samplingInterval self <= maximumSamplingInterval ->
  fst (_adjust_queue_to_match_new_queue_size self) = Return tt
  /\ sized (snd (_adjust_queue_to_match_new_queue_size self)).
Proof.
  intros Hqs Hsi.
  pose proof (_adjust_queue_buffer self) as [Hq Ho].
  pose proof (resized_length (discardOldest self) (queueSize self) (queue self))
    as Hlen.
  assert (size_fields (snd (_adjust_queue_to_match_new_queue_size self))
          = (queue (snd (_adjust_queue_to_match_new_queue_size self)),
             overflow (snd (_adjust_queue_to_match_new_queue_size self)),
             queueSize self, samplingInterval self)) as Hfields.
  { clear. destruct_item self.
    unfold _adjust_queue_to_match_new_queue_size. js_simpl.
    destruct (qs <? _); cbn;
      [destruct dold; cbn; [|destruct (last q); cbn]|];
      (destruct (qs <=? 1); cbn;
       [ match goal with
         | |- context [match ?l with _ => _ end] =>
             destruct l as [|d0 [|d1 l0]]; cbn;
             try destruct (StatusCode_eqb (statusCode d0) GoodWithOverflowBit); cbn;
             try destruct oib; cbn
         end
       | ]);
      try destruct (_ <=? qs); reflexivity. }
  unfold size_fields in Hfields. injection Hfields as Hqs' Hsi'.
  assert (Z.of_nat (length (queue (snd (_adjust_queue_to_match_new_queue_size self))))
          <= queueSize self) as Hfit.
  { rewrite Hq. destruct (queueSize self <=? 1); [|lia].
    destruct (resized _ _ _) as [|d [|d' l]]; cbn in *; try lia.
    destruct (marked d); cbn; lia. }
  split.
  - clear Hq Ho Hqs' Hsi'. revert Hfit. destruct_item self.
    unfold _adjust_queue_to_match_new_queue_size. js_simpl.
    destruct (qs <? _); cbn;
      [destruct dold; cbn; [|destruct (last q); cbn]|];
      (destruct (qs <=? 1); cbn;
       [ match goal with
         | |- context [match ?l with _ => _ end] =>
             destruct l as [|d0 [|d1 l0]]; cbn;
             try destruct (StatusCode_eqb (statusCode d0) GoodWithOverflowBit); cbn;
             try destruct oib; cbn
         end
       | ]);
      intros Hfit;
      (match goal with
       | |- context [?a <=? ?b] => destruct (a <=? b) eqn:E
       end;
       [reflexivity | cbn in Hfit; apply Z.leb_gt in E; cbn in E; lia]).
  - unfold sized. rewrite Hqs', Hsi', Ho.
    repeat split; auto; try lia.
    intros H1. rewrite H1. reflexivity.
Qed.

Lemma _empty_queue_sized : maintains sized _empty_queue.
Proof.
  intros self. unfold sized, _empty_queue. js_simpl.
  intros (Hqs & Hlen & Hsi & Hone). repeat split; auto; lia.
Qed.

Lemma _stop_sampling_sized : maintains (fun s => sized (item s)) _stop_sampling.
Proof.
  unfold _stop_sampling, unregister, node_removeListener, clearInterval.
  maintains_tac.
Qed.

Lemma _on_sampling_timer_sized :
  maintains (fun s => sized (item s)) _on_sampling_timer.
Proof. unfold _on_sampling_timer. maintains_tac. Qed.

Lemma _adjust_sampling_sized (old_samplingInterval : Z) :
  maintains (fun s => sized (item s)) (_adjust_sampling old_samplingInterval).
Proof.
  unfold _adjust_sampling, _change_timer_timeout, clearInterval, setInterval,
    fresh.
  maintains_tac.
Qed.

Section Sizes.
Context `{DataModel}.

Lemma recordValue_sized (d : DataValue) (r : option NumericRange) :
  maintains sized (recordValue d r).
Proof. unfold recordValue. maintains_tac. apply _enqueue_value_sized. Qed.

Lemma _on_value_changed_sized (d : DataValue) (r : option NumericRange) :
  maintains sized (_on_value_changed d r).
Proof. unfold _on_value_changed. maintains_tac. apply recordValue_sized. Qed.

Lemma extract_sized : maintains sized extractMonitoredItemNotifications.
Proof.
  unfold extractMonitoredItemNotifications. maintains_tac.
  apply _empty_queue_sized.
Qed.

Lemma call_listeners_sized (ls : list (EventName * nat)) (d : DataValue)
    (r : option NumericRange) :
  maintains (fun s => sized (item s)) (call_listeners ls d r).
Proof.
  induction ls as [|l ls IH]; cbn [call_listeners]; maintains_tac.
  - apply _on_value_changed_sized.
  - exact IH.
Qed.

Lemma _start_sampling_sized (recordInitialValue : bool) :
  maintains (fun s => sized (item s)) (_start_sampling recordInitialValue).
Proof.
  unfold _start_sampling, register, node_on, setInterval, fresh.
  maintains_tac;
    try apply _stop_sampling_sized;
    try apply recordValue_sized;
    try apply _on_sampling_timer_sized.
  unfold sized in *. cbn. unfold minimumSamplingInterval, maximumSamplingInterval.
  intuition lia.
Qed.

Lemma setMonitoringMode_sized (m : MonitoringMode) :
  maintains (fun s => sized (item s)) (setMonitoringMode m).
Proof.
  unfold setMonitoringMode.
  maintains_tac;
    try apply _stop_sampling_sized;
    try apply _start_sampling_sized;
    unfold sized in *; cbn; intuition lia.
Qed.
End Sizes.

Lemma _adjust_queue_keeps_parameters :
  keeps (fun self => (clientHandle self, discardOldest self,
                      timestampsToReturn self, queueSize self,
                      samplingInterval self))
        _adjust_queue_to_match_new_queue_size.
Proof. unfold _adjust_queue_to_match_new_queue_size. keeps_tac. Qed.

(** [_adjust_sampling] always returns, and of the item it writes
    [_samplingId] only. *)
Lemma _adjust_sampling_run (old_samplingInterval : Z) (s : State) :
  exists sid w,
    _adjust_sampling old_samplingInterval s
    = (Return tt, {| item := set__samplingId sid (item s); world := w |}).
Proof.
  destruct s as [i w]. destruct_item i.
  unfold _adjust_sampling, _change_timer_timeout, clearInterval, setInterval,
    fresh.
  autorewrite with js. cbn.
  destruct (negb _); [destruct sid|]; autorewrite with js; cbn;
    eexists; eexists; reflexivity.
Qed.

Lemma _adjust_sampling_interval_returns (samplingInterval' : Z) :
  0 <= samplingInterval' ->
  exists revised,
    _adjust_sampling_interval samplingInterval' = Return revised
    /\ (revised = 0
        \/ minimumSamplingInterval <= revised <= maximumSamplingInterval).
Proof.
  intros Hpos. unfold _adjust_sampling_interval.
  unfold minimumSamplingInterval, maximumSamplingInterval.
  destruct (samplingInterval' =? 0) eqn:E0.
  - apply Z.eqb_eq in E0. subst. exists 0. auto.
  - replace (0 <=? samplingInterval') with true by (symmetry; apply Z.leb_le; lia).
    cbn [negb]. eexists. split; [reflexivity|]. right. lia.
Qed.

(** The two ways [modify] can go: it throws on a negative queue size or
    sampling interval, before anything is resized, and otherwise returns
    the revised values and leaves an item that holds them. *)
Lemma modify_outcome (ts : option TimestampsToReturn)
    (options : MonitoringParameters) (s : State) :
  ((o_queueSize options < 0 \/ o_samplingInterval options < 0)
   /\ fst (modify ts options s) = Throw AssertionError
   /\ size_view (snd (modify ts options s)) = size_view s
   /\ discardOldest (item (snd (modify ts options s))) = discardOldest (item s)
   /\ binding_view (snd (modify ts options s)) = binding_view s)
  \/ (0 <= o_queueSize options /\ 0 <= o_samplingInterval options
      /\ exists revised,
          _adjust_sampling_interval (o_samplingInterval options) = Return revised
          /\ fst (modify ts options s)
             = Return {| r_statusCode := Good;
                         revisedSamplingInterval := revised;
                         revisedQueueSize := _adjust_queue_size (o_queueSize options);
                         filterResult := None |}
          /\ samplingInterval (item (snd (modify ts options s))) = revised
          /\ queueSize (item (snd (modify ts options s)))
             = _adjust_queue_size (o_queueSize options)
          /\ clientHandle (item (snd (modify ts options s)))
             = o_clientHandle options
          /\ discardOldest (item (snd (modify ts options s)))
             = o_discardOldest options
          /\ timestampsToReturn (item (snd (modify ts options s)))
             = default (timestampsToReturn (item s)) ts
          /\ sized (item (snd (modify ts options s)))).
Proof.
  destruct (modify ts options s) as [res s'] eqn:E. cbn [fst snd].
  unfold modify in E. autorewrite with js in E.
  rewrite bind_run in E. unfold lift_self at 1 in E.
  rewrite _set_parameters_run in E.
  destruct (0 <=? o_queueSize options) eqn:Eq; cbn [negb] in E;
    [|apply Z.leb_gt in Eq; cbn in E; injection E as <- <-; left; auto].
  apply Z.leb_le in Eq.
  destruct (Z_lt_ge_dec (o_samplingInterval options) 0) as [Hi|Hi].
  { left. unfold _adjust_sampling_interval in E.
    replace (o_samplingInterval options =? 0) with false in E
      by (symmetry; apply Z.eqb_neq; lia).
    replace (0 <=? o_samplingInterval options) with false in E
      by (symmetry; apply Z.leb_gt; lia).
    cbn in E. injection E as <- <-. auto. }
  right. split; [exact Eq|]. split; [lia|].
  destruct (_adjust_sampling_interval_returns (o_samplingInterval options))
    as (revised & Hrev & Hrange); [lia|].
  exists revised. split; [exact Hrev|].
  rewrite Hrev in E. cbn [fst snd item world on_self] in E.
  set (i2 := set_queueSize _ _) in E.
  rewrite bind_run in E. unfold lift_self at 1 in E. cbn [item world] in E.
  destruct (_adjust_queue_sized i2) as [Hret Hsized].
  { cbn. unfold _adjust_queue_size, maxQueueSize. lia. }
  { exact Hrange. }
  pose proof (_adjust_queue_keeps_parameters i2) as Hkeep. cbn beta in Hkeep.
  destruct (_adjust_queue_to_match_new_queue_size i2) as [o i3].
  cbn [fst snd] in Hret, Hsized, Hkeep, E. subst o.
  injection Hkeep as Hch Hdo Httr Hq Hs.
  rewrite bind_run in E.
  match type of E with context [_adjust_sampling ?x ?s3] =>
    destruct (_adjust_sampling_run x s3) as (sid & w & Hrun)
  end.
  rewrite Hrun in E. autorewrite with js in E. injection E as <- <-.
  cbn. rewrite Hch, Hdo, Httr, Hq, Hs. cbn.
  repeat (split; [reflexivity|]).
  eapply sized_fields; [|exact Hsized]. reflexivity.
Qed.

(** X4.  With a queue size and a sampling interval that are not negative,
    [modify] returns [Good] together with the revised sampling interval and
    the revised queue size, whatever the state of the item.  The item then
    holds these two values, the client handle, the discard policy and the
    timestamps as requested, and its queue fits the revised size. *)
Theorem modify_returns_revised_parameters (ts : option TimestampsToReturn)
    (options : MonitoringParameters) (s : State) :
  0 <= o_queueSize options -> 0 <= o_samplingInterval options ->
  exists revised,
    _adjust_sampling_interval (o_samplingInterval options) = Return revised
    /\ fst (modify ts options s)
       = Return {| r_statusCode := Good;
                   revisedSamplingInterval := revised;
                   revisedQueueSize := _adjust_queue_size (o_queueSize options);
                   filterResult := None |}
    /\ samplingInterval (item (snd (modify ts options s))) = revised
    /\ queueSize (item (snd (modify ts options s)))
       = _adjust_queue_size (o_queueSize options)
    /\ clientHandle (item (snd (modify ts options s))) = o_clientHandle options
    /\ discardOldest (item (snd (modify ts options s))) = o_discardOldest options
    /\ timestampsToReturn (item (snd (modify ts options s)))
       = default (timestampsToReturn (item s)) ts
    /\ sized (item (snd (modify ts options s))).
Proof.
  intros Hqs Hsi.
  destruct (modify_outcome ts options s) as [([Hneg|Hneg] & _)|(_ & _ & Hok)];
    [lia | lia | exact Hok].
Qed.

(** X5.  A negative queue size or sampling interval makes [modify] throw
    before anything is resized: the queue, the overflow flag, the queue
    size, the sampling interval, the discard policy and the sampler are the
    ones of before. *)
Theorem modify_throws_before_resizing (ts : option TimestampsToReturn)
    (options : MonitoringParameters) (s : State) :
  o_queueSize options < 0 \/ o_samplingInterval options < 0 ->
  fst (modify ts options s) = Throw AssertionError
  /\ size_view (snd (modify ts options s)) = size_view s
  /\ discardOldest (item (snd (modify ts options s))) = discardOldest (item s)
  /\ binding_view (snd (modify ts options s)) = binding_view s.
Proof.
  intros Hneg.
  destruct (modify_outcome ts options s) as [(_ & Hthrow)|(Hq & Hi & _)];
    [exact Hthrow | lia].
Qed.

(** A resize of the scenario queue from three to two. *)
Lemma modify_returns_revised_parameters_witness :
  let s := scenario_run [OpSetMonitoringMode Reporting;
                         OpRecordValue (reading 1 Good) None;
                         OpRecordValue (reading 2 Good) None;
                         OpRecordValue (reading 3 Good) None]
                        (scenario_state 0 3 true None) in
  let options := {| o_clientHandle := 9; o_samplingInterval := 10;
                    o_discardOldest := true; o_queueSize := 2 |} in
  exists revised,
    _adjust_sampling_interval (o_samplingInterval options) = Return revised
    /\ fst (modify None options s)
       = Return {| r_statusCode := Good;
                   revisedSamplingInterval := revised;
                   revisedQueueSize := _adjust_queue_size (o_queueSize options);
                   filterResult := None |}
    /\ samplingInterval (item (snd (modify None options s))) = revised
    /\ queueSize (item (snd (modify None options s)))
       = _adjust_queue_size (o_queueSize options)
    /\ clientHandle (item (snd (modify None options s))) = o_clientHandle options
    /\ discardOldest (item (snd (modify None options s)))
       = o_discardOldest options
    /\ timestampsToReturn (item (snd (modify None options s)))
       = default (timestampsToReturn (item s)) None
    /\ sized (item (snd (modify None options s))).
Proof. apply modify_returns_revised_parameters; cbn; lia. Defined.

(** A request with queue size -1. *)
Lemma modify_throws_before_resizing_witness :
  let s := scenario_state 0 3 true None in
  let options := {| o_clientHandle := 9; o_samplingInterval := 10;
                    o_discardOldest := true; o_queueSize := -1 |} in
  fst (modify None options s) = Throw AssertionError
  /\ size_view (snd (modify None options s)) = size_view s
  /\ discardOldest (item (snd (modify None options s))) = discardOldest (item s)
  /\ binding_view (snd (modify None options s)) = binding_view s.
Proof. apply modify_throws_before_resizing. left. cbn. lia. Defined.

Lemma modify_sized (ts : option TimestampsToReturn)
    (options : MonitoringParameters) :
  maintains (fun s => sized (item s)) (modify ts options).
Proof.
  intros s Hs.
  destruct (modify_outcome ts options s)
    as [(_ & _ & Hview & _)|(_ & _ & revised & Hok)].
  - now apply (sized_view s).
  - apply Hok.
Qed.

Section Bounds.
Context `{DataModel}.

Lemma exec_sized (op : Op) (s : State) :
  sized (item s) -> sized (item (exec op s)).
Proof.
  revert s. change (maintains (fun s => sized (item s)) (run_op op)).
  destruct op; cbn [run_op].
  - apply setMonitoringMode_sized.
  - apply maintains_bind; [apply modify_sized | intros; apply maintains_ret].
  - apply maintains_lift_self, recordValue_sized.
  - apply maintains_bind; [|intros; apply maintains_ret].
    apply maintains_lift_self, extract_sized.
  - apply _stop_sampling_sized.
  - unfold emit. apply maintains_bind; [apply maintains_get|].
    intros s0. apply call_listeners_sized.
  - apply maintains_bind; [apply maintains_get|].
    intros s0. apply maintains_when, _on_sampling_timer_sized.
  - unfold sampling_callback. maintains_tac. apply _on_value_changed_sized.
  - unfold readValueAsync_callback. maintains_tac. apply recordValue_sized.
  - maintains_tac.
  - maintains_tac.
Qed.

Lemma initial_sized (options : Options) (n : Node) (s : State) :
  initial options n s -> sized (item s).
Proof.
  intros (i & Hnew & ->). unfold MonitoredItem_new in Hnew.
  destruct (o_monitoringMode options); [discriminate|].
  rewrite _set_parameters_run in Hnew.
  destruct (0 <=? o_queueSize (o_parameters options)) eqn:Eq; [|discriminate].
  cbn [negb] in Hnew. unfold _adjust_sampling_interval in Hnew.
  unfold sized, _adjust_queue_size, minimumSamplingInterval,
    maximumSamplingInterval, maxQueueSize in *.
  destruct (_ =? 0) eqn:E0.
  - apply Z.eqb_eq in E0. injection Hnew as <-. cbn. rewrite E0.
    repeat split; auto; lia.
  - destruct (0 <=? o_samplingInterval _); [|discriminate].
    injection Hnew as <-. cbn. repeat split; auto; lia.
Qed.

Lemma reachable_sized (valid : State -> Op -> Prop) (s : State) :
  reachable valid s -> sized (item s).
Proof.
  induction 1 as [options n s Hinit | s op _ IH _].
  - exact (initial_sized options n s Hinit).
  - now apply exec_sized.
Qed.

(** X6.  In every reachable state the queue size lies between 1 and
    [maxQueueSize], the queue holds at most that many readings, and the
    sampling interval is zero or lies between [minimumSamplingInterval] and
    [maximumSamplingInterval]. *)
Theorem queue_fits_and_parameters_stay_revised (s : State) :
  reachable any_op s ->
  1 <= queueSize (item s) <= maxQueueSize
  /\ Z.of_nat (length (queue (item s))) <= queueSize (item s)
  /\ (samplingInterval (item s) = 0
      \/ minimumSamplingInterval <= samplingInterval (item s)
         <= maximumSamplingInterval).
Proof.
  intros Hreach.
  destruct (reachable_sized _ _ Hreach) as (Hqs & Hlen & Hsi & _). auto.
Qed.

(** X7.  A queue of size one never overflows: in every reachable state with
    queue size 1 the overflow flag is unset, and an enqueue leaves exactly
    the new reading in the queue, unmarked, with the flag still unset. *)
Theorem queue_of_size_one_holds_the_latest_reading (s : State) (d : DataValue) :
  reachable any_op s ->
  queueSize (item s) = 1 ->
  overflow (item s) = false
  /\ _enqueue_value d (item s)
     = (Return d, set_queue [d] (set_old_is_back true (set_oldDataValue d (item s)))).
Proof.
  intros Hreach Hone.
  destruct (reachable_sized _ _ Hreach) as (_ & _ & _ & Hovf).
  split; [now apply Hovf|].
  unfold _enqueue_value. autorewrite with js. cbn. rewrite Hone. reflexivity.
Qed.
End Bounds.

(** Five readings offered to a queue of three. *)
Lemma queue_fits_and_parameters_stay_revised_witness :
  let s := scenario_run [OpSetMonitoringMode Reporting;
                         OpRecordValue (reading 1 Good) None;
                         OpRecordValue (reading 2 Good) None;
                         OpRecordValue (reading 3 Good) None;
                         OpRecordValue (reading 4 Good) None;
                         OpRecordValue (reading 5 Good) None]
                        (scenario_state 1000 3 true None) in
  1 <= queueSize (item s) <= maxQueueSize
  /\ Z.of_nat (length (queue (item s))) <= queueSize (item s)
  /\ (samplingInterval (item s) = 0
      \/ minimumSamplingInterval <= samplingInterval (item s)
         <= maximumSamplingInterval).
Proof.
  apply (@queue_fits_and_parameters_stay_revised scalar_DataModel).
  apply scenario_state_reachable; lia.
Defined.

(** Two readings offered to a queue of one. *)
Lemma queue_of_size_one_holds_the_latest_reading_witness :
  let s := scenario_run [OpSetMonitoringMode Reporting;
                         OpRecordValue (reading 1 Good) None]
                        (scenario_state 0 1 true None) in
  overflow (item s) = false
  /\ _enqueue_value (reading 2 Good) (item s)
     = (Return (reading 2 Good),
        set_queue [reading 2 Good]
          (set_old_is_back true (set_oldDataValue (reading 2 Good) (item s)))).
Proof.
  apply (@queue_of_size_one_holds_the_latest_reading scalar_DataModel).
  - apply scenario_state_reachable; lia.
  - reflexivity.
Defined.

(** ** Sampler bindings *)

Lemma _stop_sampling_unbound (s : State) :
  binding_handle (item s) = None -> _stop_sampling s = (Return tt, s).
Proof.
  destruct s as [i w]. destruct_item i. unfold binding_handle. cbn.
  intros Hnone. unfold _stop_sampling.
  destruct acb, vcb, sid; try discriminate; reflexivity.
Qed.

Section Bindings.
Context `{DataModel}.

(** X8.  In every reachable state at most one sampler is bound: the event
    loop and the node together hold at most one interval or listener of the
    item, [isSampling] tells whether they hold one, and it is the one the
    fields of the item name. *)
Theorem at_most_one_sampler_is_bound (s : State) :
  reachable any_op s ->
  (length (timers (world s)) + length (listeners (world s)) <= 1)%nat
  /\ (isSampling (item s) = true
      <-> (length (timers (world s)) + length (listeners (world s)) = 1)%nat)
  /\ (forall h, live (world s) h = true <-> binding_handle (item s) = Some h).
Proof.
  intros Hreach.
  destruct (reachable_well_bound _ _ Hreach) as (_ & Hbound & _).
  destruct s as [i w]. destruct_item i. destruct w as [tm ls rg nh pr ps].
  unfold bound_as, isSampling, binding_handle, live in *. cbn in *.
  destruct acb as [a|], vcb as [v|], sid as [| |t]; try contradiction;
    destruct Hbound as [Ht Hl];
    try match type of Ht with ex _ => destruct Ht as [period Ht] end;
    subst; cbn; (split; [lia|]); (split; [split; (lia || discriminate || auto)|]);
    intros h; rewrite ?orb_false_r;
    (split; [intros Hlive | intros [= <-]]);
    try discriminate;
    try (destruct (Nat.eqb_spec a h); [now subst | discriminate]);
    try (destruct (Nat.eqb_spec v h); [now subst | discriminate]);
    try (destruct (Nat.eqb_spec t h); [now subst | discriminate]);
    now rewrite Nat.eqb_refl.
Qed.
End Bindings.

(** A sampled item, enabled. *)
Lemma at_most_one_sampler_is_bound_witness :
  let s := scenario_run [OpInstallSamplingFunc; OpSetMonitoringMode Sampling]
                        (scenario_state 1000 3 true None) in
  (length (timers (world s)) + length (listeners (world s)) <= 1)%nat
  /\ (@isSampling (item s) = true
      <-> (length (timers (world s)) + length (listeners (world s)) = 1)%nat)
  /\ (forall h, live (world s) h = true <-> binding_handle (item s) = Some h).
Proof.
  apply (@at_most_one_sampler_is_bound scalar_DataModel).
  apply scenario_state_reachable; lia.
Defined.

Lemma binding_fields_mode (i i' : MonitoredItem) :
  binding_fields i' = binding_fields i -> monitoringMode i' = monitoringMode i.
Proof. unfold binding_fields. now intros [= _ _ _ _ Hm _]. Qed.

Section Switching.
Context `{DataModel}.

Lemma _start_sampling_keeps_mode (recordInitialValue : bool) :
  keeps (fun s => monitoringMode (item s)) (_start_sampling recordInitialValue).
Proof.
  unfold _start_sampling, _stop_sampling, register, unregister, node_on,
    node_removeListener, clearInterval, setInterval, fresh, _on_sampling_timer.
  keeps_tac.
  eapply keeps_lift_self; [apply recordValue_keeps_binding|].
  intros s0 i Hi. cbn. now apply binding_fields_mode.
Qed.

Lemma setMonitoringMode_sets_mode (m : MonitoringMode) (s : State) :
  m <> Invalid -> monitoringMode (item (snd (setMonitoringMode m s))) = m.
Proof.
  intros Hm. unfold setMonitoringMode.
  destruct m; try congruence;
    cbn [MonitoringMode_eqb negb]; autorewrite with js.
  - destruct (monitoringMode (item s)) eqn:Em; autorewrite with js;
      try exact Em.
    all: rewrite bind_run;
      match goal with |- context [_stop_sampling ?s0] =>
        pose proof (_stop_sampling_frame s0) as (_ & _ & _ & F & _);
        destruct (_stop_sampling s0) as [[[]|e] s1]
      end; cbn in F |- *; exact F.
  - destruct (monitoringMode (item s)) eqn:Em; autorewrite with js;
      try exact Em.
    all: now rewrite _start_sampling_keeps_mode.
  - destruct (monitoringMode (item s)) eqn:Em; autorewrite with js;
      try exact Em.
    all: now rewrite _start_sampling_keeps_mode.
Qed.

(** X9.  Setting the mode an item is already in does nothing, so setting a
    mode twice is setting it once: the second call returns (or, for
    [Invalid], fails its assertion again) and leaves the state of the first
    call. *)
Theorem setMonitoringMode_twice (m : MonitoringMode) (s : State) :
  setMonitoringMode m (snd (setMonitoringMode m s))
  = (if MonitoringMode_eqb m Invalid then Throw AssertionError else Return tt,
     snd (setMonitoringMode m s)).
Proof.
  destruct (MonitoringMode_eqb m Invalid) eqn:Einv.
  - destruct m; try discriminate. reflexivity.
  - assert (m <> Invalid) as Hm by (intros ->; discriminate).
    pose proof (setMonitoringMode_sets_mode m s Hm) as Hmode.
    set (s1 := snd (setMonitoringMode m s)) in *. clearbody s1.
    unfold setMonitoringMode. rewrite Einv. cbn [negb].
    autorewrite with js. rewrite Hmode.
    destruct m; reflexivity.
Qed.

(** X10.  In every reachable state [terminate] returns and leaves no
    sampler bound while the queue stays as it is; a second [terminate] does
    nothing; and afterwards neither an elapsing interval nor an event of the
    node reaches the item. *)
Theorem terminate_releases_the_sampler (s : State) :
  reachable any_op s ->
  let s' := snd (terminate s) in
  fst (terminate s) = Return tt
  /\ unbound s'
  /\ buffer_view s' = buffer_view s
  /\ terminate s' = (Return tt, s')
  /\ (forall h, run_op (OpTimer h) s' = (Return tt, s'))
  /\ (forall ev d r, run_op (OpEmit ev d r) s' = (Return tt, s')).
Proof.
  intros Hreach s'.
  destruct (reachable_well_bound _ _ Hreach) as (Hnode & Hbound & _).
  destruct (_stop_sampling_unbinds s Hnode Hbound) as (Hret & Hun & _).
  fold (terminate s) in Hret, Hun. fold s' in Hun.
  destruct Hun as (Hh & Ht & Hl).
  split; [exact Hret|]. split; [now repeat split|].
  split; [apply _stop_sampling_keeps_buffer|].
  split; [now apply _stop_sampling_unbound|].
  split.
  - intros h. cbn [run_op]. autorewrite with js. now rewrite Ht.
  - intros ev d r. cbn [run_op]. unfold emit. autorewrite with js.
    now rewrite Hl.
Qed.
End Switching.

(** A sampled item in [Reporting] mode, terminated. *)
Lemma terminate_releases_the_sampler_witness :
  let s := scenario_run [OpInstallSamplingFunc; OpSetMonitoringMode Reporting]
                        (scenario_state 1000 3 true None) in
  let s' := snd (terminate s) in
  fst (terminate s) = Return tt
  /\ unbound s'
  /\ buffer_view s' = buffer_view s
  /\ terminate s' = (Return tt, s')
  /\ (forall h, @run_op scalar_DataModel (OpTimer h) s' = (Return tt, s'))
  /\ (forall ev d r, @run_op scalar_DataModel (OpEmit ev d r) s' = (Return tt, s')).
Proof.
  apply (@terminate_releases_the_sampler scalar_DataModel).
  apply scenario_state_reachable; lia.
Defined.

Section Strategy.
Context `{DataModel}.

Lemma recordValue_keeps_sampler_view (d : DataValue) (r : option NumericRange) :
  keeps sampler_view (lift_self (recordValue d r)).
Proof.
  eapply keeps_lift_self with
    (view := fun i => (binding_fields i, samplingInterval i)).
  - unfold recordValue, _enqueue_value. keeps_tac.
  - intros s i E. apply pair_equal_spec in E as [Hb Hs].
    unfold sampler_view, binding_view. cbn. now rewrite Hb, Hs.
Qed.

Lemma _on_sampling_timer_keeps_sampler_view :
  keeps sampler_view _on_sampling_timer.
Proof. unfold _on_sampling_timer. keeps_tac. Qed.

(** A revised sampling interval that is not zero is a period Node takes
    as it is. *)
Lemma timer_period_revised (delay : Z) :
  minimumSamplingInterval <= delay <= maximumSamplingInterval ->
  timer_period delay = delay.
Proof.
  unfold timer_period, TIMEOUT_MAX, minimumSamplingInterval,
    maximumSamplingInterval.
  intros Hd.
  replace (delay <? 1) with false by (symmetry; apply Z.ltb_ge; lia).
  replace (2147483647 <? delay) with false by (symmetry; apply Z.ltb_ge; lia).
  reflexivity.
Qed.

(** The binding [_start_sampling] leaves, from a state whose node is
    attached and whose binding is the one the world holds. *)
Lemma _start_sampling_binding (rec : bool) (s0 : State) :
  is_Some (node (item s0)) ->
  bound_as (item s0) (world s0) ->
  samplingInterval (item s0) = 0
  \/ minimumSamplingInterval <= samplingInterval (item s0)
     <= maximumSamplingInterval ->
  let s' := snd (_start_sampling rec s0) in
  let h := next_handle (world s0) in
  match sampler_kind (item s0) with
  | AttributeListener =>
      _attribute_changed_callback (item s') = Some h
      /\ _value_changed_callback (item s') = None
      /\ truthy (_samplingId (item s')) = false
      /\ listeners (world s')
         = [(AttributeEvent (attributeId (itemToMonitor (item s0))), h)]
      /\ timers (world s') = []
      /\ samplingInterval (item s') = 0
  | ValueListener =>
      _value_changed_callback (item s') = Some h
      /\ _attribute_changed_callback (item s') = None
      /\ truthy (_samplingId (item s')) = false
      /\ listeners (world s') = [(value_changed, h)]
      /\ timers (world s') = []
      /\ samplingInterval (item s') = 0
  | PeriodicTimer =>
      _samplingId (item s') = IdTimer h
      /\ _attribute_changed_callback (item s') = None
      /\ _value_changed_callback (item s') = None
      /\ timers (world s') = [(h, samplingInterval (item s0))]
      /\ listeners (world s') = []
      /\ samplingInterval (item s') = samplingInterval (item s0)
  end.
Proof.
  intros Hnode0 Hbound0 Hsi s' h. subst s' h.
  destruct (_start_sampling rec s0) as [r s'] eqn:E. cbn [snd].
  unfold _start_sampling in E. autorewrite with js in E.
  rewrite bind_run in E.
  match type of E with context [_stop_sampling ?s1] =>
    destruct (_stop_sampling_unbinds s1)
      as (Fret & Fun & Fnd & Fm & Fitm & Fsi & Fnh);
      [exact Hnode0 | exact Hbound0 |];
    destruct (_stop_sampling s1) as [o s2]
  end.
  cbn in Fret, Fun, Fnd, Fm, Fitm, Fsi, Fnh. subst o.
  destruct Hnode0 as [n Hn]. rewrite Hn in Fnd.
  destruct Fun as (Fh & Ft & Fl).
  destruct s2 as [i2 w2]. destruct_item i2. destruct w2 as [tm ls rg nh pr ps].
  unfold binding_handle in Fh. cbn in *. subst.
  assert (acb = None /\ vcb = None /\ truthy sid = false) as (-> & -> & Hsid).
  { destruct acb, vcb, sid; try discriminate; auto. }
  unfold register, node_on, setInterval, fresh in E.
  autorewrite with js in E. cbn in E.
  unfold sampler_kind.
  destruct (negb (attributeId (itemToMonitor (item s0)) =? AttributeIds_Value)).
  - autorewrite with js in E. cbn in E.
    match type of E with when _ ?t ?s3 = _ =>
      assert (keeps sampler_view (when rec t)) as K
        by (apply keeps_when, recordValue_keeps_sampler_view);
      specialize (K s3); rewrite E in K; cbn [snd] in K
    end.
    unfold sampler_view, binding_view, binding_fields in K. cbn in K.
    injection K as -> -> -> _ _ _ -> -> ->. auto 10.
  - destruct (samplingInterval (item s0) =? 0) eqn:E0;
      autorewrite with js in E; cbn in E.
    + apply Z.eqb_eq in E0.
      match type of E with when _ ?t ?s3 = _ =>
        assert (keeps sampler_view (when rec t)) as K
          by (apply keeps_when; keeps_tac);
        specialize (K s3); rewrite E in K; cbn [snd] in K
      end.
      unfold sampler_view, binding_view, binding_fields in K. cbn in K.
      injection K as -> -> -> _ _ _ -> -> ->. auto 10.
    + apply Z.eqb_neq in E0.
      replace (minimumSamplingInterval <=? samplingInterval (item s0))
        with true in E by (symmetry; apply Z.leb_le; lia).
      autorewrite with js in E. cbn in E.
      rewrite timer_period_revised in E by lia.
      match type of E with when _ ?t ?s3 = _ =>
        assert (keeps sampler_view (when rec t)) as K
          by (apply keeps_when, _on_sampling_timer_keeps_sampler_view);
        specialize (K s3); rewrite E in K; cbn [snd] in K
      end.
      unfold sampler_view, binding_view, binding_fields in K. cbn in K.
      injection K as -> -> -> _ _ _ -> -> ->. auto 10.
Qed.

(** X11.  Enabling an item, or switching it between [Sampling] and
    [Reporting], binds the sampler that the attribute and the sampling
    interval call for, under a handle created by the call: a listener of the
    attribute's event, with the sampling interval forced to zero, for any
    attribute but [Value]; a listener of [value_changed] for an
    exception-based item; an interval with the sampling interval as its
    period otherwise.  Nothing else is bound, whether or not recording the
    initial value succeeds. *)
Theorem _start_sampling_binds_by_kind (s : State) (m : MonitoringMode) :
  reachable any_op s ->
  m = Sampling \/ m = Reporting ->
  monitoringMode (item s) <> m ->
  let s' := snd (setMonitoringMode m s) in
  let h := next_handle (world s) in
  match sampler_kind (item s) with
  | AttributeListener =>
      _attribute_changed_callback (item s') = Some h
      /\ _value_changed_callback (item s') = None
      /\ truthy (_samplingId (item s')) = false
      /\ listeners (world s')
         = [(AttributeEvent (attributeId (itemToMonitor (item s))), h)]
      /\ timers (world s') = []
      /\ samplingInterval (item s') = 0
  | ValueListener =>
      _value_changed_callback (item s') = Some h
      /\ _attribute_changed_callback (item s') = None
      /\ truthy (_samplingId (item s')) = false
      /\ listeners (world s') = [(value_changed, h)]
      /\ timers (world s') = []
      /\ samplingInterval (item s') = 0
  | PeriodicTimer =>
      _samplingId (item s') = IdTimer h
      /\ _attribute_changed_callback (item s') = None
      /\ _value_changed_callback (item s') = None
      /\ timers (world s') = [(h, samplingInterval (item s))]
      /\ listeners (world s') = []
      /\ samplingInterval (item s') = samplingInterval (item s)
  end.
Proof.
  intros Hreach Hm Hdiff s' h.
  destruct (reachable_well_bound _ _ Hreach) as (Hnode & Hbound & _).
  destruct (reachable_sized _ _ Hreach) as (_ & _ & Hsi & _).
  subst s' h.
  rewrite setMonitoringMode_enables;
    [|exact Hm
     |destruct Hm as [-> | ->], (monitoringMode (item s)); auto; congruence].
  apply (_start_sampling_binding _ (on_self (set_monitoringMode m) s));
    [exact Hnode | exact Hbound | cbn; lia].
Qed.
End Strategy.

(** An item on the [Value] attribute sampled every second, enabled. *)
Lemma _start_sampling_binds_by_kind_witness :
  let s := scenario_run [OpInstallSamplingFunc]
                        (scenario_state 1000 3 true None) in
  let s' := snd (@setMonitoringMode scalar_DataModel Reporting s) in
  _samplingId (item s') = IdTimer 1
  /\ _attribute_changed_callback (item s') = None
  /\ _value_changed_callback (item s') = None
  /\ timers (world s') = [(1%nat, 1000)]
  /\ listeners (world s') = []
  /\ samplingInterval (item s') = 1000.
Proof.
  apply (@_start_sampling_binds_by_kind scalar_DataModel
           (scenario_run [OpInstallSamplingFunc]
                         (scenario_state 1000 3 true None))
           Reporting).
  - apply scenario_state_reachable; lia.
  - now right.
  - discriminate.
Defined.

(** ** Triggers and deadbands *)

Lemma StatusCode_eqb_eq (a b : StatusCode) :
  StatusCode_eqb a b = true <-> a = b.
Proof.
  destruct a, b; cbn; split; try congruence; try reflexivity.
  - intros E. apply Z.eqb_eq in E. now subst.
  - intros [= ->]. apply Z.eqb_refl.
Qed.

Lemma statusCodeHasChanged_same (d d' : DataValue) :
  statusCode d = statusCode d' -> statusCodeHasChanged d d' = false.
Proof.
  intros E. unfold statusCodeHasChanged. rewrite E.
  now rewrite (proj2 (StatusCode_eqb_eq _ _) eq_refl).
Qed.

Lemma statusCodeHasChanged_differ (d d' : DataValue) :
  statusCode d <> statusCode d' -> statusCodeHasChanged d d' = true.
Proof.
  intros E. unfold statusCodeHasChanged.
  destruct (StatusCode_eqb _ _) eqn:Eb; [|reflexivity].
  now apply StatusCode_eqb_eq in Eb.
Qed.

(** X12.  Under the triggers [Status] and [StatusValue] a reading whose
    status code differs from the one of the old reading passes the filter,
    whatever the deadband and the two values are: the values are not looked
    at and nothing is asserted about them. *)
Theorem status_change_passes_the_filter (self : MonitoredItem) (d : DataValue)
    (trigger : DataChangeTrigger) (deadbandType : DeadbandType)
    (deadbandValue : Q) :
  filter self = Some (DataChangeFilter trigger deadbandType deadbandValue) ->
  trigger <> StatusValueTimestamp ->
  statusCode d <> statusCode (oldDataValue self) ->
  apply_filter self d = Return true.
Proof.
  intros Hf Ht Hs. unfold apply_filter, apply_datachange_filter.
  rewrite Hf, (statusCodeHasChanged_differ _ _ Hs).
  destruct trigger; [reflexivity | reflexivity | contradiction].
Qed.

(** X13.  With the trigger [StatusValue] and two integers of types that
    [difference] does not take for 64-bit integers, of a magnitude up to
    [2 ^ 52] so that they and their difference are numbers the source
    subtracts without rounding, a reading with the status code of the old
    one passes the filter exactly when the two integers differ (no
    deadband), or differ by more than the deadband value (absolute
    deadband); the filter does not throw. *)
Theorem deadband_on_integers (self : MonitoredItem) (d : DataValue)
    (deadbandType : DeadbandType) (deadbandValue : Q)
    (t t' : DataType) (a b : Z) :
  filter self = Some (DataChangeFilter StatusValue deadbandType deadbandValue) ->
  deadbandType <> Percent ->
  dv_value (oldDataValue self)
  = Some {| dataType := t; value := Scalar (inject_Z a) |} ->
  dv_value d = Some {| dataType := t'; value := Scalar (inject_Z b) |} ->
  t <> UInt64 -> t' <> Int64 ->
  Z.abs a <= 2 ^ 52 -> Z.abs b <= 2 ^ 52 ->
  statusCode d = statusCode (oldDataValue self) ->
  exists keep,
    apply_filter self d = Return keep
    /\ (keep = true <->
        match deadbandType with
        | DeadbandNone => b <> a
        | _ => (deadbandValue < inject_Z (Z.abs (b - a)))%Q
        end).
Proof.
  intros Hf Hdt Hold Hnew Ht Ht' _ _ Hs.
  unfold apply_filter, apply_datachange_filter.
  rewrite Hf, (statusCodeHasChanged_same _ _ Hs).
  unfold valueHasChanged, difference. rewrite Hold, Hnew. cbn.
  replace (DataType_eqb t UInt64) with false by (now destruct t).
  replace (DataType_eqb t' Int64) with false by (now destruct t').
  cbn.
  assert (inject_Z b - inject_Z a == inject_Z (b - a))%Q as Hsub.
  { unfold Qminus. rewrite <- inject_Z_opp, <- inject_Z_plus. reflexivity. }
  destruct deadbandType; [| |contradiction]; cbn.
  - eexists. split; [reflexivity|].
    rewrite negb_true_iff, <- not_true_iff_false, Qeq_bool_iff, Hsub.
    change 0%Q with (inject_Z 0). rewrite inject_Z_injective. lia.
  - eexists. split; [reflexivity|].
    rewrite negb_true_iff, <- not_true_iff_false, Qle_bool_iff.
    assert (Qabs (inject_Z b - inject_Z a) == inject_Z (Z.abs (b - a)))%Q
      as Habs.
    { rewrite Hsub. unfold Qabs, inject_Z. reflexivity. }
    rewrite Habs. split; [apply Qnot_le_lt | apply Qlt_not_le].
Qed.

(** X14.  With the trigger [StatusValue] and no deadband, two 64-bit
    integers with one high word, of types that [difference] takes for
    64-bit integers, are told apart by their low words. *)
Theorem low_words_decide_without_deadband (self : MonitoredItem)
    (d : DataValue) (deadbandValue : Q) (t t' : DataType)
    (high low low' : Z) :
  filter self = Some (DataChangeFilter StatusValue DeadbandNone deadbandValue) ->
  dv_value (oldDataValue self)
  = Some {| dataType := t; value := Words high low |} ->
  dv_value d = Some {| dataType := t'; value := Words high low' |} ->
  t = UInt64 \/ t' = Int64 ->
  statusCode d = statusCode (oldDataValue self) ->
  apply_filter self d = Return (negb (low =? low')).
Proof.
  intros Hf Hold Hnew Ht Hs.
  unfold apply_filter, apply_datachange_filter.
  rewrite Hf, (statusCodeHasChanged_same _ _ Hs).
  unfold valueHasChanged, difference. rewrite Hold, Hnew. cbn.
  replace (DataType_eqb t UInt64 || DataType_eqb t' Int64) with true
    by (destruct Ht as [-> | ->]; cbn; [reflexivity | now rewrite orb_true_r]).
  rewrite Z.eqb_refl. cbn. f_equal. f_equal.
  unfold Qeq_bool. cbn. rewrite Z.mul_1_r.
  destruct (Z.eqb_spec low low') as [-> | Hne].
  - now rewrite Z.sub_diag.
  - destruct (low - low') eqn:E; cbn; try reflexivity. lia.
Qed.

Section Triggers.
Context `{DataModel}.

Lemma recordValue_under_StatusValueTimestamp (self : MonitoredItem)
    (d : DataValue) (r : option NumericRange) (dt : DeadbandType) (dv : Q) :
  filter self = Some (DataChangeFilter StatusValueTimestamp dt dv) ->
  recordValue d r self = (Return tt, self).
Proof.
  intros Hf. unfold recordValue. rewrite bind_get.
  destruct (negb _); [reflexivity|].
  rewrite Hf. unfold apply_filter, apply_datachange_filter. rewrite Hf.
  reflexivity.
Qed.

(** X15.  An item whose trigger is [StatusValueTimestamp] records nothing:
    [recordValue] returns without touching the item, whatever the reading,
    the old reading and the deadband are. *)
Theorem StatusValueTimestamp_records_nothing (self : MonitoredItem)
    (d : DataValue) (r : option NumericRange)
    (deadbandType : DeadbandType) (deadbandValue : Q) :
  filter self
  = Some (DataChangeFilter StatusValueTimestamp deadbandType deadbandValue) ->
  recordValue d r self = (Return tt, self).
Proof.
  intros Hf. unfold recordValue. rewrite bind_get.
  destruct (negb _); [reflexivity|].
  rewrite Hf. unfold apply_filter, apply_datachange_filter. rewrite Hf.
  reflexivity.
Qed.

(** X16.  An item whose trigger is [Status] does not look at the value: a
    reading that carries the status code of the old reading is dropped,
    leaving the item as it was, whatever the two values and the deadband
    are. *)
Theorem Status_trigger_ignores_the_value (self : MonitoredItem)
    (d : DataValue) (r : option NumericRange)
    (deadbandType : DeadbandType) (deadbandValue : Q) :
  filter self = Some (DataChangeFilter Status deadbandType deadbandValue) ->
  statusCode (extractRange d (indexRange (itemToMonitor self)))
  = statusCode (oldDataValue self) ->
  recordValue d r self = (Return tt, self).
Proof.
  intros Hf Hs. unfold recordValue. rewrite bind_get.
  destruct (negb _); [reflexivity|].
  rewrite Hf. unfold apply_filter, apply_datachange_filter. rewrite Hf.
  now rewrite (statusCodeHasChanged_same _ _ Hs).
Qed.
End Triggers.

(** A [Good] reading offered to a new item, whose old reading is the
    [BadDataUnavailable] baseline without a value. *)
Lemma status_change_passes_the_filter_witness :
  apply_filter (scenario_item 0 3 true (Some (DataChangeFilter Status Absolute 10)))
               (reading 100 Good)
  = Return true.
Proof.
  apply (status_change_passes_the_filter _ _ Status Absolute 10).
  - reflexivity.
  - discriminate.
  - discriminate.
Defined.

(** 105 after 100 with an absolute deadband of 10. *)
Lemma deadband_on_integers_witness :
  let f := DataChangeFilter StatusValue Absolute 10 in
  let self := snd (scenario_recordValue (reading 100 Good) None
                                        (scenario_item 0 3 true (Some f))) in
  exists keep,
    apply_filter self (reading 105 Good) = Return keep
    /\ (keep = true <-> (10 < inject_Z (Z.abs (105 - 100)))%Q).
Proof.
  apply (deadband_on_integers _ _ Absolute 10 Double Double 100 105).
  - reflexivity.
  - discriminate.
  - reflexivity.
  - reflexivity.
  - discriminate.
  - discriminate.
  - vm_compute. discriminate.
  - vm_compute. discriminate.
  - reflexivity.
Defined.

(** Low word 7 after low word 5 under high word 1. *)
Lemma low_words_decide_without_deadband_witness :
  let f := DataChangeFilter StatusValue DeadbandNone 0 in
  let self := snd (scenario_recordValue (reading64 UInt64 1 5) None
                                        (scenario_item 0 3 true (Some f))) in
  apply_filter self (reading64 UInt64 1 7) = Return (negb (5 =? 7)).
Proof.
  apply (low_words_decide_without_deadband _ _ 0 UInt64 UInt64 1 5 7);
    try reflexivity.
  now left.
Defined.

(** A reading offered to an item with the trigger [StatusValueTimestamp]. *)
Lemma StatusValueTimestamp_records_nothing_witness :
  let f := DataChangeFilter StatusValueTimestamp DeadbandNone 0 in
  scenario_recordValue (reading 100 Good) None (scenario_item 0 3 true (Some f))
  = (Return tt, scenario_item 0 3 true (Some f)).
Proof.
  apply (@StatusValueTimestamp_records_nothing scalar_DataModel _ _ _
           DeadbandNone 0).
  reflexivity.
Defined.

(** 100 recorded, then 150 with the same status code. *)
Lemma Status_trigger_ignores_the_value_witness :
  let f := DataChangeFilter Status DeadbandNone 0 in
  let self := snd (scenario_recordValue (reading 100 Good) None
                                        (scenario_item 0 3 true (Some f))) in
  queue self = [reading 100 Good]
  /\ scenario_recordValue (reading 150 Good) None self = (Return tt, self).
Proof.
  split; [reflexivity|].
  apply (@Status_trigger_ignores_the_value scalar_DataModel _
           (reading 150 Good) None DeadbandNone 0);
    reflexivity.
Defined.

(** ** What only the constructor assigns *)

Lemma keeps_item_view {V A} (view : MonitoredItem -> V)
    (m : Js MonitoredItem A) :
  keeps view m -> keeps (fun s => view (item s)) (lift_self m).
Proof. intros Hm s. unfold lift_self. cbn. apply Hm. Qed.

Lemma maintains_lift_self_view {V A} (view : MonitoredItem -> V)
    (P : State -> Prop) (m : Js MonitoredItem A) :
  keeps view m ->
  (forall s i, view i = view (item s) ->
               P s -> P {| item := i; world := world s |}) ->
  maintains P (lift_self m).
Proof. intros Hm Hview s Hs. unfold lift_self. cbn. now apply Hview. Qed.

Lemma _set_parameters_keeps_identity (options : MonitoringParameters) :
  keeps identity_fields (_set_parameters options).
Proof. unfold _set_parameters, _validate_parameters. keeps_tac. Qed.

Lemma _enqueue_value_keeps_identity (d : DataValue) :
  keeps identity_fields (_enqueue_value d).
Proof. unfold _enqueue_value. keeps_tac. Qed.

Lemma _adjust_queue_keeps_identity :
  keeps identity_fields _adjust_queue_to_match_new_queue_size.
Proof. unfold _adjust_queue_to_match_new_queue_size. keeps_tac. Qed.

Lemma _stop_sampling_keeps_identity : keeps identity_view _stop_sampling.
Proof.
  unfold _stop_sampling, unregister, node_removeListener, clearInterval.
  keeps_tac.
Qed.

Lemma _on_sampling_timer_keeps_identity : keeps identity_view _on_sampling_timer.
Proof. unfold _on_sampling_timer. keeps_tac. Qed.

Lemma _adjust_sampling_keeps_identity (old_samplingInterval : Z) :
  keeps identity_view (_adjust_sampling old_samplingInterval).
Proof.
  unfold _adjust_sampling, _change_timer_timeout, clearInterval, setInterval,
    fresh.
  keeps_tac.
Qed.

Lemma modify_keeps_identity (ts : option TimestampsToReturn)
    (options : MonitoringParameters) :
  keeps identity_view (modify ts options).
Proof.
  unfold modify. keeps_tac.
  - apply (keeps_item_view identity_fields), _set_parameters_keeps_identity.
  - apply (keeps_item_view identity_fields), _adjust_queue_keeps_identity.
  - apply _adjust_sampling_keeps_identity.
Qed.

Section Identity.
Context `{DataModel}.

Lemma recordValue_keeps_identity (d : DataValue) (r : option NumericRange) :
  keeps identity_fields (recordValue d r).
Proof. unfold recordValue. keeps_tac; apply _enqueue_value_keeps_identity. Qed.

Lemma _on_value_changed_keeps_identity (d : DataValue)
    (r : option NumericRange) :
  keeps identity_fields (_on_value_changed d r).
Proof. unfold _on_value_changed. keeps_tac. apply recordValue_keeps_identity. Qed.

Lemma extract_keeps_identity :
  keeps identity_fields extractMonitoredItemNotifications.
Proof. unfold extractMonitoredItemNotifications, _empty_queue. keeps_tac. Qed.

Lemma call_listeners_keeps_identity (ls : list (EventName * nat))
    (d : DataValue) (r : option NumericRange) :
  keeps identity_view (call_listeners ls d r).
Proof.
  induction ls as [|l ls IH]; cbn [call_listeners]; keeps_tac.
  - apply (keeps_item_view identity_fields), _on_value_changed_keeps_identity.
  - exact IH.
Qed.

Lemma _start_sampling_keeps_identity (recordInitialValue : bool) :
  keeps identity_view (_start_sampling recordInitialValue).
Proof.
  unfold _start_sampling, register, node_on, setInterval, fresh.
  keeps_tac;
    try apply _stop_sampling_keeps_identity;
    try apply _on_sampling_timer_keeps_identity;
    apply (keeps_item_view identity_fields), recordValue_keeps_identity.
Qed.

Lemma setMonitoringMode_keeps_identity (m : MonitoringMode) :
  keeps identity_view (setMonitoringMode m).
Proof.
  unfold setMonitoringMode.
  keeps_tac;
    try apply _stop_sampling_keeps_identity;
    apply _start_sampling_keeps_identity.
Qed.

Lemma run_op_keeps_identity (op : Op) : keeps identity_view (run_op op).
Proof.
  destruct op; cbn [run_op].
  - apply setMonitoringMode_keeps_identity.
  - keeps_tac. apply modify_keeps_identity.
  - apply (keeps_item_view identity_fields), recordValue_keeps_identity.
  - keeps_tac.
    apply (keeps_item_view identity_fields), extract_keeps_identity.
  - apply _stop_sampling_keeps_identity.
  - unfold emit. keeps_tac. apply call_listeners_keeps_identity.
  - keeps_tac. apply _on_sampling_timer_keeps_identity.
  - unfold sampling_callback. keeps_tac.
    apply (keeps_item_view identity_fields), _on_value_changed_keeps_identity.
  - unfold readValueAsync_callback. keeps_tac.
    apply (keeps_item_view identity_fields), recordValue_keeps_identity.
  - keeps_tac.
  - keeps_tac.
Qed.

(** X17.  No sequence of operations changes the identifier of an item, the
    attribute and index range it monitors, or its filter: [modify] in
    particular leaves the filter alone. *)
Theorem operations_keep_the_identity (ops : list Op) (s : State) :
  monitoredItemId (item (run_ops ops s)) = monitoredItemId (item s)
  /\ itemToMonitor (item (run_ops ops s)) = itemToMonitor (item s)
  /\ filter (item (run_ops ops s)) = filter (item s).
Proof.
  assert (identity_view (run_ops ops s) = identity_view s) as E.
  { revert s. induction ops as [|op ops IH]; intros s; [reflexivity|].
    unfold run_ops. cbn [foldl]. fold (run_ops ops (exec op s)).
    rewrite IH. apply run_op_keeps_identity. }
  unfold identity_view, identity_fields in E. now injection E.
Qed.
End Identity.

(** ** The trigger that silences an item *)

Lemma _set_parameters_keeps_silence (options : MonitoringParameters) :
  keeps (fun self => (filter self, queue self, overflow self))
        (_set_parameters options).
Proof. unfold _set_parameters, _validate_parameters. keeps_tac. Qed.

Lemma silent_fields (dt : DeadbandType) (dv : Q) (i i' : MonitoredItem) :
  (filter i', queue i', overflow i') = (filter i, queue i, overflow i) ->
  silent dt dv i -> silent dt dv i'.
Proof. unfold silent. intros [= -> -> ->]. auto. Qed.

Lemma _adjust_queue_silent (dt : DeadbandType) (dv : Q) :
  maintains (silent dt dv) _adjust_queue_to_match_new_queue_size.
Proof.
  intros self. destruct_item self. unfold silent. cbn.
  intros (-> & -> & ->).
  unfold _adjust_queue_to_match_new_queue_size. js_simpl.
  unfold splice_front.
  destruct (qs <? _), dold; cbn; rewrite ?drop_nil; cbn;
    destruct (qs <=? 1); cbn; try destruct (_ <=? qs); cbn; auto.
Qed.

Lemma _empty_queue_silent (dt : DeadbandType) (dv : Q) :
  maintains (silent dt dv) _empty_queue.
Proof. intros self (Hf & _ & _). unfold silent, _empty_queue. js_simpl. auto. Qed.

Lemma modify_silent (dt : DeadbandType) (dv : Q)
    (ts : option TimestampsToReturn) (options : MonitoringParameters) :
  maintains (fun s => silent dt dv (item s)) (modify ts options).
Proof.
  unfold modify. maintains_tac.
  - eapply maintains_keeps;
      [intros i i'; apply silent_fields | apply _set_parameters_keeps_silence].
  - apply _adjust_queue_silent.
  - unfold _adjust_sampling, _change_timer_timeout, clearInterval,
      setInterval, fresh.
    maintains_tac.
Qed.

Section Silence.
Context `{DataModel}.

Lemma recordValue_silent (dt : DeadbandType) (dv : Q) (d : DataValue)
    (r : option NumericRange) :
  maintains (silent dt dv) (recordValue d r).
Proof.
  intros self Hs.
  now rewrite (recordValue_under_StatusValueTimestamp _ _ _ dt dv (proj1 Hs)).
Qed.

Lemma _on_value_changed_silent (dt : DeadbandType) (dv : Q) (d : DataValue)
    (r : option NumericRange) :
  maintains (silent dt dv) (_on_value_changed d r).
Proof. unfold _on_value_changed. maintains_tac. apply recordValue_silent. Qed.

Lemma call_listeners_silent (dt : DeadbandType) (dv : Q)
    (ls : list (EventName * nat)) (d : DataValue) (r : option NumericRange) :
  maintains (fun s => silent dt dv (item s)) (call_listeners ls d r).
Proof.
  induction ls as [|l ls IH]; cbn [call_listeners]; maintains_tac.
  - apply _on_value_changed_silent.
  - exact IH.
Qed.

Lemma _stop_sampling_silent (dt : DeadbandType) (dv : Q) :
  maintains (fun s => silent dt dv (item s)) _stop_sampling.
Proof.
  unfold _stop_sampling, unregister, node_removeListener, clearInterval.
  maintains_tac.
Qed.

Lemma _on_sampling_timer_silent (dt : DeadbandType) (dv : Q) :
  maintains (fun s => silent dt dv (item s)) _on_sampling_timer.
Proof. unfold _on_sampling_timer. maintains_tac. Qed.

Lemma setMonitoringMode_silent (dt : DeadbandType) (dv : Q)
    (m : MonitoringMode) :
  maintains (fun s => silent dt dv (item s)) (setMonitoringMode m).
Proof.
  unfold setMonitoringMode, _start_sampling, register, node_on, setInterval,
    fresh.
  maintains_tac;
    try apply _stop_sampling_silent;
    try apply _on_sampling_timer_silent;
    try apply recordValue_silent;
    destruct Hs as (Hf & Hq & Ho); repeat split; auto.
Qed.

Lemma exec_silent (dt : DeadbandType) (dv : Q) (op : Op) (s : State) :
  silent dt dv (item s) -> silent dt dv (item (exec op s)).
Proof.
  revert s. change (maintains (fun s => silent dt dv (item s)) (run_op op)).
  destruct op; cbn [run_op].
  - apply setMonitoringMode_silent.
  - apply maintains_bind; [apply modify_silent | intros; apply maintains_ret].
  - apply maintains_lift_self, recordValue_silent.
  - unfold extractMonitoredItemNotifications. maintains_tac.
    apply _empty_queue_silent.
  - apply _stop_sampling_silent.
  - unfold emit. apply maintains_bind; [apply maintains_get|].
    intros s0. apply call_listeners_silent.
  - apply maintains_bind; [apply maintains_get|].
    intros s0. apply maintains_when, _on_sampling_timer_silent.
  - unfold sampling_callback. maintains_tac. apply _on_value_changed_silent.
  - unfold readValueAsync_callback. maintains_tac. apply recordValue_silent.
  - maintains_tac.
  - maintains_tac.
Qed.

(** X18.  An item created with the trigger [StatusValueTimestamp] never
    holds a reading: in every state it can reach the queue is empty and the
    overflow flag is unset, so that it never has anything to report. *)
Theorem StatusValueTimestamp_item_stays_empty (s : State)
    (deadbandType : DeadbandType) (deadbandValue : Q) :
  reachable any_op s ->
  filter (item s)
  = Some (DataChangeFilter StatusValueTimestamp deadbandType deadbandValue) ->
  queue (item s) = [] /\ overflow (item s) = false
  /\ fst (extractMonitoredItemNotifications (item s)) = Return [].
Proof.
  intros Hreach Hf.
  assert (silent deadbandType deadbandValue (item s)) as (_ & Hq & Ho).
  { induction Hreach as [options n s (i & Hnew & ->) | s op _ IH _].
    - split; [exact Hf|]. clear Hf. unfold MonitoredItem_new in Hnew.
      destruct (o_monitoringMode options); [discriminate|].
      pose proof (_set_parameters_keeps_silence (o_parameters options)
                    (blank options)) as K.
      destruct (_set_parameters _ _) as [[[]|e] self]; [|discriminate].
      injection Hnew as <-. cbn in K. injection K as _ Hq Ho. now split.
    - apply exec_silent, IH.
      rewrite <- Hf. symmetry.
      pose proof (run_op_keeps_identity op s) as K.
      unfold identity_view, identity_fields in K. now injection K. }
  repeat split; auto.
  unfold extractMonitoredItemNotifications, _empty_queue. js_simpl.
  rewrite Hq. now destruct (negb _).
Qed.
End Silence.

(** Readings offered to an item with the trigger [StatusValueTimestamp]. *)
Lemma StatusValueTimestamp_item_stays_empty_witness :
  let f := DataChangeFilter StatusValueTimestamp DeadbandNone 0 in
  let s := scenario_run [OpSetMonitoringMode Reporting;
                         OpRecordValue (reading 1 Good) None;
                         OpRecordValue (reading 2 BadOutOfRange) None]
                        (scenario_state 0 3 true (Some f)) in
  queue (item s) = [] /\ overflow (item s) = false
  /\ fst (@extractMonitoredItemNotifications scalar_DataModel (item s))
     = Return [].
Proof.
  apply (@StatusValueTimestamp_item_stays_empty scalar_DataModel _
           DeadbandNone 0).
  - apply scenario_state_reachable; lia.
  - reflexivity.
Defined.

(** ** The guard of the sampling function *)

Lemma guarded_lift (s : State) (i : MonitoredItem) :
  _is_sampling i = _is_sampling (item s) ->
  guarded s -> guarded {| item := i; world := world s |}.
Proof. unfold guarded. cbn. now intros ->. Qed.

Lemma _on_sampling_timer_guarded : maintains guarded _on_sampling_timer.
Proof.
  intros [i w]. destruct_item i. destruct w as [tm ls rg nh pr ps].
  unfold guarded, _on_sampling_timer. js_simpl.
  intros (Hle & Hbusy).
  destruct (_ || _); cbn; [|auto].
  destruct (truthy sid); cbn; [|auto].
  destruct busy; cbn; [auto|].
  destruct sf; cbn; [|auto].
  destruct ps as [|ps]; [split; [lia | reflexivity]|].
  assert (S ps = 1%nat) as E by lia. now specialize (Hbusy E).
Qed.

Lemma _stop_sampling_guarded : maintains guarded _stop_sampling.
Proof.
  unfold _stop_sampling, unregister, node_removeListener, clearInterval.
  maintains_tac.
Qed.

Lemma _adjust_sampling_guarded (old_samplingInterval : Z) :
  maintains guarded (_adjust_sampling old_samplingInterval).
Proof.
  unfold _adjust_sampling, _change_timer_timeout, clearInterval, setInterval,
    fresh.
  maintains_tac.
Qed.

Lemma _set_parameters_keeps_guard (options : MonitoringParameters) :
  keeps _is_sampling (_set_parameters options).
Proof. unfold _set_parameters, _validate_parameters. keeps_tac. Qed.

Lemma _enqueue_value_keeps_guard (d : DataValue) :
  keeps _is_sampling (_enqueue_value d).
Proof. unfold _enqueue_value. keeps_tac. Qed.

Lemma _adjust_queue_keeps_guard :
  keeps _is_sampling _adjust_queue_to_match_new_queue_size.
Proof. unfold _adjust_queue_to_match_new_queue_size. keeps_tac. Qed.

Lemma modify_guarded (ts : option TimestampsToReturn)
    (options : MonitoringParameters) :
  maintains guarded (modify ts options).
Proof.
  unfold modify. maintains_tac.
  - eapply maintains_lift_self_view;
      [apply _set_parameters_keeps_guard | apply guarded_lift].
  - eapply maintains_lift_self_view;
      [apply _adjust_queue_keeps_guard | apply guarded_lift].
  - apply _adjust_sampling_guarded.
Qed.

Section Guard.
Context `{DataModel}.

Lemma recordValue_keeps_guard (d : DataValue) (r : option NumericRange) :
  keeps _is_sampling (recordValue d r).
Proof. unfold recordValue. keeps_tac; apply _enqueue_value_keeps_guard. Qed.

Lemma _on_value_changed_keeps_guard (d : DataValue) (r : option NumericRange) :
  keeps _is_sampling (_on_value_changed d r).
Proof. unfold _on_value_changed. keeps_tac. apply recordValue_keeps_guard. Qed.

Lemma extract_keeps_guard :
  keeps _is_sampling extractMonitoredItemNotifications.
Proof. unfold extractMonitoredItemNotifications, _empty_queue. keeps_tac. Qed.

Lemma recordValue_guarded (d : DataValue) (r : option NumericRange) :
  maintains guarded (lift_self (recordValue d r)).
Proof.
  eapply maintains_lift_self_view;
    [apply recordValue_keeps_guard | apply guarded_lift].
Qed.

Lemma _on_value_changed_guarded (d : DataValue) (r : option NumericRange) :
  maintains guarded (lift_self (_on_value_changed d r)).
Proof.
  eapply maintains_lift_self_view;
    [apply _on_value_changed_keeps_guard | apply guarded_lift].
Qed.

Lemma call_listeners_guarded (ls : list (EventName * nat)) (d : DataValue)
    (r : option NumericRange) :
  maintains guarded (call_listeners ls d r).
Proof.
  induction ls as [|l ls IH]; cbn [call_listeners]; maintains_tac.
  - apply _on_value_changed_guarded.
  - exact IH.
Qed.

Lemma setMonitoringMode_guarded (m : MonitoringMode) :
  maintains guarded (setMonitoringMode m).
Proof.
  unfold setMonitoringMode, _start_sampling, register, node_on, setInterval,
    fresh.
  maintains_tac;
    try apply _stop_sampling_guarded;
    try apply _on_sampling_timer_guarded;
    apply recordValue_guarded.
Qed.

Lemma exec_guarded (op : Op) (s : State) : guarded s -> guarded (exec op s).
Proof.
  revert s. change (maintains guarded (run_op op)).
  destruct op; cbn [run_op].
  - apply setMonitoringMode_guarded.
  - apply maintains_bind; [apply modify_guarded | intros; apply maintains_ret].
  - apply recordValue_guarded.
  - maintains_tac.
    eapply maintains_lift_self_view;
      [apply extract_keeps_guard | apply guarded_lift].
  - apply _stop_sampling_guarded.
  - unfold emit. apply maintains_bind; [apply maintains_get|].
    intros s0. apply call_listeners_guarded.
  - apply maintains_bind; [apply maintains_get|].
    intros s0. apply maintains_when, _on_sampling_timer_guarded.
  - intros s Hs. rewrite bind_get.
    destruct (pending_samplings (world s)) as [|n] eqn:En; [exact Hs|].
    rewrite bind_modify_state. unfold sampling_callback.
    assert (n = 0%nat) as -> by (destruct Hs as [Hle _]; lia).
    set (s1 := on_world (set_pending_samplings 0) s).
    assert (guarded s1) as Hs1 by (split; cbn; [lia | discriminate]).
    assert (pending_samplings (world s1) = 0%nat) as E1 by reflexivity.
    clearbody s1.
    assert (forall m : Js State unit,
               keeps (fun s => pending_samplings (world s)) m ->
               guarded (snd ((m ;; modify_state (on_self (set__is_sampling false))) s1)))
      as Hm.
    { intros m Km. pose proof (Km s1) as K.
      unfold bind. destruct (m s1) as [[[]|e] s2]; cbn in *;
        split; cbn; rewrite ?K, ?E1; try lia; discriminate. }
    destruct d as [d|]; apply Hm.
    + intros s2. reflexivity.
    + apply keeps_ret.
  - unfold readValueAsync_callback. maintains_tac. apply recordValue_guarded.
  - maintains_tac.
  - maintains_tac.
Qed.

(** X19.  At most one call of the sampling function is outstanding at any
    time, and [_is_sampling] is set while one is; a tick of the timer that
    arrives in the meantime fails its assertion and starts nothing. *)
Theorem one_sampling_at_a_time (s : State) :
  reachable any_op s ->
  (pending_samplings (world s) <= 1)%nat
  /\ (pending_samplings (world s) = 1%nat ->
      _is_sampling (item s) = true
      /\ (truthy (_samplingId (item s)) = true ->
          _on_sampling_timer s = (Throw AssertionError, s))).
Proof.
  intros Hreach.
  assert (guarded s) as (Hle & Hbusy).
  { induction Hreach as [options n s (i & Hnew & ->) | s op _ IH _].
    - split; cbn; [lia | discriminate].
    - now apply exec_guarded. }
  split; [exact Hle|]. intros Hone. specialize (Hbusy Hone).
  split; [exact Hbusy|]. intros Hid.
  unfold _on_sampling_timer. rewrite bind_get.
  destruct (_ || _); [|reflexivity].
  rewrite bind_assert_true, Hid, Hbusy. reflexivity.
Qed.
End Guard.

(** A sampled item whose first tick is still being served. *)
Lemma one_sampling_at_a_time_witness :
  let s := scenario_run [OpInstallSamplingFunc; OpSetMonitoringMode Reporting]
                        (scenario_state 1000 3 true None) in
  pending_samplings (world s) = 1%nat
  /\ _is_sampling (item s) = true
  /\ _on_sampling_timer s = (Throw AssertionError, s).
Proof.
  cbv zeta.
  destruct (@one_sampling_at_a_time scalar_DataModel
              (scenario_run [OpInstallSamplingFunc; OpSetMonitoringMode Reporting]
                            (scenario_state 1000 3 true None)))
    as [_ Hone].
  - apply scenario_state_reachable; lia.
  - destruct (Hone eq_refl) as [Hbusy Htick].
    split; [reflexivity|]. split; [exact Hbusy | exact (Htick eq_refl)].
Defined.

(** ** Readings within the capacity of the queue *)

Lemma _enqueue_value_fits (self : MonitoredItem) (d : DataValue) :
  Z.of_nat (length (queue self)) < queueSize self ->
  _enqueue_value d self
  = (Return d,
     set_queue (queue self ++ [d])
               (set_old_is_back true (set_oldDataValue d self))).
Proof.
  destruct_item self. unfold _enqueue_value. js_simpl. intros Hlen.
  destruct (qs =? 1) eqn:E1; cbn.
  { apply Z.eqb_eq in E1. destruct q; cbn in *; [reflexivity | lia]. }
  destruct dold; cbn.
  - rewrite length_app. cbn [length].
    replace (qs <? _) with false by (symmetry; apply Z.ltb_ge; lia).
    reflexivity.
  - replace (_ <? qs) with true by (symmetry; apply Z.ltb_lt; lia).
    reflexivity.
Qed.

Lemma enqueue_all_fits (ds : list DataValue) (self : MonitoredItem) :
  Z.of_nat (length (queue self) + length ds) <= queueSize self ->
  queue (enqueue_all ds self) = queue self ++ ds
  /\ (overflow (enqueue_all ds self), clientHandle (enqueue_all ds self),
      timestampsToReturn (enqueue_all ds self),
      itemToMonitor (enqueue_all ds self), monitoringMode (enqueue_all ds self),
      queueSize (enqueue_all ds self))
     = (overflow self, clientHandle self, timestampsToReturn self,
        itemToMonitor self, monitoringMode self, queueSize self).
Proof.
  revert self. induction ds as [|d ds IH]; intros self Hlen; cbn [enqueue_all].
  - now rewrite app_nil_r.
  - cbn [length] in Hlen.
    rewrite _enqueue_value_fits by lia. cbn [snd].
    destruct (IH (set_queue (queue self ++ [d])
                    (set_old_is_back true (set_oldDataValue d self)))) as [Hq Hv].
    { cbn. rewrite length_app. cbn [length]. lia. }
    rewrite Hq, Hv. cbn. now rewrite <- app_assoc.
Qed.

Section Order.
Context `{DataModel}.

(** X20.  Readings enqueued into an empty queue, no more of them than the
    queue size, are all accepted, none is marked and the overflow flag is
    not touched; extracted in [Reporting] mode they come out in the order
    they went in, each with the client handle of the item and the
    timestamps asked for, and the queue is empty again. *)
Theorem readings_within_capacity_come_out_in_order (self : MonitoredItem)
    (ds : list DataValue) :
  queue self = [] ->
  Z.of_nat (length ds) <= queueSize self ->
  monitoringMode self = Reporting ->
  let self' := enqueue_all ds self in
  (forall ds1 d ds2, ds = ds1 ++ d :: ds2 ->
                     fst (_enqueue_value d (enqueue_all ds1 self)) = Return d)
  /\ queue self' = ds
  /\ overflow self' = overflow self
  /\ extractMonitoredItemNotifications self'
     = (Return (map (fun d =>
                       {| n_clientHandle := clientHandle self;
                          n_value := apply_timestamps d (timestampsToReturn self)
                                       (attributeId (itemToMonitor self)) |})
                    ds),
        set_overflow false (set_queue [] self')).
Proof.
  intros Hq Hlen Hmode self'.
  split.
  { intros ds1 d ds2 ->. rewrite length_app in Hlen. cbn [length] in Hlen.
    destruct (enqueue_all_fits ds1 self) as [Hq1 Hv1].
    { rewrite Hq. cbn. lia. }
    injection Hv1 as _ _ _ _ _ Hqs1.
    rewrite _enqueue_value_fits; [reflexivity|].
    rewrite Hq1, Hqs1, Hq. cbn. lia. }
  destruct (enqueue_all_fits ds self) as [Hq' Hv'].
  { rewrite Hq. cbn. lia. }
  fold self' in Hq', Hv'. rewrite Hq in Hq'. cbn in Hq'.
  injection Hv' as Ho Hch Httr Hitm Hmd _.
  repeat split; [exact Hq' | exact Ho |].
  unfold extractMonitoredItemNotifications, _empty_queue.
  autorewrite with js. rewrite Hmd, Hmode. cbn [MonitoringMode_eqb negb].
  autorewrite with js. rewrite Hq', Hch, Httr, Hitm. reflexivity.
Qed.
End Order.

(** Three readings through a queue of three. *)
Lemma readings_within_capacity_come_out_in_order_witness :
  let self := set_monitoringMode Reporting (scenario_item 0 3 true None) in
  let ds := [reading 1 Good; reading 2 Good; reading 3 Good] in
  let self' := enqueue_all ds self in
  (forall ds1 d ds2, ds = ds1 ++ d :: ds2 ->
                     fst (_enqueue_value d (enqueue_all ds1 self)) = Return d)
  /\ queue self' = ds
  /\ overflow self' = overflow self
  /\ @extractMonitoredItemNotifications scalar_DataModel self'
     = (Return (map (fun d =>
                       {| n_clientHandle := clientHandle self;
                          n_value := keep_timestamps d (timestampsToReturn self)
                                       (attributeId (itemToMonitor self)) |})
                    ds),
        set_overflow false (set_queue [] self')).
Proof.
  apply (@readings_within_capacity_come_out_in_order scalar_DataModel
           (set_monitoringMode Reporting (scenario_item 0 3 true None))
           [reading 1 Good; reading 2 Good; reading 3 Good]).
  - reflexivity.
  - vm_compute. discriminate.
  - reflexivity.
Defined.

(** ** Resizing the queue *)

Lemma _adjust_queue_returns (self : MonitoredItem) :
  0 <= queueSize self ->
  fst (_adjust_queue_to_match_new_queue_size self) = Return tt.
Proof.
  intros Hqs.
  pose proof (_adjust_queue_buffer self) as [Hq _].
  pose proof (resized_length (discardOldest self) (queueSize self) (queue self)
                Hqs) as Hlen.
  assert (Z.of_nat (length (queue (snd (_adjust_queue_to_match_new_queue_size self))))
          <= queueSize self) as Hfit.
  { rewrite Hq. destruct (queueSize self <=? 1); [|lia].
    destruct (resized _ _ _) as [|d [|d' l]]; cbn in *; try lia.
    destruct (marked d); cbn; lia. }
  clear Hq Hlen. revert Hfit. destruct_item self.
  unfold _adjust_queue_to_match_new_queue_size. js_simpl.
  destruct (qs <? _); cbn;
    [destruct dold; cbn; [|destruct (last q); cbn]|];
    (destruct (qs <=? 1); cbn;
     [ match goal with
       | |- context [match ?l with _ => _ end] =>
           destruct l as [|d0 [|d1 l0]]; cbn;
           try destruct (StatusCode_eqb (statusCode d0) GoodWithOverflowBit); cbn;
           try destruct oib; cbn
       end
     | ]);
    intros Hfit;
    (match goal with
     | |- context [?a <=? ?b] => destruct (a <=? b) eqn:E
     end;
     [reflexivity | cbn in Hfit; apply Z.leb_gt in E; cbn in E; lia]).
Qed.

Lemma drop_to_last (q : list DataValue) (l : DataValue) :
  last q = Some l -> drop (length q - 1) q = [l].
Proof.
  intros Hl. apply last_Some in Hl as [q' ->].
  rewrite length_app. cbn [length].
  replace (length q' + 1 - 1)%nat with (length q' + 0)%nat by lia.
  now rewrite drop_app_add.
Qed.

Lemma insert_last_take (q : list DataValue) (n : nat) (l : DataValue) :
  (0 < n <= length q)%nat ->
  <[(length (take n q) - 1)%nat := l]> (take n q) = take (n - 1) q ++ [l].
Proof.
  intros Hn. rewrite length_take, Nat.min_l by lia.
  destruct (lookup_lt_is_Some_2 q (n - 1)) as [x Hx]; [lia|].
  replace n with (S (n - 1)) at 2 by lia.
  rewrite (take_S_r q (n - 1) x Hx).
  rewrite insert_app_r_alt by (rewrite length_take; lia).
  rewrite length_take, Nat.min_l by lia.
  now rewrite Nat.sub_diag.
Qed.

(** X21.  Fitting the queue to a new size never throws and keeps the newest
    reading at the back.  With [discardOldest] the newest [queueSize]
    readings stay, in order; without it the oldest [queueSize - 1] readings
    stay, followed by the newest one.  With queue size 1 both policies leave
    the newest reading alone, and its overflow bit and the overflow flag are
    cleared. *)
Theorem resizing_keeps_the_newest_reading (self : MonitoredItem)
    (l : DataValue) :
  1 <= queueSize self ->
  last (queue self) = Some l ->
  let self' := snd (_adjust_queue_to_match_new_queue_size self) in
  let n := Z.to_nat (queueSize self) in
  fst (_adjust_queue_to_match_new_queue_size self) = Return tt
  /\ queue self'
     = (if queueSize self =? 1
        then [if marked l then set_statusCode Good l else l]
        else if queueSize self <? Z.of_nat (length (queue self)) then
          if discardOldest self
          then drop (length (queue self) - n) (queue self)
          else take (n - 1) (queue self) ++ [l]
        else queue self)
  /\ overflow self' = (if queueSize self =? 1 then false else overflow self)
  /\ last (queue self')
     = Some (if (queueSize self =? 1) && marked l
             then set_statusCode Good l else l).
Proof.
  intros Hqs Hl self' n.
  split; [apply _adjust_queue_returns; lia|].
  destruct (_adjust_queue_buffer self) as [Hq Ho]. fold self' in Hq, Ho.
  assert (queue self'
          = (if queueSize self =? 1
             then [if marked l then set_statusCode Good l else l]
             else if queueSize self <? Z.of_nat (length (queue self)) then
               if discardOldest self
               then drop (length (queue self) - n) (queue self)
               else take (n - 1) (queue self) ++ [l]
             else queue self)) as Hqueue.
  { rewrite Hq. unfold resized, splice_front, splice_from. rewrite Hl.
    cbv zeta.
    replace (queueSize self <? 0) with false by (symmetry; apply Z.ltb_ge; lia).
    destruct (queueSize self =? 1) eqn:E1.
    - apply Z.eqb_eq in E1. rewrite E1. cbn [Z.leb Z.compare Pos.compare].
      change (1 <=? 1) with true. cbv iota.
      destruct (1 <? Z.of_nat (length (queue self))) eqn:Elt.
      + apply Z.ltb_lt in Elt. destruct (discardOldest self).
        * replace (Z.to_nat (Z.of_nat (length (queue self)) - 1))
            with (length (queue self) - 1)%nat by lia.
          rewrite (drop_to_last _ _ Hl). now destruct (marked l).
        * rewrite insert_last_take by (change (Z.to_nat 1) with 1%nat; lia).
          change (Z.to_nat 1 - 1)%nat with 0%nat. rewrite take_0.
          cbn [app]. now destruct (marked l).
      + apply Z.ltb_ge in Elt.
        destruct (queue self) as [|d [|d' q]]; cbn in *; try discriminate;
          [|lia].
        injection Hl as ->. now destruct (marked l).
    - apply Z.eqb_neq in E1.
      replace (queueSize self <=? 1) with false
        by (symmetry; apply Z.leb_gt; lia).
      destruct (queueSize self <? Z.of_nat (length (queue self))) eqn:Elt;
        [|reflexivity].
      apply Z.ltb_lt in Elt. destruct (discardOldest self).
      + f_equal. subst n. lia.
      + apply insert_last_take. subst n. lia. }
  split; [exact Hqueue|].
  split.
  { rewrite Ho. destruct (queueSize self =? 1) eqn:E1.
    - apply Z.eqb_eq in E1. now rewrite E1.
    - apply Z.eqb_neq in E1.
      now replace (queueSize self <=? 1) with false
        by (symmetry; apply Z.leb_gt; lia). }
  rewrite Hqueue. destruct (queueSize self =? 1) eqn:E1; cbn [andb].
  { reflexivity. }
  apply Z.eqb_neq in E1.
  destruct (queueSize self <? Z.of_nat (length (queue self))) eqn:Elt;
    [|exact Hl].
  apply Z.ltb_lt in Elt. destruct (discardOldest self).
  - apply last_Some in Hl as [q' Hq']. rewrite Hq' in *.
    rewrite length_app in *. cbn [length] in *.
    rewrite drop_app_le by (subst n; lia). apply last_snoc.
  - apply last_snoc.
Qed.

(** Five readings in a queue that is resized to two, under either policy. *)
Lemma resizing_keeps_the_newest_reading_witness :
  let ds := [reading 1 Good; reading 2 Good; reading 3 Good; reading 4 Good;
             reading 5 Good] in
  let resize := fun discardOldest' =>
    snd (_adjust_queue_to_match_new_queue_size
           (set_queueSize 2
              (enqueue_all ds (scenario_item 0 5 discardOldest' None)))) in
  queue (resize true) = [reading 4 Good; reading 5 Good]
  /\ queue (resize false) = [reading 1 Good; reading 5 Good].
Proof.
  cbv zeta. split.
  - apply (resizing_keeps_the_newest_reading
             (set_queueSize 2
                (enqueue_all [reading 1 Good; reading 2 Good; reading 3 Good;
                              reading 4 Good; reading 5 Good]
                             (scenario_item 0 5 true None)))
             (reading 5 Good)).
    + vm_compute. discriminate.
    + reflexivity.
  - apply (resizing_keeps_the_newest_reading
             (set_queueSize 2
                (enqueue_all [reading 1 Good; reading 2 Good; reading 3 Good;
                              reading 4 Good; reading 5 Good]
                             (scenario_item 0 5 false None)))
             (reading 5 Good)).
    + vm_compute. discriminate.
    + reflexivity.
Defined.

(** ** The sampler under [modify] *)

(** From a state whose binding is the one the world holds,
    [_adjust_sampling] re-arms a timer whose period is out of date and does
    nothing else. *)
Lemma _adjust_sampling_rearms (old_samplingInterval : Z) (s : State) :
  bound_as (item s) (world s) ->
  _adjust_sampling old_samplingInterval s
  = (Return tt,
     match _samplingId (item s) with
     | IdTimer _ =>
         if old_samplingInterval =? samplingInterval (item s) then s
         else {| item := set__samplingId (IdTimer (next_handle (world s))) (item s);
                 world := set_timers [(next_handle (world s),
                                       timer_period (samplingInterval (item s)))]
                            (set_next_handle (S (next_handle (world s)))
                                             (world s)) |}
     | _ => s
     end).
Proof.
  destruct s as [i w]. destruct_item i. destruct w as [tm ls rg nh pr ps].
  unfold bound_as, _adjust_sampling, _change_timer_timeout, clearInterval,
    setInterval, fresh.
  cbn. intros Hb. autorewrite with js. cbn.
  destruct (old_samplingInterval =? si); cbn; [now destruct sid|].
  destruct sid as [| |h]; autorewrite with js; cbn; try reflexivity.
  destruct acb, vcb; try contradiction.
  destruct Hb as [[period ->] ->]. unfold on_self, on_world. cbn.
  now rewrite Nat.eqb_refl.
Qed.

(** The state [modify] leaves when it returns. *)
Lemma modify_run (ts : option TimestampsToReturn)
    (options : MonitoringParameters) (s : State) (revised : Z) :
  0 <= o_queueSize options ->
  _adjust_sampling_interval (o_samplingInterval options) = Return revised ->
  let i2 := set_queueSize (_adjust_queue_size (o_queueSize options))
              (set_discardOldest (o_discardOldest options)
                 (set_samplingInterval revised
                    (set_clientHandle (o_clientHandle options)
                       (set_timestampsToReturn
                          (default (timestampsToReturn (item s)) ts) (item s))))) in
  snd (modify ts options s)
  = snd (_adjust_sampling (samplingInterval (item s))
           {| item := snd (_adjust_queue_to_match_new_queue_size i2);
              world := world s |}).
Proof.
  intros Hqs Hrev i2.
  destruct (modify ts options s) as [res s'] eqn:E. cbn [snd].
  unfold modify in E. autorewrite with js in E.
  rewrite bind_run in E. unfold lift_self at 1 in E.
  rewrite _set_parameters_run, Hrev in E.
  replace (0 <=? o_queueSize options) with true in E
    by (symmetry; apply Z.leb_le; lia).
  cbn [negb fst snd item world on_self] in E. fold i2 in E.
  rewrite bind_run in E. unfold lift_self at 1 in E. cbn [item world] in E.
  pose proof (_adjust_queue_returns i2) as Hret.
  destruct (_adjust_queue_to_match_new_queue_size i2) as [o i3].
  cbn [fst snd] in *. rewrite Hret in E
    by (cbn; unfold _adjust_queue_size, maxQueueSize; lia).
  rewrite bind_run in E.
  match type of E with context [_adjust_sampling ?x ?s3] =>
    destruct (_adjust_sampling_run x s3) as (sid & w & Hrun)
  end.
  rewrite Hrun in *. autorewrite with js in E. now injection E as _ <-.
Qed.

(** The period of a timer set with a revised sampling interval: the
    interval itself, and Node's minimum of 1 for an interval of zero. *)
Lemma timer_period_of_revised (samplingInterval' revised : Z) :
  _adjust_sampling_interval samplingInterval' = Return revised ->
  timer_period revised = if revised =? 0 then 1 else revised.
Proof.
  unfold _adjust_sampling_interval. intros Hrev.
  destruct (samplingInterval' =? 0) eqn:E0.
  - apply Z.eqb_eq in E0. injection Hrev as <-. now rewrite E0.
  - destruct (0 <=? samplingInterval'); [|discriminate].
    injection Hrev as <-.
    rewrite timer_period_revised
      by (unfold minimumSamplingInterval, maximumSamplingInterval; lia).
    replace (_ =? 0) with false; [reflexivity|].
    symmetry. apply Z.eqb_neq.
    unfold minimumSamplingInterval, maximumSamplingInterval. lia.
Qed.

(** X22.  [modify] does not choose the sampler anew.  An item on a timer
    stays on a timer: the timer is left alone when the revised sampling
    interval is the old one, and is replaced otherwise by a timer set with
    the revised interval, which runs with that interval as its period, or
    with Node's minimum period of 1 when the revised interval is zero.  An
    item on a listener stays on its listener and gets no timer, whatever the
    revised sampling interval is. *)
Theorem modify_keeps_the_kind_of_sampler (ts : option TimestampsToReturn)
    (options : MonitoringParameters) (s : State) (revised : Z) :
  bound_as (item s) (world s) ->
  0 <= o_queueSize options ->
  _adjust_sampling_interval (o_samplingInterval options) = Return revised ->
  let s' := snd (modify ts options s) in
  _attribute_changed_callback (item s') = _attribute_changed_callback (item s)
  /\ _value_changed_callback (item s') = _value_changed_callback (item s)
  /\ listeners (world s') = listeners (world s)
  /\ samplingInterval (item s') = revised
  /\ match _samplingId (item s) with
     | IdTimer h =>
         if samplingInterval (item s) =? revised
         then _samplingId (item s') = IdTimer h
              /\ timers (world s') = timers (world s)
         else _samplingId (item s') = IdTimer (next_handle (world s))
              /\ timers (world s')
                 = [(next_handle (world s), if revised =? 0 then 1 else revised)]
     | sid => _samplingId (item s') = sid
              /\ timers (world s') = timers (world s)
     end.
Proof.
  intros Hb Hqs Hrev s'. subst s'.
  rewrite <- (timer_period_of_revised _ _ Hrev).
  rewrite (modify_run ts options s revised Hqs Hrev).
  set (i2 := set_queueSize _ _).
  pose proof (_adjust_queue_keeps_binding i2) as Kb. cbn beta in Kb.
  pose proof (_adjust_queue_keeps_parameters i2) as Kp. cbn beta in Kp.
  set (i3 := snd (_adjust_queue_to_match_new_queue_size i2)) in *.
  unfold binding_fields in Kb.
  injection Kb as Hacb Hvcb Hsid _ _ Hitm. injection Kp as _ _ _ _ Hsi.
  subst i2. cbn in Hacb, Hvcb, Hsid, Hitm, Hsi.
  rewrite _adjust_sampling_rearms.
  2:{ unfold bound_as in *. cbn [item world].
      now rewrite Hacb, Hvcb, Hsid, Hitm. }
  cbn [snd item world]. rewrite Hsid, Hsi.
  destruct (_samplingId (item s)) as [| |h]; cbn;
    try destruct (samplingInterval (item s) =? revised); cbn;
    rewrite ?Hacb, ?Hvcb, ?Hsid, ?Hsi; auto 10.
Qed.

(** A sampled item whose sampling interval is modified to zero, which
    leaves it on a timer of period 1, and an exception-based one whose
    sampling interval is modified to a second, which leaves it without a
    timer. *)
Lemma modify_keeps_the_kind_of_sampler_witness :
  let to := fun samplingInterval' =>
    {| o_clientHandle := 7; o_samplingInterval := samplingInterval';
       o_discardOldest := true; o_queueSize := 3 |} in
  let sampled := scenario_run [OpInstallSamplingFunc;
                               OpSetMonitoringMode Reporting]
                              (scenario_state 1000 3 true None) in
  let driven := scenario_run [OpSetMonitoringMode Reporting]
                             (scenario_state 0 3 true None) in
  (_samplingId (item (snd (modify None (to 0) sampled))) = IdTimer 2%nat
   /\ timers (world (snd (modify None (to 0) sampled))) = [(2%nat, 1)])
  /\ (_value_changed_callback (item (snd (modify None (to 1000) driven)))
      = Some 1%nat
      /\ timers (world (snd (modify None (to 1000) driven))) = []
      /\ samplingInterval (item (snd (modify None (to 1000) driven))) = 1000).
Proof.
  cbv zeta. split.
  - apply (modify_keeps_the_kind_of_sampler None
             {| o_clientHandle := 7; o_samplingInterval := 0;
                o_discardOldest := true; o_queueSize := 3 |}
             (scenario_run [OpInstallSamplingFunc; OpSetMonitoringMode Reporting]
                           (scenario_state 1000 3 true None))
             0).
    + vm_compute. split; [eexists|]; reflexivity.
    + vm_compute. discriminate.
    + reflexivity.
  - pose proof (modify_keeps_the_kind_of_sampler None
             {| o_clientHandle := 7; o_samplingInterval := 1000;
                o_discardOldest := true; o_queueSize := 3 |}
             (scenario_run [OpSetMonitoringMode Reporting]
                           (scenario_state 0 3 true None))
             1000) as W.
    cbv zeta in W.
    destruct W as (_ & Hvcb & _ & Hsi & _ & Htm).
    + vm_compute. split; reflexivity.
    + vm_compute. discriminate.
    + reflexivity.
    + split; [exact Hvcb|]. split; [exact Htm | exact Hsi].
Defined.

(** ** The period of the timer *)

Lemma timed_view (s s' : State) :
  timer_view s' = timer_view s -> timed s -> timed s'.
Proof.
  unfold timer_view, timer_fields, timed. intros [= Hid Hsi Ht] Hs h.
  rewrite Hid, Hsi, Ht. apply Hs.
Qed.

Lemma timer_view_lift (s : State) (i : MonitoredItem) :
  timer_fields i = timer_fields (item s) ->
  timer_view {| item := i; world := world s |} = timer_view s.
Proof. unfold timer_view. cbn. now intros ->. Qed.

Lemma unbound_timed (s : State) : unbound s -> timed s.
Proof.
  destruct s as [i w]. destruct_item i. unfold unbound, binding_handle, timed.
  cbn. intros (Hh & _ & _) h ->. destruct acb, vcb; discriminate.
Qed.

Lemma _enqueue_value_keeps_timer (d : DataValue) :
  keeps timer_fields (_enqueue_value d).
Proof. unfold _enqueue_value. keeps_tac. Qed.

Lemma _on_sampling_timer_keeps_timer : keeps timer_view _on_sampling_timer.
Proof. unfold _on_sampling_timer. keeps_tac. Qed.

Lemma modify_timed (ts : option TimestampsToReturn)
    (options : MonitoringParameters) (s : State) :
  bound_as (item s) (world s) -> timed s -> timed (snd (modify ts options s)).
Proof.
  intros Hb Hs.
  destruct (modify_outcome ts options s)
    as [(_ & _ & Hsize & _ & Hbind)|(Hqs & _ & revised & Hrev & _)].
  - eapply timed_view; [|exact Hs].
    unfold size_view, size_fields in Hsize.
    unfold binding_view, binding_fields in Hbind.
    injection Hsize as _ _ _ Hsi. injection Hbind as _ _ Hid _ _ _ Ht _.
    unfold timer_view, timer_fields. now rewrite Hid, Hsi, Ht.
  - rewrite (modify_run ts options s revised Hqs Hrev).
    set (i2 := set_queueSize _ _).
    pose proof (_adjust_queue_keeps_binding i2) as Kb. cbn beta in Kb.
    pose proof (_adjust_queue_keeps_parameters i2) as Kp. cbn beta in Kp.
    set (i3 := snd (_adjust_queue_to_match_new_queue_size i2)) in *.
    unfold binding_fields in Kb.
    injection Kb as Hacb Hvcb Hsid _ _ Hitm. injection Kp as _ _ _ _ Hsi.
    subst i2. cbn in Hacb, Hvcb, Hsid, Hitm, Hsi.
    rewrite _adjust_sampling_rearms.
    2:{ unfold bound_as in *. cbn [item world].
        now rewrite Hacb, Hvcb, Hsid, Hitm. }
    cbn [snd item world]. rewrite Hsid, Hsi.
    unfold timed in *.
    destruct (_samplingId (item s)) as [| |h0] eqn:Eid; cbn;
      try (intros h Hh; rewrite Hsid in Hh; discriminate).
    destruct (samplingInterval (item s) =? revised) eqn:Esi; cbn.
    + apply Z.eqb_eq in Esi. intros h Hh. rewrite Hsid in Hh.
      rewrite Hsi, <- Esi. now apply Hs.
    + intros h [= <-]. now rewrite Hsi.
Qed.

Section Period.
Context `{DataModel}.

Lemma recordValue_keeps_timer (d : DataValue) (r : option NumericRange) :
  keeps timer_view (lift_self (recordValue d r)).
Proof.
  eapply keeps_lift_self; [|apply timer_view_lift].
  unfold recordValue. keeps_tac; apply _enqueue_value_keeps_timer.
Qed.

Lemma _on_value_changed_keeps_timer (d : DataValue) (r : option NumericRange) :
  keeps timer_view (lift_self (_on_value_changed d r)).
Proof.
  eapply keeps_lift_self; [|apply timer_view_lift].
  unfold _on_value_changed, recordValue.
  keeps_tac; apply _enqueue_value_keeps_timer.
Qed.

Lemma extract_keeps_timer :
  keeps timer_view (lift_self extractMonitoredItemNotifications).
Proof.
  eapply keeps_lift_self; [|apply timer_view_lift].
  unfold extractMonitoredItemNotifications, _empty_queue. keeps_tac.
Qed.

Lemma call_listeners_keeps_timer (ls : list (EventName * nat))
    (d : DataValue) (r : option NumericRange) :
  keeps timer_view (call_listeners ls d r).
Proof.
  induction ls as [|l ls IH]; cbn [call_listeners]; keeps_tac.
  - apply _on_value_changed_keeps_timer.
  - exact IH.
Qed.

Lemma _start_sampling_timed (rec : bool) (s : State) :
  is_Some (node (item s)) ->
  bound_as (item s) (world s) ->
  samplingInterval (item s) = 0
  \/ minimumSamplingInterval <= samplingInterval (item s)
     <= maximumSamplingInterval ->
  timed (snd (_start_sampling rec s)).
Proof.
  intros Hnode Hbound Hsi.
  pose proof (_start_sampling_binding rec s Hnode Hbound Hsi) as Hb.
  cbv zeta in Hb. unfold timed.
  destruct (sampler_kind (item s)) eqn:Ekind.
  - destruct Hb as (_ & _ & Hid & _). intros h Hh. now rewrite Hh in Hid.
  - destruct Hb as (_ & _ & Hid & _). intros h Hh. now rewrite Hh in Hid.
  - destruct Hb as (Hid & _ & _ & Ht & _ & Hs). intros h Hh.
    rewrite Hid in Hh. injection Hh as <-. rewrite Ht, Hs.
    unfold sampler_kind in Ekind.
    destruct (negb _); [discriminate|].
    destruct (samplingInterval (item s) =? 0) eqn:E0; [discriminate|].
    apply Z.eqb_neq in E0. rewrite timer_period_revised by lia. reflexivity.
Qed.

Lemma exec_timed (op : Op) (s : State) :
  well_bound s -> sized (item s) -> timed s -> timed (exec op s).
Proof.
  intros Hwb (_ & _ & Hsi & _) Hs. unfold exec.
  assert (forall m : Js State unit, keeps timer_view m -> timed (snd (m s)))
    as Hkeep.
  { intros m Km. eapply timed_view; [apply Km | exact Hs]. }
  destruct op; cbn [run_op].
  - destruct (MonitoringMode_eqb m (monitoringMode (item s))) eqn:Esame.
    { unfold setMonitoringMode.
      destruct m, (monitoringMode (item s)) eqn:Em; try discriminate;
        autorewrite with js; cbn; rewrite ?Em; cbn; exact Hs. }
    destruct m.
    + destruct (setMonitoringMode_Disabled s Hwb) as (_ & Hun & _).
      { intros Hd. rewrite Hd in Esame. discriminate. }
      now apply unbound_timed.
    + destruct Hwb as (Hnode & Hbound & _).
      rewrite setMonitoringMode_enables by (auto || discriminate).
      apply _start_sampling_timed; cbn; auto; lia.
    + destruct Hwb as (Hnode & Hbound & _).
      rewrite setMonitoringMode_enables by (auto || discriminate).
      apply _start_sampling_timed; cbn; auto; lia.
    + unfold setMonitoringMode. autorewrite with js. exact Hs.
  - rewrite bind_run.
    pose proof (modify_timed ts p s (proj1 (proj2 Hwb)) Hs) as Hm.
    now destruct (modify ts p s) as [[res|e] s'].
  - apply Hkeep, recordValue_keeps_timer.
  - apply Hkeep. keeps_tac. apply extract_keeps_timer.
  - apply unbound_timed.
    now apply _stop_sampling_unbinds; destruct Hwb as (Hnode & Hbound & _).
  - apply Hkeep. unfold emit. keeps_tac. apply call_listeners_keeps_timer.
  - apply Hkeep. keeps_tac. apply _on_sampling_timer_keeps_timer.
  - apply Hkeep. unfold sampling_callback. keeps_tac.
    apply _on_value_changed_keeps_timer.
  - apply Hkeep. unfold readValueAsync_callback. keeps_tac.
    apply recordValue_keeps_timer.
  - apply Hkeep. keeps_tac.
  - apply Hkeep. keeps_tac.
Qed.

(** X23.  In every reachable state an item that runs on a timer has exactly
    one timer in the event loop, the one it holds the handle of.  That timer
    runs with the sampling interval of the item as its period, except that
    an item whose sampling interval [modify] has set to zero is still on a
    timer, which runs with Node's minimum period of 1. *)
Theorem timer_period_follows_the_sampling_interval (s : State) (h : nat) :
  reachable any_op s ->
  _samplingId (item s) = IdTimer h ->
  timers (world s)
  = [(h, if samplingInterval (item s) =? 0 then 1
         else samplingInterval (item s))].
Proof.
  intros Hreach Hid.
  assert (timed s) as Htimed.
  { clear h Hid.
    induction Hreach as [options n s Hinit | s op Hreach IH _].
    - pose proof (initial_well_bound options n s Hinit) as (_ & _ & Hmode).
      destruct Hinit as (i & Hnew & ->).
      apply unbound_timed. unfold unbound. cbn. split; [|auto].
      apply Hmode. right. unfold MonitoredItem_new in Hnew.
      destruct (o_monitoringMode options); [discriminate|].
      rewrite _set_parameters_run in Hnew.
      destruct (negb _); [discriminate|].
      destruct (_adjust_sampling_interval _); [|discriminate].
      now injection Hnew as <-.
    - apply exec_timed; [| |exact IH].
      + exact (reachable_well_bound _ _ Hreach).
      + exact (reachable_sized _ _ Hreach). }
  rewrite (Htimed h Hid).
  destruct (reachable_sized _ _ Hreach) as (_ & _ & [E0 | Hsi] & _).
  - rewrite E0. reflexivity.
  - rewrite timer_period_revised by exact Hsi.
    replace (_ =? 0) with false; [reflexivity|].
    symmetry. apply Z.eqb_neq. unfold minimumSamplingInterval in Hsi. lia.
Qed.
End Period.

(** A sampled item whose sampling interval was modified to 20 ms, which
    is revised to 50 ms, and then to zero. *)
Lemma timer_period_follows_the_sampling_interval_witness :
  let to := fun samplingInterval' =>
    {| o_clientHandle := 7; o_samplingInterval := samplingInterval';
       o_discardOldest := true; o_queueSize := 3 |} in
  let sampled := scenario_run [OpInstallSamplingFunc;
                               OpSetMonitoringMode Reporting;
                               OpModify None (to 20)]
                              (scenario_state 1000 3 true None) in
  let zeroed := scenario_run [OpModify None (to 0)] sampled in
  timers (world sampled) = [(2%nat, 50)]
  /\ samplingInterval (item zeroed) = 0
  /\ timers (world zeroed) = [(3%nat, 1)].
Proof.
  cbv zeta. split; [|split; [reflexivity|]].
  - apply (@timer_period_follows_the_sampling_interval scalar_DataModel
             (scenario_run [OpInstallSamplingFunc; OpSetMonitoringMode Reporting;
                            OpModify None
                              {| o_clientHandle := 7; o_samplingInterval := 20;
                                 o_discardOldest := true; o_queueSize := 3 |}]
                           (scenario_state 1000 3 true None))
             2%nat).
    + apply scenario_state_reachable; lia.
    + reflexivity.
  - apply (@timer_period_follows_the_sampling_interval scalar_DataModel
             (scenario_run [OpModify None
                              {| o_clientHandle := 7; o_samplingInterval := 0;
                                 o_discardOldest := true; o_queueSize := 3 |}]
                (scenario_run [OpInstallSamplingFunc;
                               OpSetMonitoringMode Reporting;
                               OpModify None
                                 {| o_clientHandle := 7; o_samplingInterval := 20;
                                    o_discardOldest := true; o_queueSize := 3 |}]
                              (scenario_state 1000 3 true None)))
             3%nat).
    + apply reachable_run_ops. apply scenario_state_reachable; lia.
    + reflexivity.
Defined.

(** ** The assertion in the discard-oldest branch *)

(** X24.  With [discardOldest], an enqueue into a full queue of size two or
    more whose second reading is not [Good] fails the assertion on the new
    front: the call throws after the oldest reading was dropped, the new one
    was pushed and the overflow flag was set, and no reading is marked. *)
Theorem discard_oldest_throws_on_a_front_that_is_not_Good
    (self : MonitoredItem) (d front second : DataValue)
    (rest : list DataValue) :
  discardOldest self = true ->
  queue self = front :: second :: rest ->
  queueSize self = Z.of_nat (length (queue self)) ->
  statusCode second <> Good ->
  let self' := snd (_enqueue_value d self) in
  fst (_enqueue_value d self) = Throw AssertionError
  /\ queue self' = second :: rest ++ [d]
  /\ overflow self' = true
  /\ oldDataValue self' = d.
Proof.
  destruct_item self. cbn. intros -> -> -> Hbad.
  unfold _enqueue_value. js_simpl.
  replace (Z.of_nat (S (S (length rest))) =? 1) with false
    by (symmetry; apply Z.eqb_neq; lia).
  cbn. rewrite length_app. cbn [length].
  replace (Z.of_nat (S (S (length rest))) <? _) with true
    by (symmetry; apply Z.ltb_lt; lia).
  cbn.
  destruct (StatusCode_eqb (statusCode second) Good) eqn:E.
  - now apply StatusCode_eqb_eq in E.
  - cbn. auto.
Qed.

(** A [BadOutOfRange] reading between two [Good] ones, in a queue of two. *)
Lemma discard_oldest_throws_on_a_front_that_is_not_Good_witness :
  let self := enqueue_all [reading 1 Good; reading 2 BadOutOfRange]
                          (scenario_item 0 2 true None) in
  let self' := snd (_enqueue_value (reading 3 Good) self) in
  fst (_enqueue_value (reading 3 Good) self) = Throw AssertionError
  /\ queue self' = [reading 2 BadOutOfRange; reading 3 Good]
  /\ overflow self' = true
  /\ oldDataValue self' = reading 3 Good.
Proof.
  apply (discard_oldest_throws_on_a_front_that_is_not_Good
           (enqueue_all [reading 1 Good; reading 2 BadOutOfRange]
                        (scenario_item 0 2 true None))
           (reading 3 Good) (reading 1 Good) (reading 2 BadOutOfRange) []).
  - reflexivity.
  - reflexivity.
  - reflexivity.
  - discriminate.
Defined.

(** ** The first tick of a sampled item *)

Lemma _stop_sampling_keeps_guard :
  keeps (fun s => (_is_sampling (item s), samplingFunc (item s),
                   pending_samplings (world s)))
        _stop_sampling.
Proof.
  unfold _stop_sampling, unregister, node_removeListener, clearInterval.
  keeps_tac.
Qed.

Section FirstTick.
Context `{DataModel}.

(** X25.  Enabling a sampled item on the [Value] attribute goes through
    [_on_sampling_timer] at once.  When the subscription has not installed
    the sampling function, or a sampling of before is still outstanding,
    that first tick fails its assertion: [setMonitoringMode] throws an
    assertion error after the mode was set, and the sampling function is
    not called. *)
Theorem enabling_a_sampled_item_asserts_on_the_first_tick (s : State)
    (m : MonitoringMode) :
  reachable any_op s ->
  m = Sampling \/ m = Reporting ->
  monitoringMode (item s) = Invalid \/ monitoringMode (item s) = Disabled ->
  sampler_kind (item s) = PeriodicTimer ->
  _is_sampling (item s) = true \/ samplingFunc (item s) = false ->
  let s' := snd (setMonitoringMode m s) in
  fst (setMonitoringMode m s) = Throw AssertionError
  /\ monitoringMode (item s') = m
  /\ _is_sampling (item s') = _is_sampling (item s)
  /\ pending_samplings (world s') = pending_samplings (world s).
Proof.
  intros Hreach Hm Hold Hkind Hbad s'.
  destruct (reachable_well_bound _ _ Hreach) as (Hnode & Hbound & _).
  destruct (reachable_sized _ _ Hreach) as (_ & _ & Hsi & _).
  subst s'.
  rewrite setMonitoringMode_enables;
    [|exact Hm
     |destruct Hm as [-> | ->], Hold as [-> | ->]; reflexivity].
  replace (_ || _) with true by (destruct Hold as [-> | ->]; reflexivity).
  set (s0 := on_self (set_monitoringMode m) s).
  assert (is_Some (node (item s0))) as Hnode0 by exact Hnode.
  assert (bound_as (item s0) (world s0)) as Hbound0 by exact Hbound.
  assert (monitoringMode (item s0) = m) as Hm0 by reflexivity.
  change (_is_sampling (item s)) with (_is_sampling (item s0)) in *.
  change (samplingFunc (item s)) with (samplingFunc (item s0)) in *.
  change (pending_samplings (world s)) with (pending_samplings (world s0)).
  change (sampler_kind (item s0) = PeriodicTimer) in Hkind.
  change (samplingInterval (item s)) with (samplingInterval (item s0)) in Hsi.
  clearbody s0. clear s Hreach Hold Hnode Hbound.
  unfold sampler_kind in Hkind.
  destruct (negb (attributeId (itemToMonitor (item s0)) =? AttributeIds_Value))
    eqn:Eattr; [discriminate|].
  destruct (samplingInterval (item s0) =? 0) eqn:E0; [discriminate|].
  apply Z.eqb_neq in E0.
  destruct (_start_sampling true s0) as [r s'] eqn:E. cbn [fst snd].
  unfold _start_sampling in E. autorewrite with js in E.
  rewrite bind_run in E.
  match type of E with context [_stop_sampling ?s1] =>
    destruct (_stop_sampling_unbinds s1)
      as (Fret & Fun & Fnd & Fm & Fitm & Fsi & Fnh);
      [exact Hnode0 | exact Hbound0 |];
    pose proof (_stop_sampling_keeps_guard s1) as Kg;
    destruct (_stop_sampling s1) as [o s2]
  end.
  cbn in Fret, Fun, Fnd, Fm, Fitm, Fsi, Fnh, Kg. subst o.
  destruct Hnode0 as [n Hn]. rewrite Hn in Fnd.
  destruct Fun as (Fh & Ft & Fl).
  destruct s2 as [i2 w2]. destruct_item i2. destruct w2 as [tm ls rg nh pr ps].
  unfold binding_handle in Fh. cbn in *.
  injection Kg as Hbusy Hsf Hps. subst.
  unfold register, setInterval, fresh in E.
  autorewrite with js in E. cbn in E.
  rewrite Eattr in E.
  replace (samplingInterval (item s0) =? 0) with false in E
    by (symmetry; now apply Z.eqb_neq).
  replace (minimumSamplingInterval <=? samplingInterval (item s0))
    with true in E by (symmetry; apply Z.leb_le; lia).
  autorewrite with js in E. cbn in E.
  unfold _on_sampling_timer in E. autorewrite with js in E. cbn in E.
  replace (MonitoringMode_eqb (monitoringMode (item s0)) Sampling
           || MonitoringMode_eqb (monitoringMode (item s0)) Reporting)
    with true in E by (destruct Hm as [-> | ->]; reflexivity).
  autorewrite with js in E.
  destruct (_is_sampling (item s0)); cbn in E |- *.
  { injection E as <- <-. auto. }
  autorewrite with js in E.
  destruct Hbad as [Hbusy | Hsf]; [discriminate|]. rewrite Hsf in E.
  cbn in E. autorewrite with js in E. injection E as <- <-. auto.
Qed.
End FirstTick.

(** A sampled item enabled before the sampling function is installed, and
    one disabled and enabled again while its first sampling is
    outstanding. *)
Lemma enabling_a_sampled_item_asserts_on_the_first_tick_witness :
  let early := scenario_state 1000 3 true None in
  let busy := scenario_run [OpInstallSamplingFunc; OpSetMonitoringMode Reporting;
                            OpSetMonitoringMode Disabled]
                           (scenario_state 1000 3 true None) in
  fst (@setMonitoringMode scalar_DataModel Reporting early)
  = Throw AssertionError
  /\ samplingFunc (item busy) = true
  /\ fst (@setMonitoringMode scalar_DataModel Reporting busy)
     = Throw AssertionError.
Proof.
  cbv zeta. split; [|split; [reflexivity|]].
  - apply (@enabling_a_sampled_item_asserts_on_the_first_tick scalar_DataModel
             (scenario_state 1000 3 true None) Reporting).
    + apply (scenario_state_reachable 1000 3 true None []); lia.
    + now right.
    + now left.
    + reflexivity.
    + now right.
  - apply (@enabling_a_sampled_item_asserts_on_the_first_tick scalar_DataModel
             (scenario_run [OpInstallSamplingFunc; OpSetMonitoringMode Reporting;
                            OpSetMonitoringMode Disabled]
                           (scenario_state 1000 3 true None))
             Reporting).
    + apply scenario_state_reachable; lia.
    + now right.
    + now right.
    + reflexivity.
    + now left.
Defined.

(** ** A sampling callback that throws *)

Section Blocked.
Context `{DataModel}.

(** X26.  The callback of the sampling function clears [_is_sampling] only
    after [_on_value_changed] has returned.  When recording the sampled
    reading throws, the flag stays set, and from then on every tick of the
    timer fails the assertion on re-entrancy and samples nothing. *)
Theorem a_throw_in_the_sampling_callback_blocks_the_sampler (s : State)
    (d : DataValue) (e : Exn) :
  _is_sampling (item s) = true ->
  fst (_on_value_changed d None (item s)) = Throw e ->
  let s' := snd (sampling_callback (Some d) s) in
  fst (sampling_callback (Some d) s) = Throw e
  /\ _is_sampling (item s') = true
  /\ world s' = world s
  /\ (truthy (_samplingId (item s')) = true ->
      _on_sampling_timer s' = (Throw AssertionError, s')).
Proof.
  intros Hbusy Hthrow s'. subst s'.
  unfold sampling_callback. rewrite bind_run. unfold lift_self.
  pose proof (_on_value_changed_keeps_guard d None (item s)) as K.
  destruct (_on_value_changed d None (item s)) as [o i'].
  cbn [fst snd] in *. subst o. cbn [fst snd item world].
  rewrite K, Hbusy. repeat split.
  intros Hid. unfold _on_sampling_timer. rewrite bind_get.
  cbn [item world]. destruct (_ || _); [|reflexivity].
  rewrite bind_assert_true, Hid, K, Hbusy. reflexivity.
Qed.
End Blocked.

(** A sampled item with a queue of two that holds a [Good] and a
    [BadOutOfRange] reading: the next sampled reading makes the enqueue fail
    its assertion. *)
Lemma a_throw_in_the_sampling_callback_blocks_the_sampler_witness :
  let s := scenario_run [OpInstallSamplingFunc; OpSetMonitoringMode Reporting;
                         OpSamplingDone (Some (reading 1 Good)); OpTimer 1;
                         OpSamplingDone (Some (reading 2 BadOutOfRange));
                         OpTimer 1]
                        (scenario_state 1000 2 true None) in
  let s' := snd (@sampling_callback scalar_DataModel (Some (reading 3 Good)) s) in
  fst (@sampling_callback scalar_DataModel (Some (reading 3 Good)) s)
  = Throw AssertionError
  /\ _is_sampling (item s') = true
  /\ @_on_sampling_timer s' = (Throw AssertionError, s').
Proof.
  cbv zeta.
  destruct (@a_throw_in_the_sampling_callback_blocks_the_sampler
              scalar_DataModel
              (scenario_run [OpInstallSamplingFunc; OpSetMonitoringMode Reporting;
                             OpSamplingDone (Some (reading 1 Good)); OpTimer 1;
                             OpSamplingDone (Some (reading 2 BadOutOfRange));
                             OpTimer 1]
                            (scenario_state 1000 2 true None))
              (reading 3 Good) AssertionError)
    as (Hthrow & Hbusy & _ & Htick).
  - reflexivity.
  - reflexivity.
  - split; [exact Hthrow|]. split; [exact Hbusy|]. apply Htick. reflexivity.
Defined.

(** ** The constructor on the options of the scenarios *)

(** A request for a queue of 9000 sampled every 20 ms. *)
Lemma MonitoredItem_new_contract_witness :
  exists self,
    MonitoredItem_new (scenario_options 20 9000 true None) = Return self
    /\ monitoringMode self = Invalid
    /\ queue self = []
    /\ isSampling self = false
    /\ queueSize self = 5000
    /\ samplingInterval self = 50.
Proof.
  destruct (MonitoredItem_new (scenario_options 20 9000 true None))
    as [self|e] eqn:E; [|discriminate E].
  exists self. split; [reflexivity|].
  destruct (MonitoredItem_new_contract (scenario_options 20 9000 true None))
    as [_ Hnew].
  destruct (Hnew self E)
    as (Hmode & Hq & _ & _ & _ & _ & Hs & _ & _ & Hqs & Hsi & _).
  split; [exact Hmode|]. split; [exact Hq|]. split; [exact Hs|].
  split; [exact Hqs|]. injection Hsi as Hsi. now symmetry.
Defined.

(** ** Readings without a value *)

(** X27.  With the trigger [StatusValue] and no or an absolute deadband,
    a reading that carries the status code of the old reading makes the
    filter throw when one of the two has no value: an assertion error when
    the new reading has none and there is no deadband, a type error in
    [difference] otherwise.  The old reading has no value right after
    [_start_sampling]. *)
Theorem filter_throws_on_a_missing_value (self : MonitoredItem)
    (d : DataValue) (deadbandType : DeadbandType) (deadbandValue : Q) :
  filter self = Some (DataChangeFilter StatusValue deadbandType deadbandValue) ->
  deadbandType <> Percent ->
  statusCode d = statusCode (oldDataValue self) ->
  dv_value (oldDataValue self) = None \/ dv_value d = None ->
  apply_filter self d
  = Throw (match deadbandType, dv_value d with
           | DeadbandNone, None => AssertionError
           | _, _ => TypeError
           end).
Proof.
  intros Hf Hdt Hs Hmissing.
  unfold apply_filter, apply_datachange_filter.
  rewrite Hf, (statusCodeHasChanged_same _ _ Hs).
  unfold valueHasChanged, difference.
  destruct deadbandType; [| |contradiction];
    destruct Hmissing as [-> | ->]; cbn;
    try destruct (dv_value d); try destruct (dv_value (oldDataValue self));
    reflexivity.
Qed.

(** A first reading with the status code [BadDataUnavailable], offered to
    an item that was just enabled. *)
Lemma filter_throws_on_a_missing_value_witness :
  let f := DataChangeFilter StatusValue Absolute 10 in
  let s := scenario_run [OpSetMonitoringMode Reporting]
                        (scenario_state 0 3 true (Some f)) in
  apply_filter (item s) (reading 100 BadDataUnavailable) = Throw TypeError
  /\ fst (scenario_recordValue (reading 100 BadDataUnavailable) None (item s))
     = Throw TypeError.
Proof.
  cbv zeta.
  assert (apply_filter
            (item (scenario_run [OpSetMonitoringMode Reporting]
                     (scenario_state 0 3 true
                        (Some (DataChangeFilter StatusValue Absolute 10)))))
            (reading 100 BadDataUnavailable)
          = Throw TypeError) as W.
  { apply (filter_throws_on_a_missing_value _ _ Absolute 10).
    - reflexivity.
    - discriminate.
    - reflexivity.
    - now left. }
  split; [exact W|]. reflexivity.
Defined.
